(** * clover.netcdf: dataset copy, subset, concatenation and warp primitives

    A shallow embedding of [clover/netcdf/utilities.py] and of the slice
    loop of [clover/netcdf/warp.py].

    Conventions of the embedding.
    - A dataset is the pair of Python dictionaries the code manipulates
      ([dataset.dimensions], [dataset.variables]); they are finite maps
      keyed by name.
    - A raised exception is an [Err]; the functions return the mutated
      target dataset instead of mutating it in place.
    - The recursive functions carry a [fuel] argument; running out of it
      stands for Python's recursion limit.
    - Array reads and writes move the stored values unchanged: the
      automatic masking and scaling that netCDF4 applies on access is not
      part of the model, and neither is the growth of an unlimited
      dimension on write (a write has to match the current extent).
    - Integer arithmetic on sizes is exact ([Z]); the floating point
      division of [extract_subset] is its exact quotient. *)

From stdpp Require Import gmap strings list fin_maps.
From Stdlib Require Import ZArith Lia Ascii.

Set Warnings "-register-all".
Open Scope Z_scope.

(** ** Values, arrays and errors *)

(** Scalars held by attributes and array cells.  A float literal is kept
    as the decimal [m * 10^e] it is written with.  [VNcDefault] is the
    content of a cell that was never written in a variable declared
    without a fill value (the library's own default pattern). *)
Inductive value :=
  | VInt (z : Z)
  | VFloat (m e : Z)
  | VStr (s : string)
  | VNcDefault.

Global Instance value_eq_dec : EqDecision value.
Proof. solve_decision. Defined.

(** An N-dimensional array, outermost axis first. *)
Inductive ndarray :=
  | Cell (v : value)
  | Arr (rows : list ndarray).

(** The exceptions the code can end with.  [AlreadyExists] and
    [DimensionConflict] are the two kinds of [raise] of the copy and subset
    functions, [BlocksizeTooSmall] the [NotImplementedError] of
    [extract_subset]; [KeyError] is a failed dictionary lookup,
    [ValueError] a failed unpacking, and [LibraryError] anything raised
    inside netCDF4 or numpy. *)
Inductive error :=
  | AlreadyExists
  | DimensionConflict
  | BlocksizeTooSmall
  | AssertionError
  | KeyError (k : string)
  | TypeError
  | ValueError
  | ZeroDivisionError
  | IndexError
  | AttributeError
  | LibraryError
  | RecursionError.

Global Instance error_eq_dec : EqDecision error.
Proof. solve_decision. Defined.

Inductive result (A : Type) :=
  | Ok (a : A)
  | Err (e : error).
Arguments Ok {A} a.
Arguments Err {A} e.

Global Instance result_ret : MRet result := λ A a, Ok a.
Global Instance result_bind : MBind result := λ A B f m,
  match m with
  | Ok a => f a
  | Err e => Err e
  end.
Global Instance result_fmap : FMap result := λ A B f m,
  match m with
  | Ok a => Ok (f a)
  | Err e => Err e
  end.

(** [d[k]] on a Python dictionary. *)
Definition getitem_dict {A} (m : gmap string A) (k : string) : result A :=
  match m !! k with
  | Some a => Ok a
  | None => Err (KeyError k)
  end.

(** Running a fallible step over a list, left to right, threading a state. *)
Fixpoint foldM {A S} (f : S → A → result S) (l : list A) (s : S) : result S :=
  match l with
  | [] => Ok s
  | a :: l' => s' ← f s a; foldM f l' s'
  end.

(** Running a fallible function over a list, left to right. *)
Fixpoint mapM_result {A B} (f : A → result B) (l : list A) : result (list B) :=
  match l with
  | [] => Ok []
  | a :: l' => b ← f a; bs ← mapM_result f l'; Ok (b :: bs)
  end.

(** ** Shapes *)

Fixpoint has_shape (sh : list nat) (a : ndarray) : bool :=
  match sh, a with
  | [], Cell _ => true
  | n :: sh', Arr rows =>
      bool_decide (length rows = n) && forallb (has_shape sh') rows
  | _, _ => false
  end.

(** A freshly declared array: every cell holds [v]. *)
Fixpoint full (sh : list nat) (v : value) : ndarray :=
  match sh with
  | [] => Cell v
  | n :: sh' => Arr (replicate n (full sh' v))
  end.

(** [numpy.product]: the product of a list of lengths, [1] when empty. *)
Definition product (l : list Z) : Z := foldr Z.mul 1 l.

(** ** The data model *)

Inductive dtype :=
  | int8 | int16 | int32 | int64
  | uint8 | uint16 | uint32 | uint64
  | float32 | float64
  | str.

Global Instance dtype_eq_dec : EqDecision dtype.
Proof. solve_decision. Defined.

(** [str(variable.dtype)]: a numpy dtype prints as its name, the Python
    type [str] of a string variable as a quoted class name. *)
Definition dtype_repr (d : dtype) : string :=
  match d with
  | int8 => "int8" | int16 => "int16" | int32 => "int32" | int64 => "int64"
  | uint8 => "uint8" | uint16 => "uint16" | uint32 => "uint32"
  | uint64 => "uint64"
  | float32 => "float32" | float64 => "float64"
  | str => "<class 'str'>"
  end.

Record Dimension := {
  dim_len : nat;
  isunlimited : bool
}.

(** A netCDF variable (the class [Variable] of the library).  [ncattrs] is
    its attribute dictionary; Python's [hasattr] and [getattr] on a variable
    read the same dictionary. *)
Record NcVariable := {
  var_dtype : dtype;
  var_dimensions : list string;
  ncattrs : gmap string value;
  var_data : ndarray
}.

Record Dataset := {
  dimensions : gmap string Dimension;
  variables : gmap string NcVariable
}.

Definition set_dimensions (ds : Dataset) (d : gmap string Dimension) : Dataset :=
  {| dimensions := d; variables := variables ds |}.

Definition set_variables (ds : Dataset) (v : gmap string NcVariable) : Dataset :=
  {| dimensions := dimensions ds; variables := v |}.

Definition set_data (v : NcVariable) (a : ndarray) : NcVariable :=
  {| var_dtype := var_dtype v; var_dimensions := var_dimensions v;
     ncattrs := ncattrs v; var_data := a |}.

Definition set_ncattrs (v : NcVariable) (a : gmap string value) : NcVariable :=
  {| var_dtype := var_dtype v; var_dimensions := var_dimensions v;
     ncattrs := a; var_data := var_data v |}.

(** [k in d] on a Python dictionary. *)
Definition contains {A} (m : gmap string A) (k : string) : bool :=
  bool_decide (is_Some (m !! k)).

(** ** Strings: [dtype.split("'")] *)

Definition quote : ascii := "'"%char.

Fixpoint py_split (sep : ascii) (s : string) : list string :=
  match s with
  | EmptyString => [EmptyString]
  | String c s' =>
      if Ascii.eqb c sep then EmptyString :: py_split sep s'
      else match py_split sep s' with
           | w :: ws => String c w :: ws
           | [] => [String c EmptyString]
           end
  end.

Fixpoint has_char (c : ascii) (s : string) : bool :=
  match s with
  | EmptyString => false
  | String c' s' => Ascii.eqb c' c || has_char c s'
  end.

Definition get_dtype_string (variable : NcVariable) : string :=
  let dtype := dtype_repr (var_dtype variable) in
  if has_char quote dtype
  then default EmptyString (py_split quote dtype !! 1%nat)
  else dtype.

(** ** The library operations the code calls *)

(** [dataset.createDimension(name, size)]; [None] declares an unlimited
    dimension.  The library refuses a name in use and a negative size. *)
Definition createDimension (ds : Dataset) (name : string) (size : option Z)
  : result Dataset :=
  if contains (dimensions ds) name then Err LibraryError
  else match size with
       | None =>
           Ok (set_dimensions ds
                 (<[name := {| dim_len := 0; isunlimited := true |}]> (dimensions ds)))
       | Some n =>
           if n <? 0 then Err LibraryError
           else Ok (set_dimensions ds
                      (<[name := {| dim_len := Z.to_nat n; isunlimited := false |}]>
                         (dimensions ds)))
       end.

(** The shape a list of dimension names stands for in a dataset. *)
Definition shape_of (ds : Dataset) (dims : list string) : result (list nat) :=
  mapM_result (λ d, match dimensions ds !! d with
                    | Some dim => Ok (dim_len dim)
                    | None => Err LibraryError
                    end) dims.

(** The attributes of a variable that has just been created: a fill value
    given to [createVariable] is recorded as the attribute [_FillValue]. *)
Definition fill_ncattrs (fill_value : option value) : gmap string value :=
  match fill_value with
  | Some v => {["_FillValue" := v]}
  | None => ∅
  end.

(** [dataset.createVariable(name, dtype, dims, fill_value=...)].  The
    library refuses a name in use and an undeclared dimension.  A fill
    value given here becomes the [_FillValue] attribute of the new variable
    and its initial content; this is the attribute the copy loops find
    "already present" on a variable they have just created. *)
Definition createVariable (ds : Dataset) (name : string) (dt : dtype)
    (dims : list string) (fill_value : option value) : result Dataset :=
  if contains (variables ds) name then Err LibraryError
  else
    sh ← shape_of ds dims;
    Ok (set_variables ds
          (<[name := {| var_dtype := dt;
                        var_dimensions := dims;
                        ncattrs := fill_ncattrs fill_value;
                        var_data := full sh (default VNcDefault fill_value) |}]>
             (variables ds))).

(** [variable[:] = a]: the array written has to have the variable's shape. *)
Definition assign_all (ds : Dataset) (name : string) (a : ndarray) : result Dataset :=
  v ← getitem_dict (variables ds) name;
  sh ← shape_of ds (var_dimensions v);
  if has_shape sh a
  then Ok (set_variables ds (<[name := set_data v a]> (variables ds)))
  else Err LibraryError.

(** The loop that ends [copy_variable], [extract_subset] and
    [concat_variable_along_dimension]: every attribute of the source that
    the target does not have yet is set on the target. *)
Definition copy_missing_ncattrs (source target : gmap string value)
  : gmap string value :=
  map_fold (λ attribute_name v acc,
              if contains acc attribute_name then acc
              else <[attribute_name := v]> acc)
           target source.

Definition copy_variable_ncattrs (source_variable : NcVariable) (ds : Dataset)
    (name : string) : result Dataset :=
  target_variable ← getitem_dict (variables ds) name;
  Ok (set_variables ds
        (<[name := set_ncattrs target_variable
                     (copy_missing_ncattrs (ncattrs source_variable)
                        (ncattrs target_variable))]> (variables ds))).

(** ** Attribute dictionaries: [get_ncattrs] and [set_ncattrs]

    The two functions of utilities.py that move the attributes of a netCDF
    object out into, and in from, a Python dictionary.  They have a name
    space of their own because [set_ncattrs] is also the name of the record
    update above. *)

(** [obj.setncattr(key, value)]. *)
Definition setncattr (obj : NcVariable) (key : string) (v : value) : NcVariable :=
  set_ncattrs obj (<[key := v]> (ncattrs obj)).

Module Attributes.


(** The loop over the keys of [atts]. *)
Definition set_ncattrs (obj : NcVariable) (atts : gmap string value) : NcVariable :=
  map_fold (λ key v obj, setncattr obj key v) obj atts.

End Attributes.

(** ** clover/netcdf/utilities.py *)

Section Utilities.

(** [netCDF4.default_fillvals], the library table that
    [DEFAULT_FILL_VALUES] starts from. *)
Context (default_fillvals : gmap string value).

Definition NC_FILL_FLOAT : value := VFloat 99692099683868690 20.

Definition DEFAULT_FILL_VALUES : gmap string value :=
  list_to_map
    [ ("NC_FILL_BYTE", VInt (-127));
      ("NC_FILL_CHAR", VInt 0);
      ("NC_FILL_SHORT", VInt (-32767));
      ("NC_FILL_INT", VInt (-2147483647));
      ("NC_FILL_FLOAT", NC_FILL_FLOAT);
      ("NC_FILL_DOUBLE", NC_FILL_FLOAT);
      ("int8", VInt (-127));
      ("int16", VInt (-32767));
      ("float32", NC_FILL_FLOAT);
      ("float64", NC_FILL_FLOAT);
      ("int32", VInt (-2147483647));
      ("uint8", VInt 255);
      ("uint16", VInt 65535) ]
  ∪ default_fillvals.

Definition get_fill_value_for_variable (variable : NcVariable) : result value :=
  match ncattrs variable !! "fill_value" with
  | Some v => Ok v
  | None =>
      match ncattrs variable !! "_FillValue" with
      | Some v => Ok v
      | None =>
          match ncattrs variable !! "missing_value" with
          | Some v => Ok v
          | None => getitem_dict DEFAULT_FILL_VALUES (get_dtype_string variable)
          end
      end
  end.

Definition copy_dimension (source_dataset target_dataset : Dataset)
    (name : string) (overwrite allow_unlimited : bool) : result Dataset :=
  target_dataset ←
    (if contains (dimensions target_dataset) name then
       if overwrite
       then Ok (set_dimensions target_dataset (delete name (dimensions target_dataset)))
       else Err AlreadyExists
     else Ok target_dataset);
  source_dimension ← getitem_dict (dimensions source_dataset) name;
  if allow_unlimited && isunlimited source_dimension
  then createDimension target_dataset name None
  else createDimension target_dataset name (Some (Z.of_nat (dim_len source_dimension))).

(** The test of [copy_variable] on a dimension the target already has:
    [not (len(target) == len(source) or
          target.isunlimited() == source.isunlimited())]. *)
Definition dimension_conflict (target_dimension source_dimension : Dimension) : bool :=
  negb (bool_decide (dim_len target_dimension = dim_len source_dimension)
        || bool_decide (isunlimited target_dimension = isunlimited source_dimension)).

(** The body of the loop of [copy_variable] over the dimensions of the
    source variable; [recurse] is the recursive call on a coordinate
    variable. *)
Definition copy_variable_dimension (recurse : Dataset → string → result Dataset)
    (source_dataset : Dataset) (name : string)
    (target_dataset : Dataset) (dimension_name : string) : result Dataset :=
  target_dataset ←
    (if contains (dimensions target_dataset) dimension_name then
       source_dimension ← getitem_dict (dimensions source_dataset) dimension_name;
       target_dimension ← getitem_dict (dimensions target_dataset) dimension_name;
       if dimension_conflict target_dimension source_dimension
       then Err DimensionConflict
       else Ok target_dataset
     else copy_dimension source_dataset target_dataset dimension_name true false);
  if contains (variables source_dataset) dimension_name
     && negb (contains (variables target_dataset) dimension_name)
     && negb (bool_decide (dimension_name = name))
  then recurse target_dataset dimension_name
  else Ok target_dataset.

(** The keyword arguments reach [createVariable]; of them the model keeps
    [fill_value] ([None]: the key is absent).  [copy_fill_value] is the
    value of [kwargs.get('fill_value')] once [copy_variable] has set its
    default: no default for a string variable. *)
Definition copy_fill_value (source_variable : NcVariable) (fill_value : option value)
  : result (option value) :=
  match fill_value with
  | Some v => Ok (Some v)
  | None =>
      if bool_decide (var_dtype source_variable ≠ str)
      then Some <$> get_fill_value_for_variable source_variable
      else Ok None
  end.

Fixpoint copy_variable (fuel : nat) (source_dataset target_dataset : Dataset)
    (name : string) (overwrite : bool) (fill_value : option value)
  : result Dataset :=
  match fuel with
  | O => Err RecursionError
  | S fuel' =>
      target_dataset ←
        (if contains (variables target_dataset) name then
           if overwrite
           then Ok (set_variables target_dataset (delete name (variables target_dataset)))
           else Err AlreadyExists
         else Ok target_dataset);
      source_variable ← getitem_dict (variables source_dataset) name;
      target_dataset ←
        foldM (copy_variable_dimension
                 (λ target_dataset dimension_name,
                    copy_variable fuel' source_dataset target_dataset
                      dimension_name true None)
                 source_dataset name)
          (var_dimensions source_variable) target_dataset;
      fill_value ← copy_fill_value source_variable fill_value;
      target_dataset ←
        createVariable target_dataset name (var_dtype source_variable)
          (var_dimensions source_variable) fill_value;
      target_dataset ← assign_all target_dataset name (var_data source_variable);
      copy_variable_ncattrs source_variable target_dataset name
  end.

(** *** Slices *)

(** [slice(start, stop)]; the code never gives a step. *)
Record pyslice := {
  start : option Z;
  stop : option Z
}.

(** A bound of a slice against a sequence of length [len]: a negative
    bound counts from the end, and every bound is clipped to the sequence. *)
Definition clamp_index (i : Z) (len : nat) : nat :=
  Z.to_nat (if i <? 0 then Z.max 0 (i + Z.of_nat len) else Z.min i (Z.of_nat len)).

Definition slice_bounds (s : pyslice) (len : nat) : nat * nat :=
  (from_option (λ i, clamp_index i len) 0%nat (start s),
   from_option (λ i, clamp_index i len) len (stop s)).

(** [l[start:stop]]. *)
Definition py_slice {A} (s : pyslice) (l : list A) : list A :=
  drop (slice_bounds s (length l)).1 (take (slice_bounds s (length l)).2 l).

(** [variable[slices]]: one item per axis; an item that is [None] (and an
    index into a scalar) is refused by the library. *)
Fixpoint getitem (slices : list (option pyslice)) (a : ndarray) : result ndarray :=
  match slices with
  | [] => Ok a
  | item :: rest =>
      match item, a with
      | Some s, Arr rows => Arr <$> mapM_result (getitem rest) (py_slice s rows)
      | _, _ => Err LibraryError
      end
  end.

(** [current[lo:hi] = a] on an array of shape [sh]: [a] has to hold exactly
    the rows of the range. *)
Definition write_rows (sh : list nat) (lo hi : Z) (a current : ndarray)
  : result ndarray :=
  match sh, current, a with
  | n :: sh', Arr rows, Arr new =>
      let b := slice_bounds {| start := Some lo; stop := Some hi |} (length rows) in
      if has_shape ((b.2 - b.1)%nat :: sh') a
      then Ok (Arr (take b.1 rows ++ new ++ drop (b.1 `max` b.2)%nat rows))
      else Err LibraryError
  | _, _, _ => Err LibraryError
  end.

(** [variable[lo:hi] = a]. *)
Definition assign_slice (ds : Dataset) (name : string) (lo hi : Z) (a : ndarray)
  : result Dataset :=
  v ← getitem_dict (variables ds) name;
  sh ← shape_of ds (var_dimensions v);
  data ← write_rows sh lo hi a (var_data v);
  Ok (set_variables ds (<[name := set_data v data]> (variables ds))).

(** [l[0]] on a Python list. *)
Definition first {A} (l : list A) : result A :=
  match l with
  | [] => Err IndexError
  | a :: _ => Ok a
  end.

(** [math.ceil(a / b)]. *)
Definition ceil_div (a b : Z) : Z := - ((- a) / b).

(** *** extract_subset *)

(** Whether [slices[index] is None or slices[index].start is None]. *)
Definition unbounded (item : option pyslice) : bool :=
  match item with
  | None => true
  | Some s => bool_decide (start s = None)
  end.

(** [cur_slice.stop - cur_slice.start]. *)
Definition slice_span (s : pyslice) : result Z :=
  match stop s, start s with
  | Some b, Some a => Ok (b - a)
  | _, _ => Err TypeError
  end.

(** The loop of [extract_subset] over the dimensions of the variable, from
    position [index] on; it stops at a dimension named like the variable.
    The state is the target dataset, [slices] and [target_shape];
    [recurse] is the recursive call on a coordinate variable. *)
Fixpoint subset_dimensions (recurse : Dataset → string → pyslice → result Dataset)
    (source_dataset : Dataset) (name : string) (dims : list string) (index : nat)
    (st : Dataset * list (option pyslice) * list Z)
  : result (Dataset * list (option pyslice) * list Z) :=
  match dims with
  | [] => Ok st
  | dimension :: dims' =>
      if bool_decide (dimension = name) then Ok st
      else
        let '(target_dataset, slices, target_shape) := st in
        item ← from_option Ok (Err IndexError) (slices !! index);
        slices ←
          (if unbounded item then
             source_dimension ← getitem_dict (dimensions source_dataset) dimension;
             Ok (<[index := Some {| start := Some 0;
                                    stop := Some (Z.of_nat (dim_len source_dimension)) |}]>
                   slices)
           else Ok slices);
        cur_slice ← from_option Ok (Err AttributeError) (mjoin (slices !! index));
        dimension_length ← slice_span cur_slice;
        let target_shape := target_shape ++ [dimension_length] in
        target_dataset ←
          (if contains (dimensions target_dataset) dimension then
             target_dimension ← getitem_dict (dimensions target_dataset) dimension;
             if bool_decide (Z.of_nat (dim_len target_dimension) = dimension_length)
             then Ok target_dataset
             else Err DimensionConflict
           else createDimension target_dataset dimension (Some dimension_length));
        target_dataset ←
          (if contains (variables source_dataset) dimension
              && negb (contains (variables target_dataset) dimension)
           then recurse target_dataset dimension cur_slice
           else Ok target_dataset);
        subset_dimensions recurse source_dataset name dims' (S index)
          (target_dataset, slices, target_shape)
  end.

(** [target_name or name]. *)
Definition or_name (target_name : option string) (name : string) : string :=
  match target_name with
  | Some t => if bool_decide (t = EmptyString) then name else t
  | None => name
  end.

(** One pass of the block loop of [extract_subset]. *)
Definition transfer_block (source_variable : NcVariable) (target_name : string)
    (slices : list (option pyslice)) (target_shape : list Z) (increment : Z)
    (target_dataset : Dataset) (i : Z) : result Dataset :=
  slices0 ← first slices;
  slices0 ← from_option Ok (Err AttributeError) slices0;
  start0 ← from_option Ok (Err TypeError) (start slices0);
  stop0 ← from_option Ok (Err TypeError) (stop slices0);
  let first_slice := {| start := Some (start0 + i * increment);
                        stop := Some (Z.min (start0 + (i + 1) * increment) stop0) |} in
  let updated_slices := Some first_slice :: tail slices in
  a ← getitem updated_slices (var_data source_variable);
  shape0 ← first target_shape;
  assign_slice target_dataset target_name
    (i * increment) (Z.min (i * increment + increment) shape0) a.

(** The transfer of the data: in one assignment when the target is smaller
    than [blocksize], in increments of the first dimension otherwise. *)
Definition transfer (source_variable : NcVariable) (target_dataset : Dataset)
    (target_name : string) (slices : list (option pyslice)) (target_shape : list Z)
    (blocksize : Z) : result Dataset :=
  let target_size := product target_shape in
  if bool_decide (target_size < blocksize) then
    a ← getitem slices (var_data source_variable);
    assign_all target_dataset target_name a
  else if bool_decide (product (tail target_shape) >= blocksize) then
    Err BlocksizeTooSmall
  else
    shape0 ← first target_shape;
    increment ←
      (if bool_decide (target_size = 0) then Err ZeroDivisionError
       else Ok (shape0 * blocksize / target_size));
    num_increments ←
      (if bool_decide (increment = 0) then Err ZeroDivisionError
       else Ok (ceil_div shape0 increment));
    foldM (transfer_block source_variable target_name slices target_shape increment)
      (seqZ 0 num_increments) target_dataset.

Fixpoint extract_subset (fuel : nat) (source_dataset target_dataset : Dataset)
    (name : string) (slices : list (option pyslice)) (target_name : option string)
    (blocksize : Z) (fill_value : option value) : result Dataset :=
  match fuel with
  | O => Err RecursionError
  | S fuel' =>
      source_variable ← getitem_dict (variables source_dataset) name;
      if negb (bool_decide (length slices = length (var_dimensions source_variable)))
      then Err AssertionError
      else if contains (variables target_dataset) name then Err AlreadyExists
      else
        st ← subset_dimensions
               (λ target_dataset dimension cur_slice,
                  extract_subset fuel' source_dataset target_dataset dimension
                    [Some cur_slice] None 100000000 None)
               source_dataset name (var_dimensions source_variable) 0
               (target_dataset, slices, []);
        let '(target_dataset, slices, target_shape) := st in
        fill_value ←
          (match fill_value with
           | Some v => Ok v
           | None => get_fill_value_for_variable source_variable
           end);
        target_dataset ←
          createVariable target_dataset (or_name target_name name)
            (var_dtype source_variable) (var_dimensions source_variable)
            (Some fill_value);
        target_dataset ←
          transfer source_variable target_dataset (or_name target_name name)
            slices target_shape blocksize;
        copy_variable_ncattrs source_variable target_dataset (or_name target_name name)
  end.

(** *** concat_variable_along_dimension *)

(** The two kinds of [source_datasets]: a sequence of datasets, or an
    [OrderedDict] from label to dataset, whose [keys()] and [values()] are
    the lists of its entries in insertion order (lists as in Python 2: the
    code indexes [values()]). *)
Inductive sources :=
  | Sequence (datasets : list Dataset)
  | Labelled (entries : list (string * Dataset)).

Definition source_labels (s : sources) : option (list string) :=
  match s with
  | Sequence _ => None
  | Labelled entries => Some entries.*1
  end.

Definition source_values (s : sources) : list Dataset :=
  match s with
  | Sequence datasets => datasets
  | Labelled entries => entries.*2
  end.

(** [enumerate(l)]. *)
Definition enumerate {A} (l : list A) : list (nat * A) :=
  zip (seq 0 (length l)) l.

(** [variable[index,] = a] and [variable[index] = a]: one entry of the
    first axis is replaced; [a] has to have the shape of an entry. *)
Definition assign_index (ds : Dataset) (name : string) (index : nat) (a : ndarray)
  : result Dataset :=
  v ← getitem_dict (variables ds) name;
  sh ← shape_of ds (var_dimensions v);
  match sh, var_data v with
  | n :: sh', Arr rows =>
      if bool_decide (index < length rows)%nat && has_shape sh' a
      then Ok (set_variables ds
                 (<[name := set_data v (Arr (<[index := a]> rows))]> (variables ds)))
      else Err LibraryError
  | _, _ => Err LibraryError
  end.

Definition concat_variable_along_dimension (fuel : nat) (source_datasets : sources)
    (target_dataset : Dataset) (variable_name dimension_name : string)
    (fill_value : option value) : result Dataset :=
  if negb (bool_decide (1 < length (source_values source_datasets))%nat)
  then Err AssertionError
  else
    let labels := source_labels source_datasets in
    let source_datasets := source_values source_datasets in
    source_dataset ← first source_datasets;
    source_variable ← getitem_dict (variables source_dataset) variable_name;
    target_dataset ←
      foldM (λ target_dataset dim,
               target_dataset ← copy_dimension source_dataset target_dataset dim true false;
               if contains (variables source_dataset) dim
               then copy_variable fuel source_dataset target_dataset dim true None
               else Ok target_dataset)
            (var_dimensions source_variable) target_dataset;
    target_dataset ←
      createDimension target_dataset dimension_name
        (Some (Z.of_nat (length source_datasets)));
    target_dataset ←
      (match labels with
       | Some labels =>
           target_dataset ←
             createVariable target_dataset dimension_name str [dimension_name] None;
           foldM (λ target_dataset entry,
                    assign_index target_dataset dimension_name entry.1
                      (Cell (VStr entry.2)))
                 (enumerate labels) target_dataset
       | None => Ok target_dataset
       end);
    fill_value ←
      (match fill_value with
       | Some v => Ok v
       | None => get_fill_value_for_variable source_variable
       end);
    target_dataset ←
      createVariable target_dataset variable_name (var_dtype source_variable)
        (dimension_name :: var_dimensions source_variable) (Some fill_value);
    target_dataset ← copy_variable_ncattrs source_variable target_dataset variable_name;
    foldM (λ target_dataset entry,
             v ← getitem_dict (variables entry.2) variable_name;
             assign_index target_dataset variable_name entry.1 (var_data v))
          (enumerate source_datasets) target_dataset.

(** ** clover/netcdf/warp.py *)

(** A two-dimensional [numpy.ma] array: the data and, cell by cell,
    whether the cell is masked. *)
Record masked_array := {
  ma_data : list (list value);
  ma_mask : list (list bool)
}.

(** What the code takes from outside:
    - [reproject data out]: the resampling engine ([rasterio.warp]).  It
      fails, or it overwrites the destination buffer in place; its answer is
      the new content of every cell of the buffer;
    - [coords_shape dataset x_name y_name]: the [shape] of
      [SpatialCoordinateVariables.from_dataset] (clover/netcdf/variable.py);
    - [sample_fill_value variable]: [variable[0, 0].fill_value], the
      sentinel numpy attaches to a masked sample. *)
Context (reproject : ndarray → list (list value) → result (nat → nat → value)).
Context (coords_shape : Dataset → string → string → result (nat * nat)).
Context (sample_fill_value : NcVariable → result value).

(** An array of two axes as a grid of scalars. *)
Definition grid_of (a : ndarray) : result (list (list value)) :=
  match a with
  | Arr rows =>
      mapM_result (λ row,
          match row with
          | Arr cells =>
              mapM_result (λ c, match c with
                                | Cell v => Ok v
                                | Arr _ => Err LibraryError
                                end) cells
          | Cell _ => Err LibraryError
          end) rows
  | Cell _ => Err LibraryError
  end.

(** [variable[:].mask]: the library masks the cells that hold the
    variable's [_FillValue] or [missing_value]. *)
Definition is_missing (v : NcVariable) (c : value) : bool :=
  bool_decide (ncattrs v !! "_FillValue" = Some c)
  || bool_decide (ncattrs v !! "missing_value" = Some c).

Definition read_mask (v : NcVariable) : result (list (list bool)) :=
  match grid_of (var_data v) with
  | Ok g => Ok ((λ row : list value, is_missing v <$> row) <$> g)
  | Err e => Err e
  end.

(** [numpy.ma.empty(shape)]; the content is whatever the memory held. *)
Definition ma_empty (shape : nat * nat) : masked_array :=
  {| ma_data := replicate shape.1 (replicate shape.2 VNcDefault);
     ma_mask := replicate shape.1 (replicate shape.2 false) |}.

(** [out.mask = mask]: the mask has to have the shape of the array. *)
Definition set_mask (out : masked_array) (mask : list (list bool))
  : result masked_array :=
  if bool_decide (length <$> mask = length <$> ma_data out)
  then Ok {| ma_data := ma_data out; ma_mask := mask |}
  else Err LibraryError.

(** [out.fill(v)]. *)
Definition ma_fill (out : masked_array) (v : value) : masked_array :=
  {| ma_data := (λ row : list value, (λ _, v) <$> row) <$> ma_data out;
     ma_mask := ma_mask out |}.

(** [reproject(data, out, ...)]: the buffer of [out] is overwritten in
    place, its mask stays. *)
Definition run_reproject (data : ndarray) (out : masked_array) : result masked_array :=
  cells ← reproject data (ma_data out);
  Ok {| ma_data := imap (λ r row, imap (λ c _, cells r c) row) (ma_data out);
        ma_mask := ma_mask out |}.

(** What the library stores when a masked array is assigned to a variable:
    the data, with every masked cell replaced by the [_FillValue] of the
    variable. *)
Definition filled (out : masked_array) (fv : value) : ndarray :=
  Arr (zip_with (λ drow mrow,
                   Arr (zip_with (λ d (b : bool), Cell (if b then fv else d)) drow mrow))
                (ma_data out) (ma_mask out)).

Definition variable_fill (v : NcVariable) : value :=
  default VNcDefault (ncattrs v !! "_FillValue").

(** The body of the slice loop: lines 92 to 95 of warp.py. *)
Definition warp_slice (shape : nat * nat) (template_mask : list (list bool))
    (fill_value : value) (data : ndarray) : result masked_array :=
  let out := ma_empty shape in
  out ← set_mask out template_mask;
  let out := ma_fill out fill_value in
  run_reproject data out.

(** [dimensions[:-2]]. *)
Definition leading_dimensions (dims : list string) : list string :=
  take (length dims - 2) dims.

(** [dimensions[-2:]]. *)
Definition spatial_dimensions (dims : list string) : list string :=
  drop (length dims - 2) dims.

(** The body of the loop of [warp_like] over [variables]. *)
Definition warp_variable (fuel : nat) (ds out_ds : Dataset)
    (template_variable : NcVariable) (template_mask : list (list bool))
    (shape : nat * nat) (variable_name : string) : result Dataset :=
  variable ← getitem_dict (variables ds) variable_name;
  sample ← sample_fill_value variable;
  let fill_value := default sample (ncattrs variable !! "_FillValue") in
  out_ds ←
    foldM (λ out_ds dim_name,
             if contains (dimensions out_ds) dim_name then Ok out_ds
             else if contains (variables ds) dim_name
                  then copy_variable fuel ds out_ds dim_name true None
                  else copy_dimension ds out_ds dim_name true false)
          (leading_dimensions (var_dimensions variable)) out_ds;
  out_ds ←
    createVariable out_ds variable_name (var_dtype variable)
      (leading_dimensions (var_dimensions variable) ++ var_dimensions template_variable)
      (Some fill_value);
  if bool_decide (length (var_dimensions variable) = 3%nat) then
    match var_data variable with
    | Arr slices =>
        foldM (λ out_ds entry,
                 out ← warp_slice shape template_mask fill_value entry.2;
                 out_var ← getitem_dict (variables out_ds) variable_name;
                 assign_index out_ds variable_name entry.1
                   (filled out (variable_fill out_var)))
              (enumerate slices) out_ds
    | Cell _ => Err LibraryError
    end
  else
    out ← warp_slice shape template_mask fill_value (var_data variable);
    out_var ← getitem_dict (variables out_ds) variable_name;
    assign_all out_ds variable_name (filled out (variable_fill out_var)).

Definition warp_like (fuel : nat) (ds : Dataset) (variables_ : list string)
    (out_ds template_ds : Dataset) (template_varname : string) : result Dataset :=
  template_variable ← getitem_dict (variables template_ds) template_varname;
  template_mask ← read_mask template_variable;
  match spatial_dimensions (var_dimensions template_variable) with
  | [template_y_name; template_x_name] =>
      shape ← coords_shape template_ds template_x_name template_y_name;
      first_name ← first variables_;
      first_variable ← getitem_dict (variables ds) first_name;
      match spatial_dimensions (var_dimensions first_variable) with
      | [ds_y_name; ds_x_name] =>
          _ ← coords_shape ds ds_x_name ds_y_name;
          out_ds ←
            foldM (λ out_ds dim_name,
                     if contains (dimensions out_ds) dim_name then Ok out_ds
                     else if contains (variables template_ds) dim_name
                             && negb (contains (variables out_ds) dim_name)
                          then copy_variable fuel template_ds out_ds dim_name true None
                          else copy_dimension template_ds out_ds dim_name true false)
                  (var_dimensions template_variable) out_ds;
          foldM (λ out_ds variable_name,
                   warp_variable fuel ds out_ds template_variable template_mask
                     shape variable_name)
                variables_ out_ds
      | _ => Err ValueError
      end
  | _ => Err ValueError
  end.

(** ** Vocabulary of the properties *)

(** [target_variable] is what [copy_variable], called with the keyword
    [fill_value], makes of [source_variable]: same type, dimensions and
    data; the attributes of the source, with [_FillValue] set to the fill
    value the variable was created with. *)
Definition is_copy_of (source_variable : NcVariable) (fill_value : option value)
    (target_variable : NcVariable) : Prop :=
  ∃ fv, copy_fill_value source_variable fill_value = Ok fv
        ∧ target_variable
          = {| var_dtype := var_dtype source_variable;
               var_dimensions := var_dimensions source_variable;
               ncattrs := fill_ncattrs fv ∪ ncattrs source_variable;
               var_data := var_data source_variable |}.

(** The variable [name] of the target has all it depends on: every
    dimension the source variable [name] runs over is declared in the
    target, and so is every coordinate variable of these dimensions. *)
Definition dependencies_present (source_dataset target_dataset : Dataset)
    (name : string) : Prop :=
  ∀ source_variable dimension_name,
    variables source_dataset !! name = Some source_variable →
    dimension_name ∈ var_dimensions source_variable →
    is_Some (dimensions target_dataset !! dimension_name)
    ∧ (is_Some (variables source_dataset !! dimension_name) →
       is_Some (variables target_dataset !! dimension_name)).

(** [target_dataset'] comes from [target_dataset] by copies out of
    [source_dataset]: what the target held is still there, unchanged, and
    every variable that was added is the copy of the source variable of its
    name and has all it depends on. *)
Definition grown_by_copies (source_dataset target_dataset target_dataset' : Dataset)
  : Prop :=
  (∀ k v, variables target_dataset !! k = Some v →
          variables target_dataset' !! k = Some v)
  ∧ (∀ k d, dimensions target_dataset !! k = Some d →
            dimensions target_dataset' !! k = Some d)
  ∧ (∀ k target_variable,
       variables target_dataset !! k = None →
       variables target_dataset' !! k = Some target_variable →
       ∃ source_variable,
         variables source_dataset !! k = Some source_variable
         ∧ is_copy_of source_variable None target_variable
         ∧ dependencies_present source_dataset target_dataset' k).

(** What a call [copy_variable(source_dataset, target_dataset, name,
    fill_value=...)] that returns has made of the target. *)
Definition copied_into (source_dataset target_dataset : Dataset) (name : string)
    (fill_value : option value) (target_dataset' : Dataset) : Prop :=
  (∀ k v, k ≠ name → variables target_dataset !! k = Some v →
          variables target_dataset' !! k = Some v)
  ∧ (∀ k d, dimensions target_dataset !! k = Some d →
            dimensions target_dataset' !! k = Some d)
  ∧ (∀ k target_variable,
       k ≠ name →
       variables target_dataset !! k = None →
       variables target_dataset' !! k = Some target_variable →
       ∃ source_variable,
         variables source_dataset !! k = Some source_variable
         ∧ is_copy_of source_variable None target_variable
         ∧ dependencies_present source_dataset target_dataset' k)
  ∧ (∃ source_variable target_variable,
       variables source_dataset !! name = Some source_variable
       ∧ variables target_dataset' !! name = Some target_variable
       ∧ is_copy_of source_variable fill_value target_variable)
  ∧ dependencies_present source_dataset target_dataset' name.

(** The cell of an array at a list of indices, one per axis. *)
Fixpoint cell_at (idx : list nat) (a : ndarray) : option value :=
  match idx, a with
  | [], Cell v => Some v
  | i :: idx', Arr rows => rows !! i ≫= cell_at idx'
  | _, _ => None
  end.

(** The slice given for the first axis stays within the data of the source
    variable: when it is unbounded, the length of the source dimension is
    at most the number of entries of the data; when it is bounded, its
    start is not negative and its stop is at most that number. *)
Definition leading_slice_valid (source_dataset : Dataset)
    (source_variable : NcVariable) (slices : list (option pyslice)) : Prop :=
  ∀ dimension item,
    head (var_dimensions source_variable) = Some dimension →
    head slices = Some item →
    ∃ rows,
      var_data source_variable = Arr rows
      ∧ (unbounded item = true →
         ∀ source_dimension,
           dimensions source_dataset !! dimension = Some source_dimension →
           (dim_len source_dimension ≤ length rows)%nat)
      ∧ (∀ s a b, item = Some s → start s = Some a → stop s = Some b →
                  0 ≤ a ∧ b ≤ Z.of_nat (length rows)).

(** Reading one entry of the first axis and checking that it has the shape
    of an entry of the target. *)
Definition read_entry (rest : list (option pyslice)) (rsh : list nat) (row : ndarray)
  : result ndarray :=
  r ← getitem rest row;
  if has_shape rsh r then Ok r else Err LibraryError.

(** A result whose errors are all turned into [LibraryError]. *)
Definition or_library_error {A} (m : result A) : result A :=
  match m with
  | Ok a => Ok a
  | Err _ => Err LibraryError
  end.

(** ** The other copy functions of utilities.py *)

(** [copy_attributes(source, target, attribute_names, overwrite)].  The two
    objects are their attribute dictionaries: [hasattr], [getattr] and
    [setattr] test, read and set an entry, and [getattr] raises
    [AttributeError] on a name the source does not have. *)
Definition copy_attributes (source target : gmap string value)
    (attribute_names : list string) (overwrite : bool)
  : result (gmap string value) :=
  foldM (λ target attribute_name,
           if contains target attribute_name && negb overwrite
           then Err AlreadyExists
           else
             v ← from_option Ok (Err AttributeError) (source !! attribute_name);
             Ok (<[attribute_name := v]> target))
        attribute_names target.

(** [copy_variable_dimensions].  Its keyword arguments go to [copy_variable]
    and to [copy_dimension] alike; as before the model keeps [fill_value] of
    them, a keyword that [copy_dimension] does not take, so that Python
    refuses the call with a [TypeError]. *)
Definition copy_variable_dimensions (fuel : nat)
    (source_dataset target_dataset : Dataset) (name : string) (overwrite : bool)
    (fill_value : option value) : result Dataset :=
  source_variable ← getitem_dict (variables source_dataset) name;
  foldM (λ target_dataset dimension_name,
           if contains (variables source_dataset) dimension_name
           then copy_variable fuel source_dataset target_dataset dimension_name
                  overwrite fill_value
           else match fill_value with
                | Some _ => Err TypeError
                | None => copy_dimension source_dataset target_dataset
                            dimension_name overwrite false
                end)
        (var_dimensions source_variable) target_dataset.

Definition create_variable_like (fuel : nat) (target_dataset : Dataset)
    (target_name : string) (like_dataset : Dataset) (like_name : string)
    (overwrite : bool) (fill_value : option value) : result Dataset :=
  target_dataset ←
    (if contains (variables target_dataset) target_name then
       if overwrite
       then Ok (set_variables target_dataset
                  (delete target_name (variables target_dataset)))
       else Err AlreadyExists
     else Ok target_dataset);
  target_dataset ←
    copy_variable_dimensions fuel like_dataset target_dataset like_name
      overwrite fill_value;
  like_variable ← getitem_dict (variables like_dataset) like_name;
  createVariable target_dataset target_name (var_dtype like_variable)
    (var_dimensions like_variable) fill_value.

(** ** More vocabulary *)




(** ** Sample data

    Small datasets on which the functions are run further down. *)

(** The numeric entries of [netCDF4.default_fillvals]. *)
Definition library_fillvals : gmap string value :=
  list_to_map
    [ ("i1", VInt (-127)); ("u1", VInt 255);
      ("i2", VInt (-32767)); ("u2", VInt 65535);
      ("i4", VInt (-2147483647)); ("u4", VInt 4294967295);
      ("i8", VInt (-9223372036854775806)); ("u8", VInt 18446744073709551614);
      ("f4", VFloat 9969209968386869 21); ("f8", VFloat 9969209968386869 21) ].

(** A scalar variable of the given type and attributes. *)
Definition scalar_variable (dt : dtype) (attrs : list (string * value)) : NcVariable :=
  {| var_dtype := dt; var_dimensions := [];
     ncattrs := list_to_map attrs; var_data := Cell (VInt 0) |}.

Definition empty_dataset : Dataset := {| dimensions := ∅; variables := ∅ |}.

Definition fixed_dimension (n : nat) : Dimension :=
  {| dim_len := n; isunlimited := false |}.

Definition int_cells (l : list Z) : ndarray := Arr (Cell ∘ VInt <$> l).

(** A source with a coordinate variable [time] of three steps and a
    variable [v] over [time] and [x]. *)
Definition sample_time : NcVariable :=
  {| var_dtype := int32; var_dimensions := ["time"];
     ncattrs := {["units" := VStr "days"]};
     var_data := int_cells [10; 20; 30] |}.

Definition sample_v : NcVariable :=
  {| var_dtype := int16; var_dimensions := ["time"; "x"];
     ncattrs := {["units" := VStr "K"]};
     var_data := Arr [int_cells [1; 2]; int_cells [3; 4]; int_cells [5; 6]] |}.

Definition sample_source : Dataset :=
  {| dimensions := list_to_map [("time", fixed_dimension 3); ("x", fixed_dimension 2)];
     variables := list_to_map [("time", sample_time); ("v", sample_v)] |}.

(** A target that only declares [time], with two steps. *)
Definition target_time2 : Dataset :=
  {| dimensions := {["time" := fixed_dimension 2]}; variables := ∅ |}.

(** A target that already holds a variable [out]. *)
Definition target_with_out : Dataset :=
  {| dimensions := ∅; variables := {["out" := scalar_variable int16 []]} |}.

(** A source whose variable [v] runs over a dimension [x] of length three,
    and a target that declares [x] with length two. *)
Definition source_x3 : Dataset :=
  {| dimensions := {["x" := fixed_dimension 3]};
     variables := {["v" := {| var_dtype := int16; var_dimensions := ["x"];
                              ncattrs := ∅; var_data := int_cells [1; 2; 3] |}]} |}.

Definition target_x2 : Dataset :=
  {| dimensions := {["x" := fixed_dimension 2]}; variables := ∅ |}.

(** Three yearly datasets with the same variable [v] over [x]. *)
Definition yearly (values : list Z) : Dataset :=
  {| dimensions := {["x" := fixed_dimension 2]};
     variables := {["v" := {| var_dtype := int16; var_dimensions := ["x"];
                              ncattrs := {["units" := VStr "mm"]};
                              var_data := int_cells values |}]} |}.

Definition yearly_sources : sources :=
  Labelled [("2000", yearly [1; 2]); ("2001", yearly [3; 4]); ("2002", yearly [5; 6])].

(** A source variable [t(time, y, x)] of two slices, an output dataset
    that already declares the template grid, and a template mask that marks
    the cell (0, 1). *)
Definition warp_source : Dataset :=
  {| dimensions := list_to_map [("time", fixed_dimension 2); ("y", fixed_dimension 2);
                                ("x", fixed_dimension 2)];
     variables :=
       {["t" := {| var_dtype := int16; var_dimensions := ["time"; "y"; "x"];
                   ncattrs := {["_FillValue" := VInt (-1)]};
                   var_data := Arr [Arr [int_cells [1; 2]; int_cells [3; 4]];
                                    Arr [int_cells [5; 6]; int_cells [7; 8]]] |}]} |}.

Definition warp_output : Dataset :=
  {| dimensions := list_to_map [("y", fixed_dimension 2); ("x", fixed_dimension 2)];
     variables := ∅ |}.

Definition warp_template : NcVariable :=
  {| var_dtype := int16; var_dimensions := ["y"; "x"];
     ncattrs := {["_FillValue" := VInt 0]};
     var_data := Arr [int_cells [1; 0]; int_cells [1; 1]] |}.

Definition warp_template_mask : list (list bool) := [[false; true]; [false; false]].

(** A resampling engine that writes 99 into every cell of the buffer. *)
Definition reproject_99 (data : ndarray) (out : list (list value))
  : result (nat → nat → value) :=
  Ok (λ _ _, VInt 99).


(** Two attribute dictionaries. *)
Definition source_attrs : gmap string value :=
  list_to_map [("units", VStr "K"); ("scale", VInt 2)].

Definition target_attrs : gmap string value :=
  list_to_map [("units", VStr "C"); ("title", VStr "run 1")].

(** A source in which the variable [a] runs over a dimension [b] and the
    variable [b] over a dimension [a]. *)
Definition cyclic_source : Dataset :=
  {| dimensions := list_to_map [("a", fixed_dimension 1); ("b", fixed_dimension 1)];
     variables :=
       list_to_map
         [("a", {| var_dtype := int16; var_dimensions := ["b"]; ncattrs := ∅;
                   var_data := int_cells [1] |});
          ("b", {| var_dtype := int16; var_dimensions := ["a"]; ncattrs := ∅;
                   var_data := int_cells [2] |})] |}.

(** A source with a string variable [names] over [x]. *)
Definition names_variable : NcVariable :=
  {| var_dtype := str; var_dimensions := ["x"]; ncattrs := ∅;
     var_data := Arr [Cell (VStr "north"); Cell (VStr "south")] |}.

Definition names_source : Dataset :=
  {| dimensions := {["x" := fixed_dimension 2]};
     variables := {["names" := names_variable]} |}.

(** A template dataset for [warp_like]: the variable [tpl] over [y] and
    [x], whose cell (0, 1) holds the fill value. *)
Definition warp_template_ds : Dataset :=
  {| dimensions := list_to_map [("y", fixed_dimension 2); ("x", fixed_dimension 2)];
     variables := {["tpl" := warp_template]} |}.

(** ** Properties *)

(** *** The fill value of a variable *)

Lemma DEFAULT_FILL_VALUES_int16 : DEFAULT_FILL_VALUES !! "int16" = Some (VInt (-32767)).
Proof. unfold DEFAULT_FILL_VALUES. by apply lookup_union_Some_l. Qed.

(** C5.  [get_fill_value_for_variable] answers with the [fill_value]
    property when there is one, else with the [_FillValue] attribute, else
    with the [missing_value] attribute, else with the entry of
    [DEFAULT_FILL_VALUES] for the dtype string ([-32767] for [int16]).  With
    both [_FillValue] and [missing_value] set the answer is [_FillValue].  It
    fails exactly when none of the three is present and the table has no
    entry for the dtype string, and the failure is the [KeyError] of the
    table lookup. *)
Theorem fill_value_resolution (variable : NcVariable) :
  let attr := λ k : string, ncattrs variable !! k in
  let answer := get_fill_value_for_variable variable in
  (∀ v, attr "fill_value" = Some v → answer = Ok v) ∧
  (∀ v, attr "fill_value" = None → attr "_FillValue" = Some v → answer = Ok v) ∧
  (∀ v, attr "fill_value" = None → attr "_FillValue" = None →
        attr "missing_value" = Some v → answer = Ok v) ∧
  (attr "fill_value" = None → attr "_FillValue" = None →
   attr "missing_value" = None →
   answer = getitem_dict DEFAULT_FILL_VALUES (get_dtype_string variable)) ∧
  (attr "fill_value" = None → attr "_FillValue" = None →
   attr "missing_value" = None → var_dtype variable = int16 →
   answer = Ok (VInt (-32767))) ∧
  (∀ v w, attr "fill_value" = None → attr "_FillValue" = Some v →
          attr "missing_value" = Some w → answer = Ok v) ∧
  (∀ e, answer = Err e ↔
        attr "fill_value" = None ∧ attr "_FillValue" = None ∧
        attr "missing_value" = None ∧
        DEFAULT_FILL_VALUES !! get_dtype_string variable = None ∧
        e = KeyError (get_dtype_string variable)).
Proof.
  intros attr answer. subst attr answer. unfold get_fill_value_for_variable.
  split_and!.
  - by intros v ->.
  - by intros v -> ->.
  - by intros v -> -> ->.
  - by intros -> -> ->.
  - intros -> -> -> Hdt. unfold getitem_dict, get_dtype_string. rewrite Hdt. simpl.
    by rewrite DEFAULT_FILL_VALUES_int16.
  - by intros v w -> -> _.
  - intros e. unfold getitem_dict.
    destruct (ncattrs variable !! "fill_value");
      [split; [done | by intros (? & _)] |].
    destruct (ncattrs variable !! "_FillValue");
      [split; [done | by intros (_ & ? & _)] |].
    destruct (ncattrs variable !! "missing_value");
      [split; [done | by intros (_ & _ & ? & _)] |].
    destruct (DEFAULT_FILL_VALUES !! get_dtype_string variable).
    + split; [done | by intros (_ & _ & _ & ? & _)].
    + split; [by intros [= <-] | by intros (_ & _ & _ & _ & ->)].
Qed.

(** *** Steps of the error monad *)

Lemma bind_Ok {A B} (m : result A) (f : A → result B) (b : B) :
  m ≫= f = Ok b ↔ ∃ a, m = Ok a ∧ f a = Ok b.
Proof.
  destruct m as [a|e]; simpl.
  - split; [by exists a | by intros (? & [= <-] & ?)].
  - split; [done | by intros (? & ? & _)].
Qed.


Lemma getitem_dict_Ok {A} (m : gmap string A) (k : string) (a : A) :
  getitem_dict m k = Ok a ↔ m !! k = Some a.
Proof. unfold getitem_dict. destruct (m !! k); split; congruence. Qed.

Lemma contains_true {A} (m : gmap string A) (k : string) :
  contains m k = true ↔ is_Some (m !! k).
Proof. unfold contains. by rewrite bool_decide_eq_true. Qed.

Lemma contains_false {A} (m : gmap string A) (k : string) :
  contains m k = false ↔ m !! k = None.
Proof. unfold contains. by rewrite bool_decide_eq_false, eq_None_not_Some. Qed.

(** Splitting a hypothesis [x ← m; k x = Ok b] into its two steps. *)
Ltac bind_inv H :=
  let a := fresh "a" in
  let Ha := fresh "H" a in
  apply bind_Ok in H as (a & Ha & H).

Tactic Notation "bind_inv_as" hyp(H) ident(a) ident(Ha) :=
  apply bind_Ok in H as (a & Ha & H).

(** *** The dimension loop of extract_subset *)

Lemma subset_dimensions_frame recurse source_dataset name dims index
    target_dataset slices target_shape target_dataset' slices' target_shape' :
  subset_dimensions recurse source_dataset name dims index
    (target_dataset, slices, target_shape)
  = Ok (target_dataset', slices', target_shape') →
  (∀ i, (i < index)%nat → slices' !! i = slices !! i)
  ∧ length slices' = length slices
  ∧ ∃ ext, target_shape' = target_shape ++ ext.
Proof.
  revert index target_dataset slices target_shape.
  induction dims as [|dimension dims IH]; intros index tgt sl sh H; simpl in H.
  - injection H as <- <- <-. split_and!; [done..|]. exists []. by rewrite app_nil_r.
  - case_bool_decide as Hname.
    { injection H as <- <- <-. split_and!; [done..|]. exists []. by rewrite app_nil_r. }
    bind_inv H. bind_inv H. bind_inv H. bind_inv H. bind_inv H. bind_inv H.
    apply IH in H as (Hpre & Hlen & ext & ->).
    assert (length a0 = length sl ∧ ∀ i, (i < index)%nat → a0 !! i = sl !! i)
      as [Hlen0 Hpre0].
    { destruct (unbounded a).
      - bind_inv Ha0. injection Ha0 as <-. split; [by rewrite length_insert|].
        intros i Hi. apply list_lookup_insert_ne. lia.
      - by injection Ha0 as <-. }
    split_and!.
    + intros i Hi. rewrite Hpre by lia. by apply Hpre0.
    + congruence.
    + exists (a2 :: ext). by rewrite <- app_assoc.
Qed.


Lemma product_nonneg (l : list Z) : Forall (λ z, 0 ≤ z) l → 0 ≤ product l.
Proof. induction 1; simpl; lia. Qed.

Lemma subset_dimensions_shape_nonneg recurse source_dataset name dims index
    target_dataset slices target_shape target_dataset' slices' target_shape' :
  subset_dimensions recurse source_dataset name dims index
    (target_dataset, slices, target_shape)
  = Ok (target_dataset', slices', target_shape') →
  Forall (λ z, 0 ≤ z) target_shape →
  Forall (λ z, 0 ≤ z) target_shape'.
Proof.
  revert index target_dataset slices target_shape.
  induction dims as [|dimension dims IH]; intros index tgt sl sh H Hsh; simpl in H.
  - by injection H as <- <- <-.
  - case_bool_decide as Hname; [by injection H as <- <- <-|].
    bind_inv H. bind_inv H. bind_inv H. bind_inv H. bind_inv H. bind_inv H.
    eapply IH; [done|]. apply Forall_app. split; [done|].
    apply Forall_singleton.
    destruct (contains (dimensions tgt) dimension).
    + bind_inv Ha3. case_bool_decide; [lia|done].
    + unfold createDimension in Ha3.
      destruct (contains (dimensions tgt) dimension); [done|].
      destruct (Z.ltb_spec a2 0); [done|lia].
Qed.

(** The increment of the block loop, when the loop is entered: it is the
    quotient of [blocksize] by the size of one entry of the first axis, and
    it lies between one and the length of that axis. *)
Lemma increment_bounds (shape0 rest blocksize : Z) :
  0 ≤ shape0 → 0 ≤ rest →
  ¬ shape0 * rest < blocksize → ¬ rest >= blocksize →
  0 < shape0 ∧ 0 < rest
  ∧ shape0 * blocksize / (shape0 * rest) = blocksize / rest
  ∧ 1 ≤ blocksize / rest ≤ shape0.
Proof.
  intros H0 Hr Hsize Hrest.
  assert (0 < shape0) by nia. assert (0 < rest) by nia.
  split_and!; [done..| | |].
  - apply Z.div_mul_cancel_l; lia.
  - apply Z.div_le_lower_bound; lia.
  - apply Z.div_le_upper_bound; [lia|]. nia.
Qed.

(** *** The size test of extract_subset *)

(** C6.  When the loop over the dimensions, the fill value and the creation
    of the target variable have gone through and the target size is at least
    [blocksize]: if the product of the shape past the first axis is at least
    [blocksize] (equal included), [extract_subset] ends with
    [BlocksizeTooSmall]; otherwise it runs the block loop, with an increment
    of at least one, and then copies the attributes. *)
Theorem blocksize_test (fuel : nat) source_dataset target_dataset name slices
    target_name blocksize fill_value source_variable target_dataset1 slices1
    target_shape fv target_dataset2 :
  variables source_dataset !! name = Some source_variable →
  length slices = length (var_dimensions source_variable) →
  variables target_dataset !! name = None →
  subset_dimensions
    (λ target_dataset dimension cur_slice,
       extract_subset fuel source_dataset target_dataset dimension
         [Some cur_slice] None 100000000 None)
    source_dataset name (var_dimensions source_variable) 0
    (target_dataset, slices, [])
  = Ok (target_dataset1, slices1, target_shape) →
  match fill_value with
  | Some v => Ok v
  | None => get_fill_value_for_variable source_variable
  end = Ok fv →
  createVariable target_dataset1 (or_name target_name name)
    (var_dtype source_variable) (var_dimensions source_variable) (Some fv)
  = Ok target_dataset2 →
  product target_shape >= blocksize →
  (product (tail target_shape) >= blocksize →
   extract_subset (S fuel) source_dataset target_dataset name slices target_name
     blocksize fill_value
   = Err BlocksizeTooSmall)
  ∧ (product (tail target_shape) < blocksize →
     ∃ shape0 increment,
       head target_shape = Some shape0
       ∧ increment = blocksize / product (tail target_shape)
       ∧ 1 ≤ increment
       ∧ extract_subset (S fuel) source_dataset target_dataset name slices
           target_name blocksize fill_value
         = (target_dataset3 ←
              foldM (transfer_block source_variable (or_name target_name name)
                       slices1 target_shape increment)
                    (seqZ 0 (ceil_div shape0 increment)) target_dataset2;
            copy_variable_ncattrs source_variable target_dataset3
              (or_name target_name name))).
Proof.
  intros Hsv Hlen Htgt Hdims Hfill Hcreate Hsize.
  assert (Forall (λ z, 0 ≤ z) target_shape) as Hnn.
  { eapply subset_dimensions_shape_nonneg; [exact Hdims | constructor]. }
  assert (extract_subset (S fuel) source_dataset target_dataset name slices
            target_name blocksize fill_value
          = (target_dataset3 ←
               transfer source_variable target_dataset2 (or_name target_name name)
                 slices1 target_shape blocksize;
             copy_variable_ncattrs source_variable target_dataset3
               (or_name target_name name))) as ->.
  { simpl. unfold getitem_dict at 1. rewrite Hsv. simpl.
    rewrite bool_decide_true by done. simpl.
    apply contains_false in Htgt. rewrite Htgt.
    rewrite Hdims. simpl. rewrite Hfill. simpl. by rewrite Hcreate. }
  unfold transfer. rewrite bool_decide_false by lia.
  split; intros Hrest.
  - by rewrite bool_decide_true.
  - rewrite bool_decide_false by lia.
    destruct target_shape as [|shape0 rest].
    { simpl in *. lia. }
    simpl in Hsize, Hrest. simpl tail. simpl first. simpl product.
    apply Forall_cons in Hnn as [H0 Hnn]. apply product_nonneg in Hnn.
    destruct (increment_bounds shape0 (product rest) blocksize)
      as (Hs0 & Hr & Hinc & Hlo & Hhi); [lia..|].
    exists shape0, (blocksize / product rest). split_and!; [done..|].
    simpl. rewrite bool_decide_false by nia. simpl.
    rewrite Hinc. rewrite bool_decide_false by lia. done.
Qed.

(** *** The library operations *)

Lemma createDimension_Ok ds name size ds' :
  createDimension ds name size = Ok ds' →
  dimensions ds !! name = None
  ∧ variables ds' = variables ds
  ∧ ∃ d, dimensions ds' = <[name := d]> (dimensions ds)
         ∧ (∀ n, size = Some n →
                 0 ≤ n ∧ d = {| dim_len := Z.to_nat n; isunlimited := false |}).
Proof.
  unfold createDimension. destruct (contains _ _) eqn:Hc; [done|].
  apply contains_false in Hc. destruct size as [n|].
  - destruct (Z.ltb_spec n 0); [done|]. intros [= <-]. split_and!; [done..|].
    eexists. split; [done|]. intros ? [= <-]. done.
  - intros [= <-]. split_and!; [done..|]. eexists. split; [done|]. done.
Qed.

Lemma createVariable_Ok ds name dt dims fill_value ds' :
  createVariable ds name dt dims fill_value = Ok ds' →
  variables ds !! name = None
  ∧ dimensions ds' = dimensions ds
  ∧ ∃ sh, shape_of ds dims = Ok sh
    ∧ variables ds'
      = <[name := {| var_dtype := dt; var_dimensions := dims;
                     ncattrs := fill_ncattrs fill_value;
                     var_data := full sh (default VNcDefault fill_value) |}]>
          (variables ds).
Proof.
  unfold createVariable. destruct (contains _ _) eqn:Hc; [done|].
  apply contains_false in Hc. intros H. bind_inv H. injection H as <-.
  split_and!; [done..|]. by exists a.
Qed.

Lemma assign_all_Ok ds name a ds' :
  assign_all ds name a = Ok ds' →
  dimensions ds' = dimensions ds
  ∧ ∃ v sh, variables ds !! name = Some v
    ∧ shape_of ds (var_dimensions v) = Ok sh
    ∧ has_shape sh a = true
    ∧ variables ds' = <[name := set_data v a]> (variables ds).
Proof.
  unfold assign_all. intros H. bind_inv H. bind_inv H.
  apply getitem_dict_Ok in Ha0.
  destruct (has_shape a1 a) eqn:Hsh; [|done]. injection H as <-.
  split; [done|]. by exists a0, a1.
Qed.

Lemma copy_missing_ncattrs_union (source target : gmap string value) :
  copy_missing_ncattrs source target = target ∪ source.
Proof.
  unfold copy_missing_ncattrs.
  apply (map_fold_weak_ind (λ r m, r = target ∪ m)).
  - by rewrite (right_id_L ∅ (∪)).
  - intros k v m r Hk ->. destruct (contains (target ∪ m) k) eqn:Hc.
    + apply contains_true in Hc as [w Hw].
      apply lookup_union_Some_raw in Hw as [Hw|[_ Hw]]; [|congruence].
      apply map_eq. intros i. rewrite !lookup_union.
      destruct (decide (i = k)) as [->|Hne].
      * rewrite lookup_insert_eq, Hw, Hk. done.
      * by rewrite lookup_insert_ne.
    + apply contains_false in Hc. apply lookup_union_None in Hc as [Ht _].
      by rewrite insert_union_r.
Qed.

Lemma copy_variable_ncattrs_Ok source_variable ds name ds' :
  copy_variable_ncattrs source_variable ds name = Ok ds' →
  dimensions ds' = dimensions ds
  ∧ ∃ v, variables ds !! name = Some v
    ∧ variables ds'
      = <[name := set_ncattrs v (ncattrs v ∪ ncattrs source_variable)]> (variables ds).
Proof.
  unfold copy_variable_ncattrs. intros H. bind_inv H. apply getitem_dict_Ok in Ha.
  injection H as <-. split; [done|]. exists a. split; [done|].
  by rewrite copy_missing_ncattrs_union.
Qed.

Lemma copy_dimension_Ok source_dataset target_dataset name overwrite allow_unlimited
    target_dataset' :
  copy_dimension source_dataset target_dataset name overwrite allow_unlimited
  = Ok target_dataset' →
  variables target_dataset' = variables target_dataset
  ∧ is_Some (dimensions target_dataset' !! name)
  ∧ (∀ k, k ≠ name → dimensions target_dataset' !! k = dimensions target_dataset !! k).
Proof.
  unfold copy_dimension. intros H. bind_inv H. bind_inv H.
  assert (variables a = variables target_dataset
          ∧ ∀ k, k ≠ name → dimensions a !! k = dimensions target_dataset !! k)
    as [Hv Hd].
  { destruct (contains _ _); [destruct overwrite; [|done]|].
    - injection Ha as <-. split; [done|]. intros k Hk. simpl.
      by rewrite lookup_delete_ne.
    - by injection Ha as <-. }
  assert (∃ size, createDimension a name size = Ok target_dataset') as [size Hc].
  { destruct (_ && _); eauto. }
  apply createDimension_Ok in Hc as (_ & Hv' & d & Hd' & _).
  split_and!.
  - congruence.
  - rewrite Hd', lookup_insert_eq. eauto.
  - intros k Hk. rewrite Hd', lookup_insert_ne by done. by apply Hd.
Qed.

(** *** copy_variable *)

Lemma dependencies_present_mono source_dataset t t' name :
  dependencies_present source_dataset t name →
  (∀ k, is_Some (variables t !! k) → is_Some (variables t' !! k)) →
  (∀ k, is_Some (dimensions t !! k) → is_Some (dimensions t' !! k)) →
  dependencies_present source_dataset t' name.
Proof.
  intros Hdep Hv Hd sv d Hsv Hin. destruct (Hdep sv d Hsv Hin) as [H1 H2].
  split; [by apply Hd|]. intros Hs. by apply Hv, H2.
Qed.

Lemma grown_by_copies_refl source_dataset t : grown_by_copies source_dataset t t.
Proof. split_and!; [done..|]. intros k tv Hn Hs. congruence. Qed.

Lemma grown_by_copies_mono_variables source_dataset t t' k :
  grown_by_copies source_dataset t t' →
  is_Some (variables t !! k) → is_Some (variables t' !! k).
Proof. intros (Hv & _) [v Hk]. exists v. by apply Hv. Qed.

Lemma grown_by_copies_mono_dimensions source_dataset t t' k :
  grown_by_copies source_dataset t t' →
  is_Some (dimensions t !! k) → is_Some (dimensions t' !! k).
Proof. intros (_ & Hd & _) [v Hk]. exists v. by apply Hd. Qed.

Lemma grown_by_copies_trans source_dataset t1 t2 t3 :
  grown_by_copies source_dataset t1 t2 →
  grown_by_copies source_dataset t2 t3 →
  grown_by_copies source_dataset t1 t3.
Proof.
  intros H12 H23. pose proof H12 as (Hv1 & Hd1 & Hn1).
  pose proof H23 as (Hv2 & Hd2 & Hn2). split_and!.
  - intros k v Hk. by apply Hv2, Hv1.
  - intros k d Hk. by apply Hd2, Hd1.
  - intros k tv Hnone Hsome. destruct (variables t2 !! k) as [v2|] eqn:Hk2.
    + destruct (Hn1 k v2 Hnone Hk2) as (sv & Hsv & Hcopy & Hdep).
      apply Hv2 in Hk2. assert (tv = v2) as -> by congruence.
      exists sv. split_and!; [done..|].
      apply (dependencies_present_mono _ _ _ _ Hdep).
      * intros k'. by apply (grown_by_copies_mono_variables _ _ _ _ H23).
      * intros k'. by apply (grown_by_copies_mono_dimensions _ _ _ _ H23).
    + by apply Hn2.
Qed.

(** One pass of the loop over the dimensions, given what the recursive
    call does on a variable the target does not hold. *)
Lemma copy_variable_dimension_post recurse source_dataset name t d t' :
  (∀ t0 d0 t1, recurse t0 d0 = Ok t1 → variables t0 !! d0 = None →
               grown_by_copies source_dataset t0 t1 ∧ is_Some (variables t1 !! d0)) →
  copy_variable_dimension recurse source_dataset name t d = Ok t' →
  grown_by_copies source_dataset t t'
  ∧ is_Some (dimensions t' !! d)
  ∧ (is_Some (variables source_dataset !! d) → d ≠ name →
     is_Some (variables t' !! d)).
Proof.
  intros Hrec H. unfold copy_variable_dimension in H. bind_inv H.
  assert (grown_by_copies source_dataset t a ∧ is_Some (dimensions a !! d))
    as [Hga Hda].
  { destruct (contains (dimensions t) d) eqn:Hc.
    - bind_inv Ha. bind_inv Ha. destruct (dimension_conflict _ _); [done|].
      injection Ha as <-. split; [apply grown_by_copies_refl|].
      by apply contains_true.
    - apply contains_false in Hc.
      apply copy_dimension_Ok in Ha as (Hv & Hd & Hother).
      split; [|done]. split_and!.
      + intros k v. by rewrite Hv.
      + intros k dim Hk. rewrite Hother; [done|]. intros ->. congruence.
      + intros k tv. rewrite Hv. congruence. }
  destruct (contains (variables source_dataset) d) eqn:Hs; simpl in H.
  - destruct (contains (variables a) d) eqn:Ht; simpl in H.
    + injection H as <-. split_and!; [done..|]. intros _ _. by apply contains_true.
    + case_bool_decide as Hdn; simpl in H.
      * injection H as <-. split_and!; done.
      * apply contains_false in Ht. destruct (Hrec _ _ _ H Ht) as [Hg Hsome].
        split_and!; [|by apply (grown_by_copies_mono_dimensions _ _ _ _ Hg)|done].
        by apply (grown_by_copies_trans _ _ _ _ Hga Hg).
  - injection H as <-. split_and!; [done..|].
    apply contains_false in Hs. intros [? ?]. congruence.
Qed.

Lemma copy_variable_dimensions_post recurse source_dataset name dims t t' :
  (∀ t0 d0 t1, recurse t0 d0 = Ok t1 → variables t0 !! d0 = None →
               grown_by_copies source_dataset t0 t1 ∧ is_Some (variables t1 !! d0)) →
  foldM (copy_variable_dimension recurse source_dataset name) dims t = Ok t' →
  grown_by_copies source_dataset t t'
  ∧ ∀ d, d ∈ dims →
         is_Some (dimensions t' !! d)
         ∧ (is_Some (variables source_dataset !! d) → d ≠ name →
            is_Some (variables t' !! d)).
Proof.
  intros Hrec. revert t. induction dims as [|d dims IH]; intros t H; simpl in H.
  - injection H as <-. split; [apply grown_by_copies_refl|].
    intros d Hd. by apply elem_of_nil in Hd.
  - bind_inv H. apply copy_variable_dimension_post in Ha as (Hg & Hd & Hv); [|done].
    apply IH in H as (Hg' & Hall).
    split; [by apply (grown_by_copies_trans _ _ _ _ Hg Hg')|].
    intros d' [->|Hin]%elem_of_cons; [|by apply Hall].
    split; [by apply (grown_by_copies_mono_dimensions _ _ _ _ Hg')|].
    intros Hs Hne. apply (grown_by_copies_mono_variables _ _ _ _ Hg'). by apply Hv.
Qed.

(** The end of [copy_variable]: the variable is created, filled and given
    the attributes of the source. *)
Lemma copy_variable_finish source_variable t name fv t1 t2 t' :
  createVariable t name (var_dtype source_variable)
    (var_dimensions source_variable) fv = Ok t1 →
  assign_all t1 name (var_data source_variable) = Ok t2 →
  copy_variable_ncattrs source_variable t2 name = Ok t' →
  variables t !! name = None
  ∧ dimensions t' = dimensions t
  ∧ variables t'
    = <[name := {| var_dtype := var_dtype source_variable;
                   var_dimensions := var_dimensions source_variable;
                   ncattrs := fill_ncattrs fv ∪ ncattrs source_variable;
                   var_data := var_data source_variable |}]> (variables t).
Proof.
  intros (Hnone & Hd1 & sh & _ & Hv1)%createVariable_Ok
         (Hd2 & v & sh' & Hv & _ & _ & Hv2)%assign_all_Ok
         (Hd3 & w & Hw & Hv3)%copy_variable_ncattrs_Ok.
  split_and!; [done|congruence|].
  rewrite Hv1, lookup_insert_eq in Hv. injection Hv as <-.
  rewrite Hv2, lookup_insert_eq in Hw. injection Hw as <-.
  rewrite Hv3, Hv2, Hv1. rewrite !insert_insert_eq. done.
Qed.

Lemma copy_variable_copied_into (fuel : nat) source_dataset target_dataset name
    overwrite fill_value target_dataset' :
  copy_variable fuel source_dataset target_dataset name overwrite fill_value
  = Ok target_dataset' →
  copied_into source_dataset target_dataset name fill_value target_dataset'.
Proof.
  revert target_dataset name overwrite fill_value target_dataset'.
  induction fuel as [|fuel IH]; intros tgt name ow kw tgt' H; [done|].
  simpl in H. bind_inv H. bind_inv H. bind_inv H. bind_inv H. bind_inv H. bind_inv H.
  apply getitem_dict_Ok in Ha0.
  assert (dimensions a = dimensions tgt
          ∧ ∀ k, k ≠ name → variables a !! k = variables tgt !! k) as [Hda Hva].
  { destruct (contains _ _); [destruct ow; [|done]|].
    - injection Ha as <-. split; [done|]. intros k Hk. simpl.
      by rewrite lookup_delete_ne.
    - by injection Ha as <-. }
  apply copy_variable_dimensions_post in Ha1 as (Hg & Hdims).
  2:{ intros t0 d0 t1 Hrec Hnone. apply IH in Hrec as (Hv & Hd & Hn & Hc & Hdep).
      split.
      - split_and!; [|done|].
        + intros k v Hk. apply Hv; [|done]. intros ->. congruence.
        + intros k tv Hk Hk'. destruct (decide (k = d0)) as [->|Hne]; [|by apply Hn].
          destruct Hc as (sv & tv' & Hsv & Htv & Hcopy).
          exists sv. split_and!; [done| |done]. congruence.
      - destruct Hc as (sv & tv' & _ & Htv & _). eauto. }
  destruct (copy_variable_finish _ _ _ _ _ _ _ Ha3 Ha4 H) as (Hnone & Hd' & Hv').
  pose proof Hg as (Hgv & Hgd & Hgn).
  assert (∀ k, is_Some (variables a1 !! k) → is_Some (variables tgt' !! k)) as Hmv.
  { intros k Hk. rewrite Hv'. destruct (decide (k = name)) as [->|Hne].
    - rewrite lookup_insert_eq. eauto.
    - by rewrite lookup_insert_ne. }
  assert (∀ k, is_Some (dimensions a1 !! k) → is_Some (dimensions tgt' !! k)) as Hmd.
  { intros k. by rewrite Hd'. }
  split_and!.
  - intros k v Hk Hkv. rewrite Hv', lookup_insert_ne by done.
    apply Hgv. by rewrite Hva.
  - intros k d Hk. rewrite Hd'. apply Hgd. by rewrite Hda.
  - intros k tv Hk Hnk. rewrite Hv', lookup_insert_ne by done. intros Hk'.
    destruct (Hgn k tv) as (sv & Hsv & Hcopy & Hdep); [by rewrite Hva|done|].
    exists sv. split_and!; [done..|]. by apply (dependencies_present_mono _ _ _ _ Hdep).
  - exists a0. eexists. split_and!; [done| |].
    + rewrite Hv'. apply lookup_insert_eq.
    + exists a2. done.
  - intros sv d Hsv Hin. assert (sv = a0) as -> by congruence.
    destruct (Hdims d Hin) as [Hdd Hdv]. split; [by apply Hmd|].
    intros Hs. destruct (decide (d = name)) as [->|Hne].
    + rewrite Hv', lookup_insert_eq. eauto.
    + by apply Hmv, Hdv.
Qed.


(** C4.  After [copy_variable(source, target, name)] has returned, every
    dimension of the source variable is declared in the target and every
    coordinate variable of these dimensions is a variable of the target; a
    coordinate variable the target did not have is the copy of the source's;
    and every other variable the call has added has, in turn, its dimensions
    and coordinate variables in the target. *)
Theorem copy_variable_dependency_closure (fuel : nat) source_dataset target_dataset
    name overwrite fill_value target_dataset' :
  copy_variable fuel source_dataset target_dataset name overwrite fill_value
  = Ok target_dataset' →
  dependencies_present source_dataset target_dataset' name
  ∧ (∀ source_variable d coordinate_variable,
       variables source_dataset !! name = Some source_variable →
       d ∈ var_dimensions source_variable →
       d ≠ name →
       variables source_dataset !! d = Some coordinate_variable →
       variables target_dataset !! d = None →
       ∃ target_variable,
         variables target_dataset' !! d = Some target_variable
         ∧ is_copy_of coordinate_variable None target_variable)
  ∧ (∀ k, k ≠ name →
          variables target_dataset !! k = None →
          is_Some (variables target_dataset' !! k) →
          dependencies_present source_dataset target_dataset' k).
Proof.
  intros (_ & _ & Hnew & _ & Hdep)%copy_variable_copied_into. split_and!.
  - done.
  - intros sv d cv Hsv Hd Hne Hcv Hnone.
    destruct (Hdep sv d Hsv Hd) as [_ [tv Htv]]; [eauto|].
    destruct (Hnew d tv Hne Hnone Htv) as (sv' & Hsv' & Hcopy & _).
    exists tv. split; [done|]. congruence.
  - intros k Hne Hnone [tv Htv].
    by destruct (Hnew k tv Hne Hnone Htv) as (_ & _ & _ & ?).
Qed.

(** *** Writing the entries of the first axis one by one *)

Lemma mapM_result_length {A B} (f : A → result B) (l : list A) (bs : list B) :
  mapM_result f l = Ok bs → length bs = length l.
Proof.
  revert bs. induction l as [|x l IH]; intros bs H; simpl in H.
  - by injection H as <-.
  - bind_inv H. bind_inv H. injection H as <-. simpl. f_equal. by apply IH.
Qed.

Lemma mapM_result_lookup {A B} (f : A → result B) (l : list A) (bs : list B) i x :
  mapM_result f l = Ok bs → l !! i = Some x →
  ∃ b, f x = Ok b ∧ bs !! i = Some b.
Proof.
  revert bs i. induction l as [|y l IH]; intros bs i H Hi; [done|].
  simpl in H. bind_inv H. bind_inv H. injection H as <-.
  destruct i as [|i]; simpl in *.
  - injection Hi as ->. eauto.
  - by eapply IH.
Qed.

Lemma assign_index_Ok ds name index a ds' :
  assign_index ds name index a = Ok ds' →
  ∃ v n sh rows,
    variables ds !! name = Some v
    ∧ shape_of ds (var_dimensions v) = Ok (n :: sh)
    ∧ var_data v = Arr rows
    ∧ (index < length rows)%nat
    ∧ has_shape sh a = true
    ∧ ds' = set_variables ds
              (<[name := set_data v (Arr (<[index := a]> rows))]> (variables ds)).
Proof.
  unfold assign_index. intros H. bind_inv H. bind_inv H.
  apply getitem_dict_Ok in Ha0. destruct a1 as [|n sh]; [done|].
  destruct (var_data a0) as [|rows] eqn:Hdata; [done|].
  destruct (bool_decide _) eqn:Hi; [|done]. apply bool_decide_eq_true in Hi.
  destruct (has_shape sh a) eqn:Hsh; [|done]. injection H as <-.
  by exists a0, n, sh, rows.
Qed.

(** A loop that writes entry [k], [k+1], ... of the variable [name]: when
    it returns, the entries written are the values the loop has computed, in
    the order of the list, and nothing else has changed. *)
Lemma foldM_assign_index {A} (f : Dataset → nat * A → result Dataset)
    (g : gmap string value → A → result ndarray) (name : string) :
  (∀ ds e v, variables ds !! name = Some v →
             f ds e = (a ← g (ncattrs v) e.2; assign_index ds name e.1 a)) →
  ∀ (l : list A) (k : nat) ds ds' v rows,
    foldM f (zip (seq k (length l)) l) ds = Ok ds' →
    variables ds !! name = Some v →
    var_data v = Arr rows →
    ∃ written,
      mapM_result (g (ncattrs v)) l = Ok written
      ∧ ds' = set_variables ds
                (<[name := set_data v
                             (Arr (take k rows ++ written
                                   ++ drop (k + length l) rows))]> (variables ds))
      ∧ (l ≠ [] → (k + length l ≤ length rows)%nat).
Proof.
  intros Hf l. induction l as [|x l IH]; intros k ds ds' v rows H Hv Hdata; simpl in H.
  - injection H as <-. exists []. split_and!; [done| |done].
    simpl. rewrite Nat.add_0_r, take_drop.
    destruct ds as [dims vars], v as [dt vd va vdata]; simpl in *. subst vdata.
    unfold set_variables, set_data; simpl. by rewrite insert_id.
  - bind_inv H. rewrite (Hf _ _ _ Hv) in Ha. simpl in Ha. bind_inv Ha.
    apply assign_index_Ok in Ha as (v' & n & sh & rows' & Hv' & _ & Hdata' & Hk & _ & ->).
    assert (v' = v) as -> by congruence.
    assert (rows' = rows) as -> by congruence.
    edestruct (IH (S k) _ ds' (set_data v (Arr (<[k:=a0]> rows))) (<[k:=a0]> rows) H)
      as (written & Hw & -> & Hlen).
    { simpl. apply lookup_insert_eq. }
    { done. }
    exists (a0 :: written). split_and!.
    + simpl. rewrite Ha0. simpl. simpl in Hw. rewrite Hw. done.
    + unfold set_variables, set_data; simpl. rewrite insert_insert_eq.
      do 4 f_equal.
      rewrite (take_S_r _ _ a0) by (by apply list_lookup_insert_eq).
      rewrite take_insert_ge by done.
      rewrite drop_insert_lt by lia.
      rewrite <- app_assoc. simpl. do 3 f_equal. f_equal. lia.
    + intros _. simpl. destruct l as [|y l'].
      * simpl. lia.
      * rewrite length_insert in Hlen. specialize (Hlen ltac:(done)). simpl in *. lia.
Qed.

Lemma shape_of_cons ds d dims sh :
  shape_of ds (d :: dims) = Ok sh →
  ∃ dim sh', dimensions ds !! d = Some dim ∧ sh = dim_len dim :: sh'.
Proof.
  unfold shape_of. simpl. intros H. bind_inv H. bind_inv H. injection H as <-.
  destruct (dimensions ds !! d) as [dim|]; [|done]. injection Ha as <-. eauto.
Qed.

Lemma shape_of_singleton ds d sh :
  shape_of ds [d] = Ok sh →
  ∃ dim, dimensions ds !! d = Some dim ∧ sh = [dim_len dim].
Proof.
  unfold shape_of. simpl. intros H. bind_inv H. injection H as <-.
  destruct (dimensions ds !! d) as [dim|]; [|done]. injection Ha as <-. eauto.
Qed.

Lemma mapM_result_pure {A B} (h : A → B) (l : list A) :
  mapM_result (λ x, Ok (h x)) l = Ok (h <$> l).
Proof. induction l as [|x l IH]; simpl; [done|]. by rewrite IH. Qed.

(** *** concat_variable_along_dimension *)

(** The labelling step: a string variable named like the new dimension,
    holding the labels in their order. *)
Lemma concat_labels_Ok t dn (n : nat) labels t' :
  dimensions t !! dn = Some {| dim_len := n; isunlimited := false |} →
  length labels = n →
  (t0 ← createVariable t dn str [dn] None;
   foldM (λ target_dataset (entry : nat * string),
            assign_index target_dataset dn entry.1 (Cell (VStr entry.2)))
         (enumerate labels) t0) = Ok t' →
  variables t !! dn = None
  ∧ dimensions t' = dimensions t
  ∧ variables t'
    = <[dn := {| var_dtype := str; var_dimensions := [dn]; ncattrs := ∅;
                 var_data := Arr (Cell ∘ VStr <$> labels) |}]> (variables t).
Proof.
  intros Hdim Hlen H. bind_inv H.
  apply createVariable_Ok in Ha as (Hnone & Hd & sh & Hsh & Hv).
  apply shape_of_singleton in Hsh as (dim & Hdim' & ->).
  unfold enumerate in H.
  eapply (foldM_assign_index _ (λ _ label, Ok (Cell (VStr label))) dn) in H
      as (written & Hw & -> & _).
  2:{ intros ds e v _. done. }
  2:{ rewrite Hv. apply lookup_insert_eq. }
  2:{ done. }
  rewrite mapM_result_pure in Hw. injection Hw as <-.
  split_and!; [done..|]. simpl. rewrite Hv, insert_insert_eq.
  unfold set_data; simpl. do 3 f_equal.
  rewrite drop_replicate. rewrite Hdim in Hdim'. injection Hdim' as <-. simpl.
  rewrite Hlen, Nat.sub_diag. simpl. by rewrite app_nil_r.
Qed.


(** *** The slice loop of warp_like *)

Lemma warp_slice_Ok shape template_mask fill_value data out :
  warp_slice shape template_mask fill_value data = Ok out →
  ma_mask out = template_mask
  ∧ length <$> ma_data out = length <$> template_mask.
Proof.
  unfold warp_slice. intros H. bind_inv H.
  unfold set_mask in Ha. case_bool_decide as Hshape; [|done]. injection Ha as <-.
  unfold run_reproject in H. bind_inv H. injection H as <-. simpl.
  split; [done|]. rewrite Hshape.
  apply list_eq. intros i.
  rewrite !list_lookup_fmap, list_lookup_imap, list_lookup_fmap.
  simpl. destruct (replicate shape.1 (replicate shape.2 VNcDefault) !! i) as [row|];
    [|done].
  simpl. by rewrite length_imap, length_fmap.
Qed.

(** A masked cell is stored as the fill value, whatever the data of the
    masked array. *)
Lemma filled_masked_cell out fv r c mrow :
  length <$> ma_data out = length <$> ma_mask out →
  ma_mask out !! r = Some mrow →
  mrow !! c = Some true →
  cell_at [r; c] (filled out fv) = Some fv.
Proof.
  intros Hshape Hr Hc.
  assert (∃ drow, ma_data out !! r = Some drow ∧ length drow = length mrow)
    as (drow & Hdr & Hlen).
  { apply (f_equal (λ l, l !! r)) in Hshape.
    rewrite !list_lookup_fmap, Hr in Hshape.
    destruct (ma_data out !! r) as [drow|]; [|done].
    injection Hshape as Hlen. eauto. }
  assert (is_Some (drow !! c)) as [d Hd].
  { apply lookup_lt_is_Some. rewrite Hlen. by apply lookup_lt_Some in Hc. }
  unfold filled. simpl. rewrite lookup_zip_with, Hdr, Hr. simpl.
  by rewrite lookup_zip_with, Hd, Hc.
Qed.

(** C8.  When the processing of one variable by [warp_like] returns, the
    output variable has been created with the resolved fill value as its
    [_FillValue], and at every cell that the template mask marks, in every
    slice that was processed, the output variable holds that fill value.
    The resampling engine [reproject] is arbitrary here: the statement holds
    whatever it writes into the buffer. *)
Theorem warp_mask_dominance (fuel : nat) ds out_ds template_variable template_mask
    shape variable_name out_ds' :
  warp_variable fuel ds out_ds template_variable template_mask shape variable_name
  = Ok out_ds' →
  ∃ variable sample out_var,
    variables ds !! variable_name = Some variable
    ∧ sample_fill_value variable = Ok sample
    ∧ variables out_ds' !! variable_name = Some out_var
    ∧ let fill_value := default sample (ncattrs variable !! "_FillValue") in
      ncattrs out_var !! "_FillValue" = Some fill_value
      ∧ ∀ r c mrow,
          template_mask !! r = Some mrow →
          mrow !! c = Some true →
          if bool_decide (length (var_dimensions variable) = 3%nat)
          then ∀ i slices,
                 var_data variable = Arr slices →
                 (i < length slices)%nat →
                 cell_at [i; r; c] (var_data out_var) = Some fill_value
          else cell_at [r; c] (var_data out_var) = Some fill_value.
Proof.
  intros H. unfold warp_variable in H.
  bind_inv H. bind_inv H. bind_inv H. bind_inv H.
  apply getitem_dict_Ok in Ha.
  apply createVariable_Ok in Ha2 as (_ & _ & sh & Hsh & Hv2).
  set (fill_value := default a0 (ncattrs a !! "_FillValue")) in *.
  case_bool_decide as Hrank.
  - destruct (var_data a) as [|slices] eqn:Hdata; [done|].
    assert (∃ n sh', sh = n :: sh') as (n & sh' & ->).
    { destruct (var_dimensions a) as [|d0 [|d1 [|d2 [|]]]]; try done.
      apply shape_of_cons in Hsh as (dim & sh' & _ & ->). eauto. }
    unfold enumerate in H.
    eapply (foldM_assign_index _
              (λ attrs data,
                 out ← warp_slice shape template_mask fill_value data;
                 Ok (filled out (default VNcDefault (attrs !! "_FillValue"))))
              variable_name) in H as (written & Hw & -> & _).
    2:{ intros t e v Hv. simpl.
        destruct (warp_slice shape template_mask fill_value e.2); simpl; [|done].
        unfold getitem_dict. by rewrite Hv. }
    2:{ rewrite Hv2. apply lookup_insert_eq. }
    2:{ done. }
    exists a, a0. eexists. split_and!; [done|done| |].
    { simpl. apply lookup_insert_eq. }
    simpl. split; [apply lookup_singleton_eq|].
    intros r c mrow Hr Hc. rewrite bool_decide_true by done.
    intros i slices' Hs Hi. rewrite Hdata in Hs. injection Hs as <-.
    destruct (lookup_lt_is_Some_2 _ _ Hi) as [data Hdatai].
    destruct (mapM_result_lookup _ _ _ _ _ Hw Hdatai) as (b & Hb & Hbi).
    bind_inv_as Hb out Hout. injection Hb as <-.
    apply warp_slice_Ok in Hout as [Hmask Hshape]. simpl.
    rewrite lookup_app_l by (by apply lookup_lt_Some in Hbi).
    rewrite Hbi. simpl. rewrite lookup_singleton_eq. simpl.
    apply filled_masked_cell with (mrow := mrow); [by rewrite Hmask| |done].
    by rewrite Hmask.
  - bind_inv_as H out Hout. bind_inv_as H out_var Hout_var.
    apply getitem_dict_Ok in Hout_var.
    apply assign_all_Ok in H as (_ & v & sh' & Hv & _ & _ & Hv').
    rewrite Hv2, lookup_insert_eq in Hout_var. injection Hout_var as <-.
    rewrite Hv2, lookup_insert_eq in Hv. injection Hv as <-.
    apply warp_slice_Ok in Hout as [Hmask Hshape].
    exists a, a0. eexists. split_and!; [done|done| |].
    { rewrite Hv'. apply lookup_insert_eq. }
    simpl. split; [apply lookup_singleton_eq|].
    intros r c mrow Hr Hc. rewrite bool_decide_false by done.
    unfold variable_fill. simpl.
    rewrite lookup_singleton_eq. simpl.
    apply filled_masked_cell with (mrow := mrow); [by rewrite Hmask| |done].
    by rewrite Hmask.
Qed.

(** *** Reading and writing ranges of the first axis *)

Lemma mapM_result_Err {A B} (f : A → result B) (l : list A) (e : error) :
  (∀ x e, f x = Err e → e = LibraryError) →
  mapM_result f l = Err e → e = LibraryError.
Proof.
  intros Hf. induction l as [|x l IH]; simpl; [done|].
  destruct (f x) as [b|e'] eqn:Hx; simpl.
  - destruct (mapM_result f l) as [bs|e'']; simpl; [done|].
    intros [= <-]. by apply IH.
  - intros [= <-]. by eapply Hf.
Qed.

Lemma getitem_Err slices a e : getitem slices a = Err e → e = LibraryError.
Proof.
  revert a e. induction slices as [|item rest IH]; intros a e; simpl; [done|].
  destruct item as [s|], a as [v|rows]; try by intros [= <-].
  destruct (mapM_result (getitem rest) (py_slice s rows)) as [bs|e'] eqn:Hm;
    simpl; [done|].
  intros [= <-]. eapply mapM_result_Err; [|done]. intros x e''. apply IH.
Qed.

Lemma mapM_result_app {A B} (f : A → result B) (l1 l2 : list A) :
  mapM_result f (l1 ++ l2)
  = (bs1 ← mapM_result f l1; bs2 ← mapM_result f l2; Ok (bs1 ++ bs2)).
Proof.
  induction l1 as [|x l1 IH]; simpl.
  - by destruct (mapM_result f l2).
  - destruct (f x); simpl; [|done]. rewrite IH.
    destruct (mapM_result f l1); simpl; [|done].
    by destruct (mapM_result f l2).
Qed.

(** A slice with bounds inside the sequence is the plain sub-list. *)
Lemma py_slice_within {A} (l : list A) (lo hi : nat) :
  (lo ≤ hi ≤ length l)%nat →
  py_slice {| start := Some (Z.of_nat lo); stop := Some (Z.of_nat hi) |} l
  = drop lo (take hi l).
Proof.
  intros Hb. unfold py_slice, slice_bounds, clamp_index. simpl.
  destruct (Z.ltb_spec (Z.of_nat lo) 0); [lia|].
  destruct (Z.ltb_spec (Z.of_nat hi) 0); [lia|].
  by rewrite !Z.min_l, !Nat2Z.id by lia.
Qed.

Lemma slice_bounds_within (lo hi len : nat) :
  (lo ≤ hi ≤ len)%nat →
  slice_bounds {| start := Some (Z.of_nat lo); stop := Some (Z.of_nat hi) |} len
  = (lo, hi).
Proof.
  intros Hb. unfold slice_bounds, clamp_index. simpl.
  destruct (Z.ltb_spec (Z.of_nat lo) 0); [lia|].
  destruct (Z.ltb_spec (Z.of_nat hi) 0); [lia|].
  by rewrite !Z.min_l, !Nat2Z.id by lia.
Qed.

Lemma read_entries rest rsh (X : list ndarray) :
  (new ← mapM_result (getitem rest) X;
   if forallb (has_shape rsh) new then Ok new else Err LibraryError)
  = or_library_error (mapM_result (read_entry rest rsh) X).
Proof.
  unfold read_entry. induction X as [|x X IH]; simpl; [done|].
  destruct (getitem rest x) as [r|e] eqn:Hx; simpl;
    [|by apply getitem_Err in Hx as ->].
  destruct (has_shape rsh r) eqn:Hr; simpl.
  - destruct (mapM_result (getitem rest) X) as [new|e];
      destruct (mapM_result _ X) as [R|e'];
      simpl in *; try done.
    + rewrite Hr. simpl. destruct (forallb (has_shape rsh) new); [|done].
      by injection IH as <-.
    + rewrite Hr. simpl. by destruct (forallb (has_shape rsh) new).
  - destruct (mapM_result (getitem rest) X) as [new|e] eqn:Hm; simpl.
    + by rewrite Hr.
    + apply mapM_result_Err in Hm as ->; [done|]. intros ??. apply getitem_Err.
Qed.

Lemma read_entries_length rest rsh (X R : list ndarray) :
  mapM_result (read_entry rest rsh) X = Ok R → length R = length X.
Proof. apply mapM_result_length. Qed.

Lemma clamp_index_within (x len : nat) :
  (x ≤ len)%nat → clamp_index (Z.of_nat x) len = x.
Proof.
  intros Hx. unfold clamp_index.
  destruct (Z.ltb_spec (Z.of_nat x) 0); [lia|]. by rewrite Z.min_l, Nat2Z.id by lia.
Qed.

(** One pass of the block loop, on a target variable whose first axis has
    [n] entries: block [i] reads the entries [a + i*inc] up to
    [a + min((i+1)*inc, n)] of the source and writes them over the entries
    [i*inc] up to [min((i+1)*inc, n)] of the target. *)
Lemma transfer_block_spec source_variable target_name rest shape_rest
    target_dataset target_variable (S T : list ndarray) (a n inc i : nat) rsh :
  var_data source_variable = Arr S →
  variables target_dataset !! target_name = Some target_variable →
  shape_of target_dataset (var_dimensions target_variable) = Ok (n :: rsh) →
  var_data target_variable = Arr T →
  length T = n →
  (a + n ≤ length S)%nat →
  (0 < inc)%nat →
  (i * inc < n)%nat →
  transfer_block source_variable target_name
    (Some {| start := Some (Z.of_nat a); stop := Some (Z.of_nat (a + n)) |} :: rest)
    (Z.of_nat n :: shape_rest) (Z.of_nat inc) target_dataset (Z.of_nat i)
  = or_library_error
      (R ← mapM_result (read_entry rest rsh)
             (drop (a + i * inc) (take (a + (((i + 1) * inc) `min` n)) S));
       Ok (set_variables target_dataset
             (<[target_name :=
                  set_data target_variable
                    (Arr (take (i * inc) T ++ R
                          ++ drop (((i + 1) * inc) `min` n) T))]>
                (variables target_dataset)))).
Proof.
  intros HS Hv Hsh HT HlenT Hbound Hinc Hi.
  unfold transfer_block. simpl.
  replace (Z.of_nat a + Z.of_nat i * Z.of_nat inc) with (Z.of_nat (a + i * inc))
    by lia.
  replace (Z.min (Z.of_nat a + (Z.of_nat i + 1) * Z.of_nat inc) (Z.of_nat (a + n)))
    with (Z.of_nat (a + (((i + 1) * inc) `min` n))) by lia.
  replace (Z.of_nat i * Z.of_nat inc) with (Z.of_nat (i * inc)) by lia.
  replace (Z.min (Z.of_nat (i * inc) + Z.of_nat inc) (Z.of_nat n))
    with (Z.of_nat (((i + 1) * inc) `min` n)) by lia.
  rewrite HS. rewrite py_slice_within by lia.
  set (X := drop (a + i * inc) (take (a + (((i + 1) * inc) `min` n)) S)).
  assert (length X = (((i + 1) * inc) `min` n - i * inc)%nat) as HlenX.
  { unfold X. rewrite length_drop, length_take. lia. }
  pose proof (read_entries rest rsh X) as Hre.
  destruct (mapM_result (getitem rest) X) as [new|e] eqn:Hm; simpl in Hre |- *.
  - unfold assign_slice, getitem_dict. rewrite Hv. simpl. rewrite Hsh. simpl.
    rewrite HT. simpl. rewrite !clamp_index_within by lia.
    rewrite bool_decide_true
      by (rewrite (mapM_result_length _ _ _ Hm); lia).
    simpl. rewrite Nat.max_r by lia.
    destruct (mapM_result (read_entry rest rsh) X) as [R|e'];
      destruct (forallb (has_shape rsh) new); simpl in *; try done.
    by injection Hre as <-.
  - destruct (mapM_result (read_entry rest rsh) X) as [R|e']; simpl in *; [done|].
    by injection Hre as ->.
Qed.

Lemma foldM_fmap {A B S} (f : S → B → result S) (h : A → B) (l : list A) (s : S) :
  foldM f (h <$> l) s = foldM (λ s x, f s (h x)) l s.
Proof.
  revert s. induction l as [|x l IH]; intros s; simpl; [done|].
  destruct (f s (h x)); simpl; [apply IH|done].
Qed.

Lemma foldM_app {A S} (f : S → A → result S) (l1 l2 : list A) (s : S) :
  foldM f (l1 ++ l2) s = (s' ← foldM f l1 s; foldM f l2 s').
Proof.
  revert s. induction l1 as [|x l1 IH]; intros s; simpl; [done|].
  destruct (f s x); simpl; [apply IH|done].
Qed.

Lemma drop_take_split {A} (l : list A) (a b c : nat) :
  (a ≤ b ≤ c)%nat →
  drop a (take c l) = drop a (take b l) ++ drop b (take c l).
Proof.
  intros Habc. rewrite <- (take_drop b (take c l)) at 1.
  rewrite take_take, Nat.min_l by lia.
  destruct (decide (b ≤ length l)%nat).
  - rewrite drop_app_le; [done|]. rewrite length_take. lia.
  - rewrite (drop_ge (take c l)) by (rewrite length_take; lia).
    by rewrite !app_nil_r.
Qed.

Lemma set_data_same_variable (ds : Dataset) name v rows :
  variables ds !! name = Some v →
  var_data v = Arr rows →
  set_variables ds (<[name := set_data v (Arr rows)]> (variables ds)) = ds.
Proof.
  intros Hv Hdata. destruct ds as [dims vars], v as [dt vd va vdata]; simpl in *.
  subst vdata. unfold set_variables, set_data; simpl. by rewrite insert_id.
Qed.

(** The single assignment [target[:] = source[slices]]. *)
Lemma bulk_transfer_spec source_variable target_name rest
    target_dataset target_variable (S : list ndarray) (a n : nat) rsh :
  var_data source_variable = Arr S →
  variables target_dataset !! target_name = Some target_variable →
  shape_of target_dataset (var_dimensions target_variable) = Ok (n :: rsh) →
  (a + n ≤ length S)%nat →
  (data ← getitem
            (Some {| start := Some (Z.of_nat a); stop := Some (Z.of_nat (a + n)) |}
             :: rest) (var_data source_variable);
   assign_all target_dataset target_name data)
  = or_library_error
      (R ← mapM_result (read_entry rest rsh) (drop a (take (a + n) S));
       Ok (set_variables target_dataset
             (<[target_name := set_data target_variable (Arr R)]>
                (variables target_dataset)))).
Proof.
  intros HS Hv Hsh Hbound. rewrite HS. simpl. rewrite py_slice_within by lia.
  set (X := drop a (take (a + n) S)).
  assert (length X = n) as HlenX.
  { unfold X. rewrite length_drop, length_take. lia. }
  pose proof (read_entries rest rsh X) as Hre.
  destruct (mapM_result (getitem rest) X) as [new|e] eqn:Hm; simpl in Hre |- *.
  - unfold assign_all, getitem_dict. rewrite Hv. simpl. rewrite Hsh. simpl.
    rewrite bool_decide_true by (rewrite (mapM_result_length _ _ _ Hm); lia).
    simpl.
    destruct (mapM_result (read_entry rest rsh) X) as [R|e'];
      destruct (forallb (has_shape rsh) new); simpl in *; try done.
    by injection Hre as <-.
  - destruct (mapM_result (read_entry rest rsh) X) as [R|e']; simpl in *; [done|].
    by injection Hre as ->.
Qed.

(** The first [k] passes of the block loop have copied the first
    [min(k*inc, n)] entries of the slice. *)
Lemma block_loop_spec source_variable target_name rest shape_rest
    target_dataset target_variable (S T : list ndarray) (a n inc : nat) rsh :
  var_data source_variable = Arr S →
  variables target_dataset !! target_name = Some target_variable →
  shape_of target_dataset (var_dimensions target_variable) = Ok (n :: rsh) →
  var_data target_variable = Arr T →
  length T = n →
  (a + n ≤ length S)%nat →
  (0 < inc)%nat →
  ∀ k : nat,
    (k = 0 ∨ (k - 1) * inc < n)%nat →
    foldM (transfer_block source_variable target_name
             (Some {| start := Some (Z.of_nat a); stop := Some (Z.of_nat (a + n)) |}
              :: rest)
             (Z.of_nat n :: shape_rest) (Z.of_nat inc))
          (Z.of_nat <$> seq 0 k) target_dataset
    = or_library_error
        (R ← mapM_result (read_entry rest rsh)
               (drop a (take (a + ((k * inc) `min` n)) S));
         Ok (set_variables target_dataset
               (<[target_name :=
                    set_data target_variable
                      (Arr (R ++ drop ((k * inc) `min` n) T))]>
                  (variables target_dataset)))).
Proof.
  intros HS Hv Hsh HT HlenT Hbound Hinc k. induction k as [|k IH]; intros Hk.
  - simpl. rewrite Nat.add_0_r.
    rewrite (drop_ge (take a S)) by (rewrite length_take; lia). simpl.
    by rewrite set_data_same_variable.
  - assert (k * inc < n)%nat as Hkn by (destruct Hk; [done|]; lia).
    rewrite seq_S, fmap_app, foldM_app. rewrite IH by lia. clear IH. simpl.
    rewrite (Nat.min_l (k * inc)) by lia.
    rewrite (drop_take_split S a (a + k * inc) (a + ((inc + k * inc) `min` n)))
      by lia.
    rewrite mapM_result_app.
    destruct (mapM_result (read_entry rest rsh) (drop a (take (a + k * inc) S)))
      as [R|e] eqn:HR; simpl; [|done].
    assert (length R = (k * inc)%nat) as HlenR.
    { rewrite (mapM_result_length _ _ _ HR), length_drop, length_take. lia. }
    rewrite (transfer_block_spec _ _ _ _ _
               (set_data target_variable (Arr (R ++ drop (k * inc) T)))
               S (R ++ drop (k * inc) T) a n inc k rsh); try done.
    + simpl. replace ((k + 1) * inc)%nat with (inc + k * inc)%nat by lia.
      destruct (mapM_result (read_entry rest rsh)
                  (drop (a + k * inc) (take (a + ((inc + k * inc) `min` n)) S)))
        as [R'|e]; simpl; [|done].
      do 2 f_equal. unfold set_variables, set_data; simpl.
      rewrite insert_insert_eq. do 3 f_equal.
      rewrite take_app_length' by done. rewrite <- app_assoc. do 2 f_equal.
      rewrite drop_app_ge by lia. rewrite drop_drop. f_equal. lia.
    + simpl. apply lookup_insert_eq.
    + rewrite length_app, length_drop. lia.
Qed.

Lemma seqZ_from_0 (len : Z) : seqZ 0 len = Z.of_nat <$> seq 0 (Z.to_nat len).
Proof. unfold seqZ. apply list_fmap_ext. intros _ i _. lia. Qed.

Lemma ceil_div_bounds (n inc : Z) :
  0 < n → 0 < inc →
  (ceil_div n inc - 1) * inc < n ≤ ceil_div n inc * inc.
Proof.
  intros Hn Hinc. unfold ceil_div.
  pose proof (Z.mul_div_le (- n) inc Hinc).
  pose proof (Z.mul_succ_div_gt (- n) inc Hinc). nia.
Qed.

(** The block loop and the single assignment are the same transfer: with
    the target variable freshly declared over [n] entries and the slice of
    the first axis inside the data of the source, [transfer] either ends with
    [BlocksizeTooSmall] or does what the single assignment does. *)
Lemma transfer_is_bulk source_variable target_name rest shape_rest
    target_dataset target_variable (S T : list ndarray) (a n : nat) rsh blocksize :
  var_data source_variable = Arr S →
  variables target_dataset !! target_name = Some target_variable →
  shape_of target_dataset (var_dimensions target_variable) = Ok (n :: rsh) →
  var_data target_variable = Arr T →
  length T = n →
  (a + n ≤ length S)%nat →
  Forall (λ z, 0 ≤ z) shape_rest →
  let slices :=
    Some {| start := Some (Z.of_nat a); stop := Some (Z.of_nat (a + n)) |} :: rest in
  transfer source_variable target_dataset target_name slices
    (Z.of_nat n :: shape_rest) blocksize
  = Err BlocksizeTooSmall
  ∨ transfer source_variable target_dataset target_name slices
      (Z.of_nat n :: shape_rest) blocksize
    = (data ← getitem slices (var_data source_variable);
       assign_all target_dataset target_name data).
Proof.
  intros HS Hv Hsh HT HlenT Hbound Hnn slices. unfold transfer.
  case_bool_decide as Hsize; [by right|].
  case_bool_decide as Hrest; [by left|]. right. unfold slices.
  rewrite (bulk_transfer_spec _ _ _ _ target_variable S a n rsh); try done.
  simpl in Hsize, Hrest. simpl.
  apply product_nonneg in Hnn.
  destruct (increment_bounds (Z.of_nat n) (product shape_rest) blocksize)
    as (Hn & Hp & Hinc & Hlo & Hhi); [lia..|].
  rewrite bool_decide_false by nia. simpl. rewrite Hinc.
  rewrite bool_decide_false by lia. simpl.
  set (inc := blocksize / product shape_rest) in *.
  pose proof (ceil_div_bounds (Z.of_nat n) inc Hn ltac:(lia)) as [Hk1 Hk2].
  rewrite seqZ_from_0.
  replace inc with (Z.of_nat (Z.to_nat inc)) at 1 by lia.
  rewrite (block_loop_spec _ _ _ _ _ target_variable S T a n (Z.to_nat inc) rsh);
    try done; [|lia|right; nia].
  rewrite (Nat.min_r _ n) by nia.
  rewrite (drop_ge T) by lia.
  destruct (mapM_result _ _) as [R|e]; simpl; [|done]. by rewrite app_nil_r.
Qed.

(** *** What extract_subset leaves of the dimensions of the target *)

Lemma shape_of_same_dimensions ds ds' dims :
  dimensions ds' = dimensions ds → shape_of ds' dims = shape_of ds dims.
Proof. intros Hd. unfold shape_of. by rewrite Hd. Qed.

Lemma foldM_dimensions {A} (f : Dataset → A → result Dataset) (l : list A) s s' :
  (∀ t x t', f t x = Ok t' → dimensions t' = dimensions t) →
  foldM f l s = Ok s' → dimensions s' = dimensions s.
Proof.
  intros Hf. revert s. induction l as [|x l IH]; intros s H; simpl in H.
  - by injection H as <-.
  - bind_inv H. apply IH in H. apply Hf in Ha. congruence.
Qed.

Lemma transfer_block_dimensions source_variable target_name slices target_shape
    increment t i t' :
  transfer_block source_variable target_name slices target_shape increment t i
  = Ok t' →
  dimensions t' = dimensions t.
Proof.
  unfold transfer_block. intros H.
  bind_inv H. bind_inv H. bind_inv H. bind_inv H. bind_inv H. bind_inv H.
  unfold assign_slice in H. bind_inv H. bind_inv H. bind_inv H.
  by injection H as <-.
Qed.

Lemma transfer_dimensions source_variable t target_name slices target_shape
    blocksize t' :
  transfer source_variable t target_name slices target_shape blocksize = Ok t' →
  dimensions t' = dimensions t.
Proof.
  unfold transfer. intros H. case_bool_decide.
  - bind_inv H. by apply assign_all_Ok in H as [? _].
  - case_bool_decide; [done|]. bind_inv H. bind_inv H. bind_inv H.
    eapply foldM_dimensions; [|done]. intros ???. apply transfer_block_dimensions.
Qed.

Lemma subset_dimensions_keeps recurse source_dataset name dims index
    t slices target_shape t' slices' target_shape' :
  (∀ t0 d s t1, recurse t0 d s = Ok t1 →
     ∀ k x, dimensions t0 !! k = Some x → dimensions t1 !! k = Some x) →
  subset_dimensions recurse source_dataset name dims index (t, slices, target_shape)
  = Ok (t', slices', target_shape') →
  ∀ k x, dimensions t !! k = Some x → dimensions t' !! k = Some x.
Proof.
  intros Hrec. revert index t slices target_shape.
  induction dims as [|dimension dims IH]; intros index t sl sh H k x Hk; simpl in H.
  - by injection H as <- _ _.
  - case_bool_decide as Hname; [by injection H as <- _ _|].
    bind_inv H. bind_inv H. bind_inv H. bind_inv H. bind_inv H. bind_inv H.
    eapply IH; [done|].
    assert (dimensions a3 !! k = Some x) as Hk3.
    { destruct (contains (dimensions t) dimension) eqn:Hc.
      - bind_inv Ha3. case_bool_decide; [|done]. by injection Ha3 as <-.
      - apply contains_false in Hc.
        apply createDimension_Ok in Ha3 as (_ & _ & d & -> & _).
        rewrite lookup_insert_ne; [done|]. intros ->. congruence. }
    destruct (_ && _); [by eapply Hrec|]. by injection Ha4 as <-.
Qed.

Lemma extract_subset_keeps_dimensions (fuel : nat) source_dataset t name slices
    target_name blocksize fill_value t' :
  extract_subset fuel source_dataset t name slices target_name blocksize fill_value
  = Ok t' →
  ∀ k x, dimensions t !! k = Some x → dimensions t' !! k = Some x.
Proof.
  revert t name slices target_name blocksize fill_value t'.
  induction fuel as [|fuel IH]; intros t name slices tn B kw t' H k x Hk; [done|].
  simpl in H. bind_inv H. case_bool_decide; [|done]. simpl in H.
  destruct (contains (variables t) name); [done|].
  bind_inv H. destruct a0 as [[t1 sl1] sh1]. bind_inv H. bind_inv H. bind_inv H.
  apply copy_variable_ncattrs_Ok in H as (-> & _).
  apply transfer_dimensions in Ha3 as ->.
  apply createVariable_Ok in Ha2 as (_ & -> & _).
  eapply subset_dimensions_keeps; [|done..].
  intros t0 d s t2 Hrec. apply (IH _ _ _ _ _ _ _ Hrec).
Qed.

(** The first pass of the dimension loop, seen from its end: the slice of
    the first axis, the first entry of the target shape and the length of
    the first dimension in the target. *)
Lemma subset_dimensions_leading recurse source_dataset name dims
    t slices t1 slices1 shape0 shape_rest :
  (∀ t0 d s t', recurse t0 d s = Ok t' →
     ∀ k x, dimensions t0 !! k = Some x → dimensions t' !! k = Some x) →
  subset_dimensions recurse source_dataset name dims 0 (t, slices, [])
  = Ok (t1, slices1, shape0 :: shape_rest) →
  ∃ d0 dims' item cur dim rest1,
    dims = d0 :: dims'
    ∧ head slices = Some item
    ∧ slices1 = Some cur :: rest1
    ∧ (unbounded item = true →
       ∃ sd, dimensions source_dataset !! d0 = Some sd
             ∧ cur = {| start := Some 0; stop := Some (Z.of_nat (dim_len sd)) |})
    ∧ (unbounded item = false → item = Some cur)
    ∧ slice_span cur = Ok shape0
    ∧ dimensions t1 !! d0 = Some dim
    ∧ Z.of_nat (dim_len dim) = shape0.
Proof.
  intros Hrec H. destruct dims as [|d0 dims']; simpl in H; [done|].
  case_bool_decide as Hname; [done|].
  bind_inv_as H item Hitem. bind_inv_as H sl Hsl. bind_inv_as H cur Hcur.
  bind_inv_as H span Hspan. bind_inv_as H t2 Ht2. bind_inv_as H t3 Ht3.
  pose proof (subset_dimensions_frame _ _ _ _ _ _ _ _ _ _ _ H) as (Hpre & _ & ext & Hext).
  simpl in Hext. injection Hext as <- <-.
  pose proof (subset_dimensions_keeps _ _ _ _ _ _ _ _ _ _ _ Hrec H) as Hkeep.
  specialize (Hpre 0%nat ltac:(lia)).
  destruct (slices !! 0%nat) as [item'|] eqn:Hs0; [|done]. simpl in Hitem.
  injection Hitem as ->.
  destruct (sl !! 0%nat) as [[cur'|]|] eqn:Hsl0; try done. simpl in Hcur.
  injection Hcur as ->.
  assert (∃ dim, dimensions t2 !! d0 = Some dim ∧ Z.of_nat (dim_len dim) = shape0)
    as (dim & Hdim & Hlen).
  { destruct (contains (dimensions t) d0) eqn:Hc.
    - bind_inv Ht2. apply getitem_dict_Ok in Ha. case_bool_decide; [|done].
      injection Ht2 as <-. eauto.
    - apply createDimension_Ok in Ht2 as (_ & _ & d & -> & Hd).
      destruct (Hd _ eq_refl) as [Hnn ->]. eexists. split; [apply lookup_insert_eq|].
      simpl. lia. }
  assert (dimensions t3 !! d0 = Some dim) as Hdim3.
  { destruct (_ && _); [by eapply Hrec|]. by injection Ht3 as <-. }
  destruct slices1 as [|s1 rest1]; [done|]. simpl in Hpre. injection Hpre as ->.
  exists d0, dims', item, cur, dim, rest1. split_and!; try done.
  - by destruct slices.
  - intros Hu. rewrite Hu in Hsl. bind_inv Hsl. apply getitem_dict_Ok in Ha.
    injection Hsl as <-. exists a. split; [done|].
    rewrite list_lookup_insert_eq in Hsl0 by (by apply lookup_lt_Some in Hs0).
    by injection Hsl0 as <-.
  - intros Hu. rewrite Hu in Hsl. injection Hsl as <-. congruence.
  - by apply Hkeep.
Qed.

(** The two ways of [transfer], in the state [extract_subset] calls it in. *)
Lemma extract_transfer_cases (fuel : nat) source_dataset target_dataset name slices
    source_variable t1 slices1 target_shape target_name fv t2 blocksize :
  leading_slice_valid source_dataset source_variable slices →
  subset_dimensions
    (λ target_dataset dimension cur_slice,
       extract_subset fuel source_dataset target_dataset dimension
         [Some cur_slice] None 100000000 None)
    source_dataset name (var_dimensions source_variable) 0
    (target_dataset, slices, [])
  = Ok (t1, slices1, target_shape) →
  createVariable t1 target_name (var_dtype source_variable)
    (var_dimensions source_variable) (Some fv) = Ok t2 →
  transfer source_variable t2 target_name slices1 target_shape blocksize
  = Err BlocksizeTooSmall
  ∨ transfer source_variable t2 target_name slices1 target_shape blocksize
    = (data ← getitem slices1 (var_data source_variable);
       assign_all t2 target_name data).
Proof.
  intros Hvalid Hdims Hcreate.
  destruct target_shape as [|shape0 shape_rest].
  { unfold transfer. simpl. case_bool_decide; [by right|].
    rewrite bool_decide_true by lia. by left. }
  pose proof (subset_dimensions_shape_nonneg _ _ _ _ _ _ _ _ _ _ _ Hdims
                ltac:(constructor)) as Hnn.
  apply Forall_cons in Hnn as [_ Hnn].
  apply subset_dimensions_leading in Hdims
      as (d0 & dims' & item & cur & dim & rest1 & Hd & Hitem & -> & Hunb & Hbnd
          & Hspan & Hdim & Hlen).
  2:{ intros t0 d s t' Hrec. apply (extract_subset_keeps_dimensions _ _ _ _ _ _ _ _ _ Hrec). }
  destruct (Hvalid d0 item) as (S & HS & Hvu & Hvb); [by rewrite Hd|done|].
  apply createVariable_Ok in Hcreate as (_ & Hd2 & sh & Hsh & Hv2).
  rewrite Hd in Hsh. pose proof Hsh as Hsh'.
  apply shape_of_cons in Hsh' as (dim' & rsh & Hdim' & ->).
  assert (dim' = dim) as -> by congruence.
  assert (∃ a : nat,
            (a + dim_len dim ≤ length S)%nat
            ∧ cur = {| start := Some (Z.of_nat a);
                       stop := Some (Z.of_nat (a + dim_len dim)) |})
    as (a & Hbound & ->).
  { destruct (unbounded item) eqn:Hu.
    - destruct (Hunb eq_refl) as (sd & Hsd & ->). simpl in Hspan.
      injection Hspan as Hspan. exists 0%nat. split.
      + specialize (Hvu eq_refl sd Hsd). lia.
      + simpl. do 2 f_equal. lia.
    - specialize (Hbnd eq_refl). subst item.
      destruct cur as [[st|] [sp|]]; try done. simpl in Hspan.
      injection Hspan as Hspan.
      destruct (Hvb _ st sp eq_refl eq_refl eq_refl) as [Hst Hsp].
      exists (Z.to_nat st). split; [lia|]. f_equal; f_equal; lia. }
  rewrite <- Hlen.
  eapply (transfer_is_bulk _ _ _ _ _ _ S (replicate (dim_len dim) (full rsh fv)) a
            (dim_len dim) rsh); try done.
  - rewrite Hv2. apply lookup_insert_eq.
  - simpl. rewrite (shape_of_same_dimensions t1 t2) by done. by rewrite Hd.
  - reflexivity.
  - apply length_replicate.
Qed.

(** C1.  For a slice of the first axis that stays within the data of the
    source variable, two calls of [extract_subset] that differ only in
    [blocksize], neither of which ends with [BlocksizeTooSmall], end the same
    way: both return the same target dataset, with the same array written
    for the variable, or both fail alike.  The loop over increments of the
    first axis writes what the single assignment writes. *)
Theorem blocksize_invariance (fuel : nat) source_dataset target_dataset name slices
    target_name (blocksize1 blocksize2 : Z) fill_value source_variable :
  variables source_dataset !! name = Some source_variable →
  leading_slice_valid source_dataset source_variable slices →
  extract_subset fuel source_dataset target_dataset name slices target_name
    blocksize1 fill_value ≠ Err BlocksizeTooSmall →
  extract_subset fuel source_dataset target_dataset name slices target_name
    blocksize2 fill_value ≠ Err BlocksizeTooSmall →
  extract_subset fuel source_dataset target_dataset name slices target_name
    blocksize1 fill_value
  = extract_subset fuel source_dataset target_dataset name slices target_name
      blocksize2 fill_value.
Proof.
  intros Hsv Hvalid. destruct fuel as [|fuel]; [done|]. simpl.
  apply getitem_dict_Ok in Hsv as Hg. rewrite !Hg. simpl.
  destruct (negb _); [done|].
  destruct (contains (variables target_dataset) name); [done|].
  destruct (subset_dimensions _ _ _ _ _ _) as [[[t1 slices1] target_shape]|e] eqn:Hdims;
    simpl; [|done].
  destruct (match fill_value with
            | Some v => Ok v
            | None => get_fill_value_for_variable source_variable
            end) as [fv|e]; simpl; [|done].
  destruct (createVariable t1 (or_name target_name name) (var_dtype source_variable)
              (var_dimensions source_variable) (Some fv)) as [t2|e] eqn:Hcreate;
    simpl; [|done].
  intros H1 H2.
  destruct (extract_transfer_cases _ _ _ _ _ _ _ _ _ _ _ _ blocksize1
              Hvalid Hdims Hcreate) as [Hb1|Hb1].
  { rewrite Hb1 in H1. done. }
  destruct (extract_transfer_cases _ _ _ _ _ _ _ _ _ _ _ _ blocksize2
              Hvalid Hdims Hcreate) as [Hb2|Hb2].
  { rewrite Hb2 in H2. done. }
  by rewrite Hb1, Hb2.
Qed.

(** ** Further properties of utilities.py

    What the functions do beyond the properties above: their errors, what
    they leave alone, and how they compose. *)

(** *** copy_dimension *)

Lemma copy_dimension_eq source_dataset target_dataset name overwrite
    allow_unlimited source_dimension :
  dimensions source_dataset !! name = Some source_dimension →
  overwrite = true ∨ dimensions target_dataset !! name = None →
  copy_dimension source_dataset target_dataset name overwrite allow_unlimited
  = Ok (set_dimensions target_dataset
          (<[name := if allow_unlimited && isunlimited source_dimension
                     then {| dim_len := 0; isunlimited := true |}
                     else {| dim_len := dim_len source_dimension;
                             isunlimited := false |}]>
             (dimensions target_dataset))).
Proof.
  intros Hs Hcase. unfold copy_dimension.
  assert (∃ t0, (if contains (dimensions target_dataset) name
                 then if overwrite
                      then Ok (set_dimensions target_dataset
                                 (delete name (dimensions target_dataset)))
                      else Err AlreadyExists
                 else Ok target_dataset) = Ok t0
                ∧ variables t0 = variables target_dataset
                ∧ dimensions t0 !! name = None
                ∧ <[name := source_dimension]> (dimensions t0)
                  = <[name := source_dimension]> (dimensions target_dataset))
    as (t0 & -> & Hv & Hnone & Hins).
  { destruct (contains _ _) eqn:Hc.
    - apply contains_true in Hc. destruct Hcase as [->|Hn].
      + eexists. split_and!; [done..| |]; simpl.
        * apply lookup_delete_eq.
        * apply insert_delete_eq.
      + rewrite Hn in Hc. by destruct Hc.
    - apply contains_false in Hc. by exists target_dataset. }
  simpl. apply getitem_dict_Ok in Hs as ->. simpl.
  assert (∀ d, <[name := d]> (dimensions t0)
               = <[name := d]> (dimensions target_dataset)) as Hany.
  { intros d. apply map_eq. intros k. destruct (decide (k = name)) as [->|Hne].
    - by rewrite !lookup_insert_eq.
    - rewrite !lookup_insert_ne by done.
      apply (f_equal (λ m, m !! k)) in Hins.
      by rewrite !lookup_insert_ne in Hins by done. }
  apply contains_false in Hnone.
  destruct (allow_unlimited && isunlimited source_dimension);
    unfold createDimension; rewrite Hnone.
  - unfold set_dimensions. by rewrite Hany, Hv.
  - destruct (Z.ltb_spec (Z.of_nat (dim_len source_dimension)) 0); [lia|].
    unfold set_dimensions. by rewrite Nat2Z.id, Hany, Hv.
Qed.


(** The two ways [copy_dimension] fails.  With [overwrite=False] a
    dimension the target already declares is refused, whatever the source
    holds; otherwise a dimension the source does not declare is a
    [KeyError]. *)
Theorem copy_dimension_errors source_dataset target_dataset name overwrite
    allow_unlimited :
  (is_Some (dimensions target_dataset !! name) → overwrite = false →
   copy_dimension source_dataset target_dataset name overwrite allow_unlimited
   = Err AlreadyExists)
  ∧ (overwrite = true ∨ dimensions target_dataset !! name = None →
     dimensions source_dataset !! name = None →
     copy_dimension source_dataset target_dataset name overwrite allow_unlimited
     = Err (KeyError name)).
Proof.
  unfold copy_dimension. split.
  - intros Hc%contains_true ->. by rewrite Hc.
  - intros Hcase Hs. unfold getitem_dict. rewrite Hs.
    destruct (contains _ _) eqn:Hc.
    + apply contains_true in Hc. destruct Hcase as [->|Hn]; [done|].
      rewrite Hn in Hc. by destruct Hc.
    + done.
Qed.

(** *** copy_attributes *)

Lemma copy_attributes_cons source target attribute_name attribute_names overwrite :
  copy_attributes source target (attribute_name :: attribute_names) overwrite
  = (if contains target attribute_name && negb overwrite
     then Err AlreadyExists
     else
       v ← from_option Ok (Err AttributeError) (source !! attribute_name);
       copy_attributes source (<[attribute_name := v]> target) attribute_names
         overwrite).
Proof.
  unfold copy_attributes. simpl. destruct (_ && _); [done|].
  by destruct (source !! attribute_name).
Qed.

(** [copy_attributes] with [overwrite=True].  When the source has every
    attribute that is named, the call returns and the target has the
    source's value under each of these names and its own under every other
    name; when the source lacks one of them, the call ends with
    [AttributeError]. *)
Theorem copy_attributes_overwrite source target attribute_names :
  (Forall (λ n, is_Some (source !! n)) attribute_names →
   ∃ target',
     copy_attributes source target attribute_names true = Ok target'
     ∧ ∀ k, target' !! k
            = if bool_decide (k ∈ attribute_names) then source !! k else target !! k)
  ∧ (¬ Forall (λ n, is_Some (source !! n)) attribute_names →
     copy_attributes source target attribute_names true = Err AttributeError).
Proof.
  revert target. induction attribute_names as [|n names IH]; intros target.
  - split.
    + intros _. exists target. split; [done|]. intros k.
      rewrite bool_decide_false; [done|]. apply not_elem_of_nil.
    + intros []. constructor.
  - rewrite copy_attributes_cons, andb_false_r. split.
    + intros [[v Hv] Hall]%Forall_cons. rewrite Hv. simpl.
      destruct (IH (<[n := v]> target)) as [(target' & -> & Hk) _]; [done|].
      exists target'. split; [done|]. intros k. rewrite Hk.
      destruct (decide (k = n)) as [->|Hne].
      * rewrite (bool_decide_true (n ∈ n :: names)) by apply list_elem_of_here.
        case_bool_decide; [done|]. by rewrite lookup_insert_eq.
      * rewrite lookup_insert_ne by done.
        destruct (decide (k ∈ names)).
        -- rewrite !bool_decide_true; [done| |done]. by apply list_elem_of_further.
        -- rewrite !bool_decide_false; [done| |done].
           intros [?|?]%elem_of_cons; done.
    + intros Hnot. destruct (source !! n) as [v|] eqn:Hv; [|done]. simpl.
      apply IH. intros Hall. apply Hnot. constructor; [by rewrite Hv|done].
Qed.

(** [copy_attributes] with [overwrite=False] returns exactly when no name
    is given twice, the target has none of the attributes named and the
    source has them all; the target then holds the source's value under each
    of these names and its own under every other name.  A name that is given
    twice is refused like one the target had before the call. *)
Theorem copy_attributes_keep source target attribute_names :
  (NoDup attribute_names
   ∧ Forall (λ n, target !! n = None ∧ is_Some (source !! n)) attribute_names →
   ∃ target',
     copy_attributes source target attribute_names false = Ok target'
     ∧ ∀ k, target' !! k
            = if bool_decide (k ∈ attribute_names) then source !! k else target !! k)
  ∧ (∀ target',
       copy_attributes source target attribute_names false = Ok target' →
       NoDup attribute_names
       ∧ Forall (λ n, target !! n = None ∧ is_Some (source !! n)) attribute_names).
Proof.
  revert target. induction attribute_names as [|n names IH]; intros target.
  - split.
    + intros _. exists target. split; [done|]. intros k.
      rewrite bool_decide_false; [done|]. apply not_elem_of_nil.
    + intros _ _. split; constructor.
  - rewrite copy_attributes_cons, andb_true_r. split.
    + intros [[Hn Hnd]%NoDup_cons [[Ht [v Hv]] Hall]%Forall_cons].
      apply contains_false in Ht as Hc. rewrite Hc, Hv. simpl.
      destruct (IH (<[n := v]> target)) as [(target' & -> & Hk) _].
      { split; [done|]. rewrite Forall_forall in Hall |- *. intros x Hx.
        destruct (Hall x Hx) as [Hx1 Hx2]. split; [|done].
        rewrite lookup_insert_ne; [done|]. by intros ->. }
      exists target'. split; [done|]. intros k. rewrite Hk.
      destruct (decide (k = n)) as [->|Hne].
      * rewrite (bool_decide_true (n ∈ n :: names)) by apply list_elem_of_here.
        rewrite bool_decide_false by done. by rewrite lookup_insert_eq.
      * rewrite lookup_insert_ne by done.
        destruct (decide (k ∈ names)).
        -- rewrite !bool_decide_true; [done| |done]. by apply list_elem_of_further.
        -- rewrite !bool_decide_false; [done| |done].
           intros [?|?]%elem_of_cons; done.
    + intros target'. destruct (contains target n) eqn:Hc; [done|]. simpl.
      apply contains_false in Hc.
      destruct (source !! n) as [v|] eqn:Hv; [|done]. simpl. intros H.
      destruct (IH (<[n := v]> target)) as [_ Hback].
      destruct (Hback target' H) as [Hnd Hall].
      rewrite Forall_forall in Hall.
      assert (n ∉ names) as Hn.
      { intros Hin. destruct (Hall n Hin) as [Hx _].
        by rewrite lookup_insert_eq in Hx. }
      split; [by constructor|]. constructor; [by rewrite Hv|].
      rewrite Forall_forall. intros x Hx. destruct (Hall x Hx) as [Hx1 Hx2].
      split; [|done]. rewrite lookup_insert_ne in Hx1; [done|]. by intros ->.
Qed.

(** *** get_ncattrs and set_ncattrs *)




(** *** copy_variable: what it leaves alone *)


(** *** copy_variable: a second copy, and coordinate variables in a cycle *)

Lemma copy_dimension_inv source_dataset target_dataset name overwrite allow_unlimited
    target_dataset' :
  copy_dimension source_dataset target_dataset name overwrite allow_unlimited
  = Ok target_dataset' →
  ∃ source_dimension,
    dimensions source_dataset !! name = Some source_dimension
    ∧ target_dataset'
      = set_dimensions target_dataset
          (<[name := if allow_unlimited && isunlimited source_dimension
                     then {| dim_len := 0; isunlimited := true |}
                     else {| dim_len := dim_len source_dimension;
                             isunlimited := false |}]>
             (dimensions target_dataset)).
Proof.
  intros H. destruct (dimensions source_dataset !! name) as [sd|] eqn:Hs.
  - exists sd. split; [done|].
    assert (overwrite = true ∨ dimensions target_dataset !! name = None) as Hcase.
    { unfold copy_dimension in H. destruct (contains _ _) eqn:Hc.
      - destruct overwrite; [by left|done].
      - right. by apply contains_false. }
    rewrite (copy_dimension_eq _ _ _ _ allow_unlimited _ Hs Hcase) in H.
    by injection H.
  - unfold copy_dimension, getitem_dict in H. rewrite Hs in H.
    destruct (contains _ _); [destruct overwrite|]; done.
Qed.






Lemma copy_variable_cycle_fails (fuel : nat) source_dataset :
  ∀ a b va vb resta restb target_dataset overwrite fill_value target_dataset',
    a ≠ b →
    variables source_dataset !! a = Some va → var_dimensions va = b :: resta →
    variables source_dataset !! b = Some vb → var_dimensions vb = a :: restb →
    variables target_dataset !! b = None →
    copy_variable fuel source_dataset target_dataset a overwrite fill_value
    ≠ Ok target_dataset'.
Proof.
  induction fuel as [|fuel IH];
    intros a b va vb resta restb t ow kw t' Hab Hva Hda Hvb Hdb Hnb H; [done|].
  simpl in H. bind_inv_as H t0 Ht0. bind_inv_as H sv Hsv.
  apply getitem_dict_Ok in Hsv. assert (sv = va) as -> by congruence.
  bind_inv_as H t1 Ht1. rewrite Hda in Ht1. simpl in Ht1.
  bind_inv_as Ht1 t2 Ht2. unfold copy_variable_dimension in Ht2.
  bind_inv_as Ht2 t3 Ht3.
  assert (variables t0 !! a = None ∧ variables t0 !! b = None) as [Ha0 Hb0].
  { destruct (contains (variables t) a) eqn:Hc; [destruct ow; [|done]|].
    - injection Ht0 as <-. simpl. split; [apply lookup_delete_eq|].
      by rewrite lookup_delete_ne.
    - injection Ht0 as <-. by apply contains_false in Hc. }
  assert (variables t3 = variables t0) as Hv3.
  { destruct (contains (dimensions t0) b).
    - bind_inv Ht3. bind_inv Ht3. destruct (dimension_conflict _ _); [done|].
      by injection Ht3 as <-.
    - by apply copy_dimension_Ok in Ht3 as [? _]. }
  assert (contains (variables source_dataset) b = true) as Hcb
    by (apply contains_true; eauto).
  assert (contains (variables t3) b = false) as Hct
    by (apply contains_false; by rewrite Hv3).
  rewrite Hcb, Hct, (bool_decide_false (b = a)) in Ht2 by done. simpl in Ht2.
  eapply (IH b a vb va restb resta t3 true None t2); try done.
  by rewrite Hv3.
Qed.

(** The test [dimension_name != name] only stops a variable from copying
    itself.  When the first dimension of [a] is named like a variable [b]
    whose first dimension is in turn named [a], and the target has no
    variable [b], [copy_variable] of [a] never returns, however deep the
    recursion may go: the copy of [a] asks for [b] and the copy of [b] for
    [a]. *)
Theorem copy_variable_cycle (fuel : nat) source_dataset target_dataset a b va vb
    resta restb overwrite fill_value target_dataset' :
  a ≠ b →
  variables source_dataset !! a = Some va → var_dimensions va = b :: resta →
  variables source_dataset !! b = Some vb → var_dimensions vb = a :: restb →
  variables target_dataset !! b = None →
  copy_variable fuel source_dataset target_dataset a overwrite fill_value
  ≠ Ok target_dataset'.
Proof. apply copy_variable_cycle_fails. Qed.

(** *** copy_variable_dimensions and create_variable_like *)

(** What the loop of [copy_variable_dimensions] has done when it ends. *)
Lemma copy_variable_dimensions_loop (fuel : nat) source_dataset overwrite fill_value
    dims t t' :
  foldM (λ target_dataset dimension_name,
           if contains (variables source_dataset) dimension_name
           then copy_variable fuel source_dataset target_dataset dimension_name
                  overwrite fill_value
           else match fill_value with
                | Some _ => Err TypeError
                | None => copy_dimension source_dataset target_dataset
                            dimension_name overwrite false
                end) dims t = Ok t' →
  (∀ d, d ∈ dims → variables source_dataset !! d = None →
        fill_value = None
        ∧ ∃ sd, dimensions source_dataset !! d = Some sd
                ∧ dimensions t' !! d
                  = Some {| dim_len := dim_len sd; isunlimited := false |})
  ∧ (∀ d cv, d ∈ dims → variables source_dataset !! d = Some cv →
             ∃ tv, variables t' !! d = Some tv ∧ is_copy_of cv fill_value tv)
  ∧ (∀ k v, k ∉ dims → variables t !! k = Some v → variables t' !! k = Some v).
Proof.
  revert t'. induction dims as [|d dims IH] using rev_ind; intros t' H.
  - injection H as <-. split_and!.
    + by intros d Hd%elem_of_nil.
    + by intros d cv Hd%elem_of_nil.
    + done.
  - rewrite foldM_app in H. bind_inv_as H t1 Ht1.
    destruct (IH _ Ht1) as (Hpure & Hcoord & Hframe). clear IH. simpl in H.
    bind_inv_as H t2 Ht2. injection H as <-.
    destruct (contains (variables source_dataset) d) eqn:Hc.
    + apply contains_true in Hc as [cv Hcv].
      apply copy_variable_copied_into in Ht2 as (Hv & Hd & _ & Hcopy & _).
      split_and!.
      * intros d' [Hd'|Hd']%elem_of_app Hnone.
        -- destruct (Hpure d' Hd' Hnone) as (Hfv & sd & Hsd & Htd).
           split; [done|]. exists sd. split; [done|]. by apply Hd.
        -- apply list_elem_of_singleton in Hd' as ->. congruence.
      * intros d' cv' [Hd'|Hd']%elem_of_app Hcv'.
        -- destruct (decide (d' = d)) as [->|Hne].
           ++ destruct Hcopy as (sv & tv & Hsv & Htv & Hc). exists tv.
              split; [done|]. congruence.
           ++ destruct (Hcoord d' cv' Hd' Hcv') as (tv & Htv & Hc).
              exists tv. split; [|done]. by apply Hv.
        -- apply list_elem_of_singleton in Hd' as ->.
           destruct Hcopy as (sv & tv & Hsv & Htv & Hc). exists tv.
           split; [done|]. congruence.
      * intros k v Hk Hkv. apply Hv.
        -- intros ->. apply Hk, elem_of_app. right. apply list_elem_of_here.
        -- apply Hframe; [|done]. intros Hin. apply Hk, elem_of_app. by left.
    + apply contains_false in Hc. destruct fill_value as [v|]; [done|].
      apply copy_dimension_inv in Ht2 as (sd & Hsd & ->). simpl.
      split_and!.
      * intros d' [Hd'|Hd']%elem_of_app Hnone.
        -- destruct (Hpure d' Hd' Hnone) as (Hfv & sd' & Hsd' & Htd).
           split; [done|]. exists sd'. split; [done|].
           destruct (decide (d' = d)) as [->|Hne].
           ++ rewrite lookup_insert_eq. congruence.
           ++ by rewrite lookup_insert_ne.
        -- apply list_elem_of_singleton in Hd' as ->. split; [done|].
           exists sd. split; [done|]. by rewrite lookup_insert_eq.
      * intros d' cv' [Hd'|Hd']%elem_of_app Hcv'.
        -- by apply Hcoord.
        -- apply list_elem_of_singleton in Hd' as ->. congruence.
      * intros k v Hk Hkv. apply Hframe; [|done].
        intros Hin. apply Hk, elem_of_app. by left.
Qed.


(** When [create_variable_like] has returned, the new variable has the
    type and the dimensions of the template variable and nothing else of it:
    its only attribute is the [_FillValue] of a [fill_value] that was given
    (none is looked up when none is given, and no attribute of the template
    is copied), and every cell holds that fill value, or the default pattern
    of the library.  The dimensions of the template variable without a
    coordinate variable are declared in the target with the template's
    lengths. *)
Theorem create_variable_like_result (fuel : nat) target_dataset target_name
    like_dataset like_name overwrite fill_value target_dataset' :
  create_variable_like fuel target_dataset target_name like_dataset like_name
    overwrite fill_value = Ok target_dataset' →
  ∃ like_variable sh,
    variables like_dataset !! like_name = Some like_variable
    ∧ shape_of target_dataset' (var_dimensions like_variable) = Ok sh
    ∧ variables target_dataset' !! target_name
      = Some {| var_dtype := var_dtype like_variable;
                var_dimensions := var_dimensions like_variable;
                ncattrs := fill_ncattrs fill_value;
                var_data := full sh (default VNcDefault fill_value) |}
    ∧ (∀ d, d ∈ var_dimensions like_variable →
            variables like_dataset !! d = None →
            ∃ sd, dimensions like_dataset !! d = Some sd
                  ∧ dimensions target_dataset' !! d
                    = Some {| dim_len := dim_len sd; isunlimited := false |}).
Proof.
  unfold create_variable_like. intros H. bind_inv_as H t0 Ht0.
  bind_inv_as H t1 Ht1. bind_inv_as H lv Hlv. apply getitem_dict_Ok in Hlv.
  apply createVariable_Ok in H as (_ & Hd & sh & Hsh & Hv).
  exists lv, sh. split_and!.
  - done.
  - by rewrite (shape_of_same_dimensions _ _ _ Hd).
  - rewrite Hv. apply lookup_insert_eq.
  - unfold copy_variable_dimensions in Ht1. bind_inv_as Ht1 lv' Hlv'.
    apply getitem_dict_Ok in Hlv'. assert (lv' = lv) as -> by congruence.
    apply copy_variable_dimensions_loop in Ht1 as (Hpure & _ & _).
    intros d Hin Hnone. destruct (Hpure d Hin Hnone) as (_ & sd & Hsd & Htd).
    exists sd. split; [done|]. by rewrite Hd.
Qed.

(** Two calls of [create_variable_like] that cannot return: one whose
    [target_name] is a dimension of the template variable with a coordinate
    variable in the template dataset (the coordinate variable is copied
    under this name first, and the name is then in use), and one that gives
    a [fill_value] while the template variable has a dimension without a
    coordinate variable (the keyword reaches [copy_dimension]). *)
Theorem create_variable_like_refused (fuel : nat) target_dataset target_name
    like_dataset like_name overwrite fill_value like_variable target_dataset' :
  variables like_dataset !! like_name = Some like_variable →
  (target_name ∈ var_dimensions like_variable
   ∧ is_Some (variables like_dataset !! target_name))
  ∨ (is_Some fill_value
     ∧ ∃ d, d ∈ var_dimensions like_variable ∧ variables like_dataset !! d = None) →
  create_variable_like fuel target_dataset target_name like_dataset like_name
    overwrite fill_value ≠ Ok target_dataset'.
Proof.
  intros Hlike Hcase H. unfold create_variable_like in H. bind_inv_as H t0 Ht0.
  bind_inv_as H t1 Ht1. bind_inv_as H lv Hlv. apply getitem_dict_Ok in Hlv.
  assert (lv = like_variable) as -> by congruence.
  unfold copy_variable_dimensions in Ht1. bind_inv_as Ht1 lv' Hlv'.
  apply getitem_dict_Ok in Hlv'. assert (lv' = like_variable) as -> by congruence.
  apply copy_variable_dimensions_loop in Ht1 as (Hpure & Hcoord & _).
  destruct Hcase as [[Hin [cv Hcv]]|[[v ->] (d & Hin & Hnone)]].
  - destruct (Hcoord _ _ Hin Hcv) as (tv & Htv & _).
    apply createVariable_Ok in H as (Hfree & _). congruence.
  - by destruct (Hpure d Hin Hnone) as [? _].
Qed.

(** *** extract_subset: the dimensions of the target *)

(** One position of the dimension loop, seen from its end. *)
Lemma subset_dimensions_position recurse source_dataset name :
  (∀ t0 d s t1, recurse t0 d s = Ok t1 →
     ∀ k x, dimensions t0 !! k = Some x → dimensions t1 !! k = Some x) →
  ∀ dims index t slices target_shape t' slices' target_shape' position d,
    subset_dimensions recurse source_dataset name dims index
      (t, slices, target_shape)
    = Ok (t', slices', target_shape') →
    dims !! position = Some d →
    name ∉ take (S position) dims →
    ∃ item cur span dim,
      slices !! (index + position)%nat = Some item
      ∧ slices' !! (index + position)%nat = Some (Some cur)
      ∧ (unbounded item = true →
         ∃ sd, dimensions source_dataset !! d = Some sd
               ∧ cur = {| start := Some 0; stop := Some (Z.of_nat (dim_len sd)) |})
      ∧ (unbounded item = false → item = Some cur)
      ∧ slice_span cur = Ok span
      ∧ target_shape' !! (length target_shape + position)%nat = Some span
      ∧ dimensions t' !! d = Some dim
      ∧ Z.of_nat (dim_len dim) = span.
Proof.
  intros Hrec. induction dims as [|d0 dims IH];
    intros index t slices sh t' slices' sh' position d H Hd Hname; [done|].
  simpl in H. case_bool_decide as Hdn.
  { exfalso. apply Hname. subst d0. simpl. left. }
  bind_inv_as H item Hitem. bind_inv_as H sl Hsl. bind_inv_as H cur Hcur.
  bind_inv_as H span Hspan. bind_inv_as H t2 Ht2. bind_inv_as H t3 Ht3.
  destruct (slices !! index) as [item'|] eqn:Hs0; [|done]. simpl in Hitem.
  injection Hitem as ->.
  assert (length sl = length slices
          ∧ ∀ j, j ≠ index → sl !! j = slices !! j) as [Hlen Hother].
  { destruct (unbounded item).
    - bind_inv Hsl. injection Hsl as <-. split; [by rewrite length_insert|].
      intros j Hj. by apply list_lookup_insert_ne.
    - by injection Hsl as <-. }
  destruct position as [|position].
  - injection Hd as ->. rewrite !Nat.add_0_r.
    pose proof (subset_dimensions_frame _ _ _ _ _ _ _ _ _ _ _ H)
      as (Hpre & _ & ext & ->).
    pose proof (subset_dimensions_keeps _ _ _ _ _ _ _ _ _ _ _ Hrec H) as Hkeep.
    specialize (Hpre index ltac:(lia)).
    destruct (sl !! index) as [[cur'|]|] eqn:Hsl0; try done. simpl in Hcur.
    injection Hcur as ->.
    assert (∃ dim, dimensions t2 !! d = Some dim ∧ Z.of_nat (dim_len dim) = span)
      as (dim & Hdim & Hdlen).
    { destruct (contains (dimensions t) d) eqn:Hc.
      - bind_inv Ht2. apply getitem_dict_Ok in Ha. case_bool_decide; [|done].
        injection Ht2 as <-. eauto.
      - apply createDimension_Ok in Ht2 as (_ & _ & d' & -> & Hd').
        destruct (Hd' _ eq_refl) as [Hnn ->]. eexists.
        split; [apply lookup_insert_eq|]. simpl. lia. }
    assert (dimensions t3 !! d = Some dim) as Hdim3.
    { destruct (_ && _); [by eapply Hrec|]. by injection Ht3 as <-. }
    exists item, cur, span, dim. split_and!; try done.
    + intros Hu. rewrite Hu in Hsl. bind_inv Hsl. apply getitem_dict_Ok in Ha.
      injection Hsl as <-. exists a. split; [done|].
      rewrite list_lookup_insert_eq in Hsl0 by (by apply lookup_lt_Some in Hs0).
      by injection Hsl0 as <-.
    + intros Hu. rewrite Hu in Hsl. injection Hsl as <-. congruence.
    + rewrite <- app_assoc, lookup_app_r by lia.
      by replace (length sh - length sh)%nat with 0%nat by lia.
    + by apply Hkeep.
  - simpl in Hd.
    assert (name ∉ take (S position) dims) as Hname'.
    { intros Hin. apply Hname. simpl. by right. }
    destruct (IH _ _ _ _ _ _ _ _ _ H Hd Hname')
      as (item' & cur' & span' & dim & Hi & Hs' & Hu & Hb & Hsp & Hsh & Hdim & Hdl).
    exists item', cur', span', dim.
    replace (index + S position)%nat with (S index + position)%nat by lia.
    split_and!; try done.
    + rewrite <- Hother by lia. done.
    + rewrite length_app in Hsh. simpl in Hsh.
      by replace (length sh + S position)%nat
        with (length sh + 1 + position)%nat by lia.
Qed.

(** [extract_subset] from the end of the dimension loop on: what the rest
    of the function makes of the target of the loop. *)
Lemma extract_subset_unfold (fuel : nat) source_dataset t name slices target_name
    blocksize fill_value t' :
  extract_subset (S fuel) source_dataset t name slices target_name blocksize
    fill_value = Ok t' →
  ∃ source_variable t1 slices1 target_shape fv t2 t3,
    variables source_dataset !! name = Some source_variable
    ∧ length slices = length (var_dimensions source_variable)
    ∧ variables t !! name = None
    ∧ subset_dimensions
        (λ target_dataset dimension cur_slice,
           extract_subset fuel source_dataset target_dataset dimension
             [Some cur_slice] None 100000000 None)
        source_dataset name (var_dimensions source_variable) 0 (t, slices, [])
      = Ok (t1, slices1, target_shape)
    ∧ match fill_value with
      | Some v => Ok v
      | None => get_fill_value_for_variable source_variable
      end = Ok fv
    ∧ createVariable t1 (or_name target_name name) (var_dtype source_variable)
        (var_dimensions source_variable) (Some fv) = Ok t2
    ∧ transfer source_variable t2 (or_name target_name name) slices1 target_shape
        blocksize = Ok t3
    ∧ copy_variable_ncattrs source_variable t3 (or_name target_name name) = Ok t'.
Proof.
  simpl. intros H. bind_inv_as H sv Hsv. apply getitem_dict_Ok in Hsv.
  case_bool_decide as Hlen; [|done]. simpl in H.
  destruct (contains (variables t) name) eqn:Hc; [done|].
  apply contains_false in Hc.
  bind_inv_as H st Hst. destruct st as [[t1 sl1] sh1].
  bind_inv_as H fv Hfv. bind_inv_as H t2 Ht2. bind_inv_as H t3 Ht3.
  by exists sv, t1, sl1, sh1, fv, t2, t3.
Qed.

(** When [extract_subset] has returned, every dimension of the variable
    that comes before a dimension named like the variable is declared in the
    target with exactly the length of its slice: [stop - start] for a slice
    with both bounds, the length of the source dimension for a slice that is
    [None] or has no start.  A dimension the target declared before the call
    is still the same, so that it had this length already: here, unlike in
    [copy_variable], a target dimension of another length ends the call. *)
Theorem extract_subset_dimension_lengths (fuel : nat) source_dataset target_dataset
    name slices target_name blocksize fill_value target_dataset' source_variable
    (position : nat) (d : string) (item : option pyslice) :
  extract_subset fuel source_dataset target_dataset name slices target_name
    blocksize fill_value = Ok target_dataset' →
  variables source_dataset !! name = Some source_variable →
  var_dimensions source_variable !! position = Some d →
  name ∉ take (S position) (var_dimensions source_variable) →
  slices !! position = Some item →
  ∃ dim,
    dimensions target_dataset' !! d = Some dim
    ∧ (∀ s a b, item = Some s → start s = Some a → stop s = Some b →
                Z.of_nat (dim_len dim) = b - a)
    ∧ (unbounded item = true →
       ∃ sd, dimensions source_dataset !! d = Some sd ∧ dim_len dim = dim_len sd)
    ∧ (∀ x, dimensions target_dataset !! d = Some x → x = dim).
Proof.
  intros H Hsv Hd Hname Hitem. destruct fuel as [|fuel]; [done|].
  pose proof (extract_subset_keeps_dimensions _ _ _ _ _ _ _ _ _ H) as Hkeep.
  apply extract_subset_unfold in H
    as (sv & t1 & sl1 & sh1 & fv & t2 & t3 & Hsv' & Hlen & Hfree & Hloop & Hfv
        & Ht2 & Ht3 & Ht').
  assert (sv = source_variable) as -> by congruence.
  eapply subset_dimensions_position in Hloop
    as (item' & cur & span & dim & Hi & Hs' & Hu & Hb & Hsp & Hsh & Hdim & Hdl);
    [| |exact Hd|exact Hname].
  2:{ intros t0 d0 s0 t4 Hrec. apply (extract_subset_keeps_dimensions _ _ _ _ _ _ _ _ _ Hrec). }
  simpl in Hi. assert (item' = item) as -> by congruence.
  assert (dimensions target_dataset' !! d = Some dim) as Hdim'.
  { apply copy_variable_ncattrs_Ok in Ht' as (-> & _).
    apply transfer_dimensions in Ht3 as ->.
    by apply createVariable_Ok in Ht2 as (_ & -> & _). }
  exists dim. split_and!; [done| | |].
  - intros s a b -> Ha Hb'.
    assert (unbounded (Some s) = false) as Hunb.
    { simpl. rewrite Ha. by apply bool_decide_false. }
    specialize (Hb Hunb). injection Hb as <-.
    unfold slice_span in Hsp. rewrite Ha, Hb' in Hsp. injection Hsp as <-. done.
  - intros Hunb. destruct (Hu Hunb) as (sd & Hsd & ->). exists sd. split; [done|].
    unfold slice_span in Hsp. simpl in Hsp. injection Hsp as <-. lia.
  - intros x Hx. apply Hkeep in Hx. congruence.
Qed.

(** *** extract_subset: what it leaves alone, and the new variable *)

Lemma set_data_id (v : NcVariable) : set_data v (var_data v) = v.
Proof. by destruct v. Qed.

Lemma assign_slice_variables ds name lo hi a ds' :
  assign_slice ds name lo hi a = Ok ds' →
  ∃ v data,
    variables ds !! name = Some v
    ∧ variables ds' = <[name := set_data v data]> (variables ds).
Proof.
  unfold assign_slice. intros H. bind_inv_as H v Hv. apply getitem_dict_Ok in Hv.
  bind_inv_as H sh Hsh. bind_inv_as H data Hdata. injection H as <-.
  by exists v, data.
Qed.

Lemma transfer_blocks_variables source_variable target_name slices target_shape
    increment (l : list Z) :
  ∀ t t' v,
    foldM (transfer_block source_variable target_name slices target_shape increment)
      l t = Ok t' →
    variables t !! target_name = Some v →
    ∃ data, variables t' = <[target_name := set_data v data]> (variables t).
Proof.
  induction l as [|i l IH]; intros t t' v H Hv; simpl in H.
  - injection H as <-. exists (var_data v).
    by rewrite set_data_id, insert_id.
  - bind_inv_as H t1 Ht1. unfold transfer_block in Ht1.
    bind_inv Ht1. bind_inv Ht1. bind_inv Ht1. bind_inv Ht1. bind_inv Ht1.
    bind_inv Ht1.
    apply assign_slice_variables in Ht1 as (v' & d1 & Hv' & Hv1).
    assert (v' = v) as -> by congruence.
    destruct (IH t1 t' (set_data v d1) H) as [data Hdata].
    { rewrite Hv1. apply lookup_insert_eq. }
    exists data. rewrite Hdata, Hv1, insert_insert_eq. done.
Qed.

Lemma transfer_variables source_variable t target_name slices target_shape
    blocksize t' v :
  transfer source_variable t target_name slices target_shape blocksize = Ok t' →
  variables t !! target_name = Some v →
  ∃ data, variables t' = <[target_name := set_data v data]> (variables t).
Proof.
  unfold transfer. intros H Hv. case_bool_decide.
  - bind_inv_as H a Ha.
    apply assign_all_Ok in H as (_ & v' & sh & Hv' & _ & _ & Hvars).
    assert (v' = v) as -> by congruence. by exists a.
  - case_bool_decide; [done|]. bind_inv H. bind_inv H. bind_inv H.
    by eapply transfer_blocks_variables.
Qed.

(** The three steps that end [extract_subset]. *)
Lemma extract_subset_finish source_variable t1 target_name fv slices target_shape
    blocksize t2 t3 t' :
  createVariable t1 target_name (var_dtype source_variable)
    (var_dimensions source_variable) (Some fv) = Ok t2 →
  transfer source_variable t2 target_name slices target_shape blocksize = Ok t3 →
  copy_variable_ncattrs source_variable t3 target_name = Ok t' →
  variables t1 !! target_name = None
  ∧ dimensions t' = dimensions t1
  ∧ ∃ data,
      variables t'
      = <[target_name := {| var_dtype := var_dtype source_variable;
                            var_dimensions := var_dimensions source_variable;
                            ncattrs := {["_FillValue" := fv]}
                                       ∪ ncattrs source_variable;
                            var_data := data |}]> (variables t1).
Proof.
  intros (Hfree & Hd2 & sh & _ & Hv2)%createVariable_Ok Ht3
         (Hd' & w & Hw & Hv')%copy_variable_ncattrs_Ok.
  pose proof (transfer_dimensions _ _ _ _ _ _ _ Ht3) as Hd3.
  eapply transfer_variables in Ht3 as [data Hv3];
    [|rewrite Hv2; apply lookup_insert_eq].
  split_and!; [done|congruence|]. exists data.
  rewrite Hv3, lookup_insert_eq in Hw. injection Hw as <-.
  rewrite Hv', Hv3, Hv2, !insert_insert_eq. done.
Qed.




(** The variable [extract_subset] creates has the type and the dimension
    names of the source variable.  Its attributes are those of the source
    variable, except that [_FillValue] is the fill value the variable was
    created with: the keyword [fill_value] when it is given, what
    [get_fill_value_for_variable] finds for the source variable otherwise. *)
Theorem extract_subset_new_variable (fuel : nat) source_dataset target_dataset name
    slices target_name blocksize fill_value target_dataset' :
  extract_subset fuel source_dataset target_dataset name slices target_name
    blocksize fill_value = Ok target_dataset' →
  ∃ source_variable target_variable fv,
    variables source_dataset !! name = Some source_variable
    ∧ variables target_dataset' !! or_name target_name name = Some target_variable
    ∧ var_dtype target_variable = var_dtype source_variable
    ∧ var_dimensions target_variable = var_dimensions source_variable
    ∧ match fill_value with
      | Some v => Ok v
      | None => get_fill_value_for_variable source_variable
      end = Ok fv
    ∧ ncattrs target_variable !! "_FillValue" = Some fv
    ∧ ∀ k, k ≠ "_FillValue" →
           ncattrs target_variable !! k = ncattrs source_variable !! k.
Proof.
  intros H. destruct fuel as [|fuel]; [done|].
  apply extract_subset_unfold in H
    as (sv & t1 & sl1 & sh1 & fv & t2 & t3 & Hsv & Hlen & Hfree & Hloop & Hfv
        & Ht2 & Ht3 & Ht').
  destruct (extract_subset_finish _ _ _ _ _ _ _ _ _ _ Ht2 Ht3 Ht')
    as (Hnew & _ & data & Hv).
  exists sv, {| var_dtype := var_dtype sv; var_dimensions := var_dimensions sv;
                ncattrs := {["_FillValue" := fv]} ∪ ncattrs sv;
                var_data := data |}, fv.
  split_and!; [done| |done..| |].
  - rewrite Hv. apply lookup_insert_eq.
  - simpl. apply lookup_union_Some_l, lookup_singleton_eq.
  - intros k Hk. simpl. rewrite lookup_union, lookup_singleton_ne by done.
    by rewrite (left_id_L None union).
Qed.

(** *** extract_subset without bounds *)



Lemma shape_of_lookup ds dims sh (i : nat) d :
  shape_of ds dims = Ok sh → dims !! i = Some d →
  ∃ dim, dimensions ds !! d = Some dim ∧ sh !! i = Some (dim_len dim).
Proof.
  unfold shape_of. intros H Hd.
  destruct (mapM_result_lookup _ _ _ _ _ H Hd) as (n & Hn & Hi).
  destruct (dimensions ds !! d) as [dim|]; [|done]. injection Hn as <-. eauto.
Qed.


(** *** extract_subset: the coordinate variables *)




(** A variable whose first dimension has its own name is not taken apart by
    the dimension loop, which ends at once: [extract_subset] declares none
    of its dimensions, and a call into a target that lacks one of them cannot
    return. *)
Theorem extract_subset_own_name (fuel : nat) source_dataset target_dataset name
    slices target_name blocksize fill_value source_variable rest d target_dataset' :
  variables source_dataset !! name = Some source_variable →
  var_dimensions source_variable = name :: rest →
  d ∈ name :: rest →
  dimensions target_dataset !! d = None →
  extract_subset fuel source_dataset target_dataset name slices target_name
    blocksize fill_value ≠ Ok target_dataset'.
Proof.
  intros Hsv Hdims Hd Hnone H. destruct fuel as [|fuel]; [done|].
  apply extract_subset_unfold in H
    as (sv & t1 & sl1 & sh1 & fv & t2 & t3 & Hsv' & Hlen & Hfree & Hloop & Hfv
        & Ht2 & Ht3 & Ht').
  assert (sv = source_variable) as -> by congruence.
  rewrite Hdims in Hloop. simpl in Hloop. rewrite bool_decide_true in Hloop by done.
  injection Hloop as <- <- <-.
  apply createVariable_Ok in Ht2 as (_ & _ & sh & Hsh & _).
  rewrite Hdims in Hsh. apply list_elem_of_lookup_1 in Hd as [i Hi].
  apply (shape_of_lookup _ _ _ _ _ Hsh) in Hi as (dim & Hdim & _). congruence.
Qed.

(** *** concat_variable_along_dimension *)




(** [concat_variable_along_dimension], step by step. *)
Lemma concat_unfold (fuel : nat) source_datasets target_dataset variable_name
    dimension_name fill_value target_dataset' :
  concat_variable_along_dimension fuel source_datasets target_dataset
    variable_name dimension_name fill_value = Ok target_dataset' →
  ∃ template source_variable t1 t2 t3 fv t4 t5,
    source_values source_datasets !! 0%nat = Some template
    ∧ variables template !! variable_name = Some source_variable
    ∧ foldM (λ target_dataset dim,
               target_dataset ← copy_dimension template target_dataset dim true false;
               if contains (variables template) dim
               then copy_variable fuel template target_dataset dim true None
               else Ok target_dataset)
            (var_dimensions source_variable) target_dataset = Ok t1
    ∧ createDimension t1 dimension_name
        (Some (Z.of_nat (length (source_values source_datasets)))) = Ok t2
    ∧ dimensions t3 = dimensions t2
    ∧ match fill_value with
      | Some v => Ok v
      | None => get_fill_value_for_variable source_variable
      end = Ok fv
    ∧ createVariable t3 variable_name (var_dtype source_variable)
        (dimension_name :: var_dimensions source_variable) (Some fv) = Ok t4
    ∧ copy_variable_ncattrs source_variable t4 variable_name = Ok t5
    ∧ foldM (λ target_dataset (entry : nat * Dataset),
               v ← getitem_dict (variables entry.2) variable_name;
               assign_index target_dataset variable_name entry.1 (var_data v))
            (enumerate (source_values source_datasets)) t5 = Ok target_dataset'.
Proof.
  intros H. unfold concat_variable_along_dimension in H.
  case_bool_decide as Hn; simpl in H; [|done].
  bind_inv_as H template Htpl. bind_inv_as H sv Hsv. bind_inv_as H t1 Ht1.
  bind_inv_as H t2 Ht2. bind_inv_as H t3 Ht3. bind_inv_as H fv Hfv.
  bind_inv_as H t4 Ht4. bind_inv_as H t5 Ht5.
  apply getitem_dict_Ok in Hsv.
  exists template, sv, t1, t2, t3, fv, t4, t5. split_and!; try done.
  - destruct (source_values source_datasets); [done|]. by injection Htpl as ->.
  - pose proof Ht2 as Hc2.
    apply createDimension_Ok in Hc2 as (_ & _ & d & Hd2 & Hd).
    destruct (Hd _ eq_refl) as [_ ->]. rewrite Nat2Z.id in Hd2.
    destruct (source_labels source_datasets) as [labels|] eqn:Hl.
    + apply concat_labels_Ok with (n := length (source_values source_datasets))
        in Ht3 as (_ & Hd3 & _); [done| |].
      * rewrite Hd2. apply lookup_insert_eq.
      * destruct source_datasets; [done|]. simpl in *.
        injection Hl as <-. by rewrite !length_fmap.
    + by injection Ht3 as <-.
Qed.


(** The attributes of the concatenated variable are those of the variable
    in the first source, with [_FillValue] set to the fill value the variable
    was created with; the attributes the variable has in the other sources
    play no part. *)
Theorem concat_attributes (fuel : nat) source_datasets target_dataset
    variable_name dimension_name fill_value target_dataset' :
  concat_variable_along_dimension fuel source_datasets target_dataset
    variable_name dimension_name fill_value = Ok target_dataset' →
  ∃ template source_variable target_variable fv,
    source_values source_datasets !! 0%nat = Some template
    ∧ variables template !! variable_name = Some source_variable
    ∧ variables target_dataset' !! variable_name = Some target_variable
    ∧ match fill_value with
      | Some v => Ok v
      | None => get_fill_value_for_variable source_variable
      end = Ok fv
    ∧ ncattrs target_variable !! "_FillValue" = Some fv
    ∧ ∀ k, k ≠ "_FillValue" →
           ncattrs target_variable !! k = ncattrs source_variable !! k.
Proof.
  intros (template & sv & t1 & t2 & t3 & fv & t4 & t5 & Htpl & Hsv & Ht1 & Ht2
          & Hd3 & Hfv & Ht4 & Ht5 & Hloop)%concat_unfold.
  apply createVariable_Ok in Ht4 as (_ & Hd4 & sh4 & Hsh4 & Hv4).
  apply copy_variable_ncattrs_Ok in Ht5 as (Hd5 & w & Hw & Hv5).
  rewrite Hv4, lookup_insert_eq in Hw. injection Hw as <-.
  apply shape_of_cons in Hsh4 as (dim & sh & _ & ->). simpl in Hv5.
  unfold enumerate in Hloop.
  eapply (foldM_assign_index _
            (λ _ ds, var_data <$> getitem_dict (variables ds) variable_name)
            variable_name) in Hloop as (written & _ & -> & _).
  2:{ intros ds e v _. simpl. by destruct (getitem_dict (variables e.2) variable_name). }
  2:{ rewrite Hv5. apply lookup_insert_eq. }
  2:{ done. }
  exists template, sv. eexists. exists fv. split_and!; [done|done| |done| |].
  - simpl. apply lookup_insert_eq.
  - simpl. apply lookup_union_Some_l, lookup_singleton_eq.
  - intros k Hk. simpl. rewrite lookup_union, lookup_singleton_ne by done.
    by rewrite (left_id_L None union).
Qed.


(** *** warp_like: the cells the template does not mask *)

(** The buffer handed to the resampling engine, and what it leaves in the
    cells of the masked array. *)
Lemma warp_slice_cells shape template_mask fill_value data out :
  warp_slice shape template_mask fill_value data = Ok out →
  ∃ cells,
    reproject data (ma_data (ma_fill (ma_empty shape) fill_value)) = Ok cells
    ∧ ma_mask out = template_mask
    ∧ ∀ r c mrow, template_mask !! r = Some mrow → is_Some (mrow !! c) →
                  ∃ drow, ma_data out !! r = Some drow
                          ∧ drow !! c = Some (cells r c).
Proof.
  unfold warp_slice. intros H. bind_inv_as H out0 Hout0.
  unfold set_mask in Hout0. case_bool_decide as Hshape; [|done].
  injection Hout0 as <-.
  unfold run_reproject in H. bind_inv_as H cells Hcells. injection H as <-.
  exists cells. split_and!; [done..|]. simpl.
  intros r c mrow Hr Hc.
  apply (f_equal (λ l, l !! r)) in Hshape.
  rewrite !list_lookup_fmap, Hr in Hshape. simpl in Hshape.
  rewrite list_lookup_imap, list_lookup_fmap.
  destruct (replicate shape.1 (replicate shape.2 VNcDefault) !! r) as [row|];
    [|done].
  simpl in *. injection Hshape as Hlen. eexists. split; [done|].
  rewrite list_lookup_imap, list_lookup_fmap.
  assert (is_Some (row !! c)) as [x ->]; [|done].
  apply lookup_lt_is_Some. rewrite <- Hlen. by apply lookup_lt_is_Some.
Qed.

(** What is stored for a cell: the fill value when the cell is masked, the
    content of the cell otherwise. *)
Lemma filled_cell out fv r c drow mrow d (b : bool) :
  ma_data out !! r = Some drow →
  drow !! c = Some d →
  ma_mask out !! r = Some mrow →
  mrow !! c = Some b →
  cell_at [r; c] (filled out fv) = Some (if b then fv else d).
Proof.
  intros Hdr Hd Hr Hc. unfold filled. simpl.
  rewrite lookup_zip_with, Hdr, Hr. simpl.
  by rewrite lookup_zip_with, Hd, Hc.
Qed.

(** Every cell of the variable [warp_variable] has written. *)
Lemma warp_variable_cells (fuel : nat) ds out_ds template_variable template_mask
    shape variable_name out_ds' :
  warp_variable fuel ds out_ds template_variable template_mask shape variable_name
  = Ok out_ds' →
  ∃ variable sample out_var,
    variables ds !! variable_name = Some variable
    ∧ sample_fill_value variable = Ok sample
    ∧ variables out_ds' !! variable_name = Some out_var
    ∧ let fill_value := default sample (ncattrs variable !! "_FillValue") in
      let buffer := replicate shape.1 (replicate shape.2 fill_value) in
      ncattrs out_var !! "_FillValue" = Some fill_value
      ∧ ∀ r c mrow (b : bool),
          template_mask !! r = Some mrow →
          mrow !! c = Some b →
          if bool_decide (length (var_dimensions variable) = 3%nat)
          then ∀ i data slices,
                 var_data variable = Arr slices →
                 slices !! i = Some data →
                 ∃ cells,
                   reproject data buffer = Ok cells
                   ∧ cell_at [i; r; c] (var_data out_var)
                     = Some (if b then fill_value else cells r c)
          else ∃ cells,
                 reproject (var_data variable) buffer = Ok cells
                 ∧ cell_at [r; c] (var_data out_var)
                   = Some (if b then fill_value else cells r c).
Proof.
  intros H. unfold warp_variable in H.
  bind_inv H. bind_inv H. bind_inv H. bind_inv H.
  apply getitem_dict_Ok in Ha.
  apply createVariable_Ok in Ha2 as (_ & _ & sh & Hsh & Hv2).
  set (fill_value := default a0 (ncattrs a !! "_FillValue")) in *.
  assert (ma_data (ma_fill (ma_empty shape) fill_value)
          = replicate shape.1 (replicate shape.2 fill_value)) as Hbuffer.
  { unfold ma_fill, ma_empty. simpl. rewrite fmap_replicate. f_equal.
    by rewrite fmap_replicate. }
  case_bool_decide as Hrank.
  - destruct (var_data a) as [|slices] eqn:Hdata; [done|].
    assert (∃ n sh', sh = n :: sh') as (n & sh' & ->).
    { destruct (var_dimensions a) as [|d0 [|d1 [|d2 [|]]]]; try done.
      apply shape_of_cons in Hsh as (dim & sh' & _ & ->). eauto. }
    unfold enumerate in H.
    eapply (foldM_assign_index _
              (λ attrs data,
                 out ← warp_slice shape template_mask fill_value data;
                 Ok (filled out (default VNcDefault (attrs !! "_FillValue"))))
              variable_name) in H as (written & Hw & -> & _).
    2:{ intros t e v Hv. simpl.
        destruct (warp_slice shape template_mask fill_value e.2); simpl; [|done].
        unfold getitem_dict. by rewrite Hv. }
    2:{ rewrite Hv2. apply lookup_insert_eq. }
    2:{ done. }
    exists a, a0. eexists. split_and!; [done|done| |].
    { simpl. apply lookup_insert_eq. }
    simpl. split; [apply lookup_singleton_eq|].
    intros r c mrow b Hr Hc. rewrite bool_decide_true by done.
    intros i data slices' Hs Hdatai. rewrite Hdata in Hs. injection Hs as <-.
    destruct (mapM_result_lookup _ _ _ _ _ Hw Hdatai) as (x & Hb & Hbi).
    bind_inv_as Hb out Hout. injection Hb as <-.
    apply warp_slice_cells in Hout as (cells & Hcells & Hmask & Hout).
    destruct (Hout r c mrow Hr) as (drow & Hdr & Hd); [eauto|].
    rewrite Hbuffer in Hcells. exists cells. split; [exact Hcells|]. simpl.
    rewrite lookup_app_l by (by apply lookup_lt_Some in Hbi).
    rewrite Hbi. simpl. rewrite lookup_singleton_eq. simpl.
    apply filled_cell with (drow := drow) (mrow := mrow); try done.
    by rewrite Hmask.
  - bind_inv_as H out Hout. bind_inv_as H out_var Hout_var.
    apply getitem_dict_Ok in Hout_var.
    apply assign_all_Ok in H as (_ & v & sh' & Hv & _ & _ & Hv').
    rewrite Hv2, lookup_insert_eq in Hout_var. injection Hout_var as <-.
    rewrite Hv2, lookup_insert_eq in Hv. injection Hv as <-.
    apply warp_slice_cells in Hout as (cells & Hcells & Hmask & Hout).
    exists a, a0. eexists. split_and!; [done|done| |].
    { rewrite Hv'. apply lookup_insert_eq. }
    simpl. split; [apply lookup_singleton_eq|].
    intros r c mrow b Hr Hc. rewrite bool_decide_false by done.
    destruct (Hout r c mrow Hr) as (drow & Hdr & Hd); [eauto|].
    rewrite Hbuffer in Hcells. exists cells. split; [exact Hcells|].
    unfold variable_fill. simpl. rewrite lookup_singleton_eq. simpl.
    apply filled_cell with (drow := drow) (mrow := mrow); try done.
    by rewrite Hmask.
Qed.

(** The counterpart of the dominance of the mask.  The resampling engine is
    handed a buffer in which every cell holds the fill value, and at every
    cell the template mask does not mark, in every slice, the output variable
    holds what the engine has left in the buffer at that cell. *)
Theorem warp_unmasked_cells (fuel : nat) ds out_ds template_variable template_mask
    shape variable_name out_ds' :
  warp_variable fuel ds out_ds template_variable template_mask shape variable_name
  = Ok out_ds' →
  ∃ variable sample out_var,
    variables ds !! variable_name = Some variable
    ∧ sample_fill_value variable = Ok sample
    ∧ variables out_ds' !! variable_name = Some out_var
    ∧ let fill_value := default sample (ncattrs variable !! "_FillValue") in
      let buffer := replicate shape.1 (replicate shape.2 fill_value) in
      ∀ r c mrow,
        template_mask !! r = Some mrow →
        mrow !! c = Some false →
        if bool_decide (length (var_dimensions variable) = 3%nat)
        then ∀ i data slices,
               var_data variable = Arr slices →
               slices !! i = Some data →
               ∃ cells, reproject data buffer = Ok cells
                        ∧ cell_at [i; r; c] (var_data out_var) = Some (cells r c)
        else ∃ cells, reproject (var_data variable) buffer = Ok cells
                      ∧ cell_at [r; c] (var_data out_var) = Some (cells r c).
Proof.
  intros (variable & sample & out_var & Hv & Hs & Ho & _ & Hcells)%warp_variable_cells.
  exists variable, sample, out_var. split_and!; [done..|].
  simpl. intros r c mrow Hr Hc. apply (Hcells r c mrow false Hr Hc).
Qed.

(** The variable [warp_like] creates in the output has the type of the
    source variable; its dimensions are the leading dimensions of the source
    variable followed by the dimensions of the template variable; and its
    only attribute is [_FillValue]: no other attribute of the source variable
    is carried over. *)
Theorem warp_variable_metadata (fuel : nat) ds out_ds template_variable
    template_mask shape variable_name out_ds' :
  warp_variable fuel ds out_ds template_variable template_mask shape variable_name
  = Ok out_ds' →
  ∃ variable sample out_var,
    variables ds !! variable_name = Some variable
    ∧ sample_fill_value variable = Ok sample
    ∧ variables out_ds' !! variable_name = Some out_var
    ∧ var_dtype out_var = var_dtype variable
    ∧ var_dimensions out_var
      = leading_dimensions (var_dimensions variable)
        ++ var_dimensions template_variable
    ∧ ncattrs out_var
      = {["_FillValue" := default sample (ncattrs variable !! "_FillValue")]}.
Proof.
  intros H. unfold warp_variable in H.
  bind_inv H. bind_inv H. bind_inv H. bind_inv H.
  apply getitem_dict_Ok in Ha.
  apply createVariable_Ok in Ha2 as (_ & _ & sh & Hsh & Hv2).
  set (fill_value := default a0 (ncattrs a !! "_FillValue")) in *.
  case_bool_decide as Hrank.
  - destruct (var_data a) as [|slices] eqn:Hdata; [done|].
    assert (∃ n sh', sh = n :: sh') as (n & sh' & ->).
    { destruct (var_dimensions a) as [|d0 [|d1 [|d2 [|]]]]; try done.
      apply shape_of_cons in Hsh as (dim & sh' & _ & ->). eauto. }
    unfold enumerate in H.
    eapply (foldM_assign_index _
              (λ attrs data,
                 out ← warp_slice shape template_mask fill_value data;
                 Ok (filled out (default VNcDefault (attrs !! "_FillValue"))))
              variable_name) in H as (written & Hw & -> & _).
    2:{ intros t e v Hv. simpl.
        destruct (warp_slice shape template_mask fill_value e.2); simpl; [|done].
        unfold getitem_dict. by rewrite Hv. }
    2:{ rewrite Hv2. apply lookup_insert_eq. }
    2:{ done. }
    exists a, a0. eexists.
    split_and!; [done|done|simpl; apply lookup_insert_eq|..]; done.
  - bind_inv_as H out Hout. bind_inv_as H out_var Hout_var.
    apply getitem_dict_Ok in Hout_var.
    apply assign_all_Ok in H as (_ & v & sh' & Hv & _ & _ & Hv').
    rewrite Hv2, lookup_insert_eq in Hv. injection Hv as <-.
    exists a, a0. eexists.
    split_and!; [done|done|rewrite Hv'; apply lookup_insert_eq|..]; done.
Qed.

(** *** warp_like, from end to end *)

Lemma foldM_invariant {A S} (P : S → Prop) (f : S → A → result S) (l : list A) s s' :
  (∀ t x t', x ∈ l → f t x = Ok t' → P t → P t') →
  foldM f l s = Ok s' → P s → P s'.
Proof.
  revert s. induction l as [|x l IH]; intros s Hf H Hs; simpl in H.
  - by injection H as <-.
  - bind_inv_as H s1 Hs1. apply (IH s1); [|done|].
    + intros t y t' Hy. apply Hf. by apply list_elem_of_further.
    + apply (Hf s x s1); [apply list_elem_of_here|done..].
Qed.

(** [warp_variable] leaves the variables of the output alone, except the
    one it creates and those named like a leading dimension of the source
    variable. *)
Lemma warp_variable_keeps (fuel : nat) ds out_ds template_variable template_mask
    shape variable_name out_ds' variable k x :
  warp_variable fuel ds out_ds template_variable template_mask shape variable_name
  = Ok out_ds' →
  variables ds !! variable_name = Some variable →
  k ∉ leading_dimensions (var_dimensions variable) →
  variables out_ds !! k = Some x →
  variables out_ds' !! k = Some x.
Proof.
  intros H Hvar Hk Hx. unfold warp_variable in H.
  bind_inv_as H variable' Hvar'. apply getitem_dict_Ok in Hvar'.
  assert (variable' = variable) as -> by congruence.
  bind_inv_as H sample Hsample. bind_inv_as H out1 Hout1. bind_inv_as H out2 Hout2.
  assert (variables out1 !! k = Some x) as Hx1.
  { eapply (foldM_invariant (λ t, variables t !! k = Some x)); [|exact Hout1|done].
    intros t dim t' Hdim Hstep Ht. simpl in *.
    destruct (contains (dimensions t) dim); [by injection Hstep as <-|].
    destruct (contains (variables ds) dim).
    - apply copy_variable_copied_into in Hstep as (Hkeep & _).
      apply Hkeep; [|done]. by intros ->.
    - apply copy_dimension_Ok in Hstep as (-> & _). done. }
  apply createVariable_Ok in Hout2 as (Hfree & _ & sh & _ & Hv2).
  assert (k ≠ variable_name) as Hne by (intros ->; congruence).
  assert (variables out2 !! k = Some x) as Hx2.
  { by rewrite Hv2, lookup_insert_ne. }
  case_bool_decide.
  - destruct (var_data variable) as [|slices]; [done|].
    eapply (foldM_invariant (λ t, variables t !! k = Some x)); [|exact H|done].
    intros t e t' _ Hstep Ht. simpl in *.
    bind_inv Hstep. bind_inv Hstep.
    apply assign_index_Ok in Hstep as (? & ? & ? & ? & _ & _ & _ & _ & _ & ->).
    simpl. by rewrite lookup_insert_ne.
  - bind_inv H. bind_inv H.
    apply assign_all_Ok in H as (_ & ? & ? & _ & _ & _ & ->).
    by rewrite lookup_insert_ne.
Qed.

(** Every variable of the list has been processed by a call of
    [warp_variable] whose output variable is still there at the end. *)
Lemma warp_variables_calls (fuel : nat) ds template_variable template_mask shape
    (names : list string) :
  ∀ out_ds out_ds',
    foldM (λ out_ds variable_name,
             warp_variable fuel ds out_ds template_variable template_mask
               shape variable_name) names out_ds = Ok out_ds' →
    (∀ v w wv, v ∈ names → w ∈ names → variables ds !! w = Some wv →
               v ∉ leading_dimensions (var_dimensions wv)) →
    ∀ v, v ∈ names →
         ∃ t t', warp_variable fuel ds t template_variable template_mask shape v
                 = Ok t'
                 ∧ variables out_ds' !! v = variables t' !! v.
Proof.
  induction names as [|v0 names IH]; intros out_ds out_ds' H Hnames v Hv.
  - by apply elem_of_nil in Hv.
  - simpl in H. bind_inv_as H t1 Ht1.
    destruct (decide (v = v0)) as [->|Hne].
    + exists out_ds, t1. split; [done|].
      pose proof (warp_variable_cells _ _ _ _ _ _ _ _ Ht1)
        as (variable & sample & out_var & _ & _ & Hout & _).
      rewrite Hout.
      eapply (foldM_invariant (λ t, variables t !! v0 = Some out_var));
        [|exact H|done].
      intros t w t' Hw Hstep Ht. simpl in *.
      pose proof (warp_variable_cells _ _ _ _ _ _ _ _ Hstep)
        as (wv & _ & _ & Hwv & _).
      apply (warp_variable_keeps _ _ _ _ _ _ _ _ _ _ _ Hstep Hwv); [|done].
      apply (Hnames v0 w wv); [apply list_elem_of_here| |done].
      by apply list_elem_of_further.
    + apply elem_of_cons in Hv as [?|Hv]; [done|].
      apply (IH t1 out_ds' H); [|done].
      intros v' w wv Hv' Hw. apply Hnames; by apply list_elem_of_further.
Qed.

(** The mask of the template, cell by cell. *)
Lemma read_mask_cell template_variable template_mask r c v :
  read_mask template_variable = Ok template_mask →
  cell_at [r; c] (var_data template_variable) = Some v →
  ∃ mrow, template_mask !! r = Some mrow
          ∧ mrow !! c = Some (is_missing template_variable v).
Proof.
  unfold read_mask. destruct (grid_of (var_data template_variable)) as [g|] eqn:Hg;
    [|done].
  intros [= <-] Hcell. unfold grid_of in Hg.
  destruct (var_data template_variable) as [|rows]; [done|]. simpl in Hcell.
  destruct (rows !! r) as [row|] eqn:Hr; [|done]. simpl in Hcell.
  destruct (mapM_result_lookup _ _ _ _ _ Hg Hr) as (grow & Hgrow & Hgr).
  destruct row as [|cells]; [done|].
  destruct (cells !! c) as [cell|] eqn:Hc; [|done]. simpl in Hcell.
  destruct (mapM_result_lookup _ _ _ _ _ Hgrow Hc) as (w & Hw & Hwc).
  destruct cell as [v'|]; [|done]. injection Hw as <-. injection Hcell as ->.
  exists (is_missing template_variable <$> grow).
  by rewrite !list_lookup_fmap, Hgr, Hwc.
Qed.

(** [warp_like] as a whole.  Let no variable of the list be named like a
    leading dimension of a variable of the list.  When [warp_like] has
    returned, every variable of the list is in the output, and wherever the
    template variable holds its own [_FillValue] or [missing_value], every
    slice of the output variable holds the [_FillValue] of the output
    variable, whatever the resampling engine has computed there. *)
Theorem warp_like_keeps_template_gaps (fuel : nat) ds (names : list string) out_ds
    template_ds template_varname out_ds' :
  warp_like fuel ds names out_ds template_ds template_varname = Ok out_ds' →
  (∀ v w wv, v ∈ names → w ∈ names → variables ds !! w = Some wv →
             v ∉ leading_dimensions (var_dimensions wv)) →
  ∃ template_variable,
    variables template_ds !! template_varname = Some template_variable
    ∧ ∀ variable_name, variable_name ∈ names →
        ∃ variable out_var fill_value,
          variables ds !! variable_name = Some variable
          ∧ variables out_ds' !! variable_name = Some out_var
          ∧ ncattrs out_var !! "_FillValue" = Some fill_value
          ∧ ∀ r c v,
              cell_at [r; c] (var_data template_variable) = Some v →
              is_missing template_variable v = true →
              if bool_decide (length (var_dimensions variable) = 3%nat)
              then ∀ i slices,
                     var_data variable = Arr slices →
                     (i < length slices)%nat →
                     cell_at [i; r; c] (var_data out_var) = Some fill_value
              else cell_at [r; c] (var_data out_var) = Some fill_value.
Proof.
  intros H Hnames. unfold warp_like in H.
  bind_inv_as H template_variable Htv. apply getitem_dict_Ok in Htv.
  bind_inv_as H template_mask Hmask.
  destruct (spatial_dimensions (var_dimensions template_variable))
    as [|ty [|tx [|]]]; try done.
  bind_inv_as H shape Hshape. bind_inv_as H first_name Hfirst.
  bind_inv_as H first_variable Hfv.
  destruct (spatial_dimensions (var_dimensions first_variable))
    as [|dy [|dx [|]]]; try done.
  bind_inv H. bind_inv_as H out1 Hout1.
  exists template_variable. split; [done|]. intros variable_name Hin.
  destruct (warp_variables_calls _ _ _ _ _ _ _ _ H Hnames _ Hin)
    as (t & t' & Hcall & Hsame).
  apply warp_variable_cells in Hcall
    as (variable & sample & out_var & Hvar & _ & Hout & Hfill & Hcells).
  simpl in Hfill, Hcells.
  exists variable, out_var, (default sample (ncattrs variable !! "_FillValue")).
  split_and!; [done|congruence|done|].
  intros r c v Hcell Hmiss.
  destruct (read_mask_cell _ _ _ _ _ Hmask Hcell) as (mrow & Hr & Hc).
  rewrite Hmiss in Hc. specialize (Hcells r c mrow true Hr Hc).
  case_bool_decide.
  - intros i slices Hs Hi.
    destruct (lookup_lt_is_Some_2 _ _ Hi) as [data Hdata].
    by destruct (Hcells i data slices Hs Hdata) as (cells & _ & ?).
  - by destruct Hcells as (cells & _ & ?).
Qed.

(** *** copy_variable: when it returns *)










(** *** The blocks of extract_subset *)


(** *** Variables without a fill value *)

(** The entry of [DEFAULT_FILL_VALUES] for the dtype string of each type. *)
Lemma DEFAULT_FILL_VALUES_dtype (d : dtype) :
  DEFAULT_FILL_VALUES
    !! (if has_char quote (dtype_repr d)
        then default EmptyString (py_split quote (dtype_repr d) !! 1%nat)
        else dtype_repr d)
  = match d with
    | int8 => Some (VInt (-127))
    | int16 => Some (VInt (-32767))
    | int32 => Some (VInt (-2147483647))
    | uint8 => Some (VInt 255)
    | uint16 => Some (VInt 65535)
    | float32 | float64 => Some NC_FILL_FLOAT
    | int64 => default_fillvals !! "int64"
    | uint32 => default_fillvals !! "uint32"
    | uint64 => default_fillvals !! "uint64"
    | str => default_fillvals !! "str"
    end.
Proof.
  unfold DEFAULT_FILL_VALUES. rewrite lookup_union.
  destruct d;
    match goal with
    | |- ?l !! ?k ∪ _ = _ =>
        let r := eval vm_compute in (l !! k) in
        let k' := eval vm_compute in k in
        replace (l !! k) with r by (vm_compute; reflexivity);
        replace k with k' by (vm_compute; reflexivity)
    end.
  all: first [reflexivity | by rewrite union_Some_l
              | by rewrite (left_id_L None union)].
Qed.

(** Which types have a default fill value.  For a variable with none of
    the three fill attributes, a fill value is found when the type is one of
    the seven that [DEFAULT_FILL_VALUES] adds under their numpy names; for
    the other integer types and for strings the answer is left to the table
    of the library, looked up under the name ["int64"], ["uint32"],
    ["uint64"] or ["str"]. *)
Theorem fill_value_table_coverage (variable : NcVariable) :
  ncattrs variable !! "fill_value" = None →
  ncattrs variable !! "_FillValue" = None →
  ncattrs variable !! "missing_value" = None →
  (var_dtype variable ∈ [int8; int16; int32; uint8; uint16; float32; float64] →
   ∃ fv, get_fill_value_for_variable variable = Ok fv)
  ∧ (∀ key, (var_dtype variable, key)
            ∈ [(int64, "int64"); (uint32, "uint32"); (uint64, "uint64");
               (str, "str")] →
            get_fill_value_for_variable variable = getitem_dict default_fillvals key).
Proof.
  intros H1 H2 H3. unfold get_fill_value_for_variable. rewrite H1, H2, H3.
  unfold getitem_dict, get_dtype_string. rewrite DEFAULT_FILL_VALUES_dtype. split.
  - intros Hin. apply list_elem_of_In in Hin. simpl in Hin.
    destruct (var_dtype variable); try (by eexists);
      exfalso; clear -Hin; destruct_or!; done.
  - intros key Hin. apply list_elem_of_In in Hin. simpl in Hin.
    destruct (var_dtype variable); destruct_or!; try done;
      by injection Hin as <-.
Qed.

(** Only [copy_variable] can do without a fill value.  For a variable
    with none of the three fill attributes and a type without an entry in
    [DEFAULT_FILL_VALUES] (a string variable, for one, when the table of the
    library has no entry ["str"]), [extract_subset] and
    [concat_variable_along_dimension] cannot return unless the keyword
    [fill_value] is given: they look the fill value up whatever the type. *)
Theorem no_fill_value_no_subset (source_variable : NcVariable) :
  ncattrs source_variable !! "fill_value" = None →
  ncattrs source_variable !! "_FillValue" = None →
  ncattrs source_variable !! "missing_value" = None →
  DEFAULT_FILL_VALUES !! get_dtype_string source_variable = None →
  (∀ (fuel : nat) source_dataset target_dataset name slices target_name blocksize
     target_dataset',
     variables source_dataset !! name = Some source_variable →
     extract_subset fuel source_dataset target_dataset name slices target_name
       blocksize None ≠ Ok target_dataset')
  ∧ (∀ (fuel : nat) source_datasets template target_dataset variable_name
       dimension_name target_dataset',
       source_values source_datasets !! 0%nat = Some template →
       variables template !! variable_name = Some source_variable →
       concat_variable_along_dimension fuel source_datasets target_dataset
         variable_name dimension_name None ≠ Ok target_dataset').
Proof.
  intros H1 H2 H3 Htable.
  assert (∀ fv, get_fill_value_for_variable source_variable ≠ Ok fv) as Hnone.
  { intros fv. unfold get_fill_value_for_variable, getitem_dict.
    by rewrite H1, H2, H3, Htable. }
  split.
  - intros fuel s t name slices tn bs t' Hsv H. destruct fuel as [|fuel]; [done|].
    apply extract_subset_unfold in H
      as (sv & t1 & sl1 & sh1 & fv & t2 & t3 & Hsv' & _ & _ & _ & Hfv & _).
    assert (sv = source_variable) as -> by congruence. by apply Hnone in Hfv.
  - intros fuel srcs template t vn dn t' Htpl Hsv
           (template' & sv & t1 & t2 & t3 & fv & t4 & t5 & Htpl' & Hsv' & _ & _
            & _ & Hfv & _)%concat_unfold.
    assert (template' = template) as -> by congruence.
    assert (sv = source_variable) as -> by congruence. by apply Hnone in Hfv.
Qed.

End Utilities.

(** ** The functions on the sample data *)

Lemma fill_value_resolution_witness :
  get_fill_value_for_variable library_fillvals
    (scalar_variable int16 [("_FillValue", VInt 7); ("missing_value", VInt 9)])
  = Ok (VInt 7)
  ∧ get_fill_value_for_variable library_fillvals (scalar_variable int16 [])
    = Ok (VInt (-32767))
  ∧ get_fill_value_for_variable library_fillvals (scalar_variable uint32 [])
    = Err (KeyError "uint32").
Proof.
  split_and!.
  - destruct (fill_value_resolution library_fillvals
                (scalar_variable int16 [("_FillValue", VInt 7); ("missing_value", VInt 9)]))
      as (_ & _ & _ & _ & _ & H & _).
    by apply (H (VInt 7) (VInt 9)).
  - destruct (fill_value_resolution library_fillvals (scalar_variable int16 []))
      as (_ & _ & _ & _ & H & _).
    by apply H.
  - destruct (fill_value_resolution library_fillvals (scalar_variable uint32 []))
      as (_ & _ & _ & _ & _ & _ & H).
    by apply H.
Defined.



(** [v(time, x)] has shape (3, 2).  With [blocksize=2], the product past
    the first axis, the call ends with [BlocksizeTooSmall]. *)
Lemma blocksize_test_witness :
  extract_subset library_fillvals 4 sample_source empty_dataset "v" [None; None]
    None 2 None
  = Err BlocksizeTooSmall.
Proof.
  edestruct (blocksize_test library_fillvals 3 sample_source empty_dataset "v"
               [None; None] None 2 None) as [H _].
  - reflexivity.
  - reflexivity.
  - reflexivity.
  - vm_compute. reflexivity.
  - vm_compute. reflexivity.
  - vm_compute. reflexivity.
  - vm_compute. discriminate.
  - apply H. vm_compute. discriminate.
Defined.

(** C9, the failing input.  [name] is free in the target and
    [target_name="out"] is taken: the test on [name] passes, the dimensions
    and the coordinate variable are written, and the call only ends when the
    library refuses to create [out]; it does not end with [AlreadyExists]. *)
Theorem target_name_is_not_checked :
  contains (variables target_with_out) "out" = true
  ∧ extract_subset library_fillvals 4 sample_source target_with_out "v"
      [None; None] (Some "out") 100000000 None
    = Err LibraryError.
Proof. split; vm_compute; reflexivity. Qed.

(** C3, the failing input.  Source and target both declare [x] with a fixed
    length, three in the source and two in the target: the test of
    [copy_variable] finds no conflict, and the call only ends when the three
    values do not fit the variable; it does not end with
    [DimensionConflict]. *)
Theorem dimension_length_is_not_checked :
  dimension_conflict (fixed_dimension 2) (fixed_dimension 3) = false
  ∧ copy_variable library_fillvals 3 source_x3 target_x2 "v" true None
    = Err LibraryError.
Proof. split; vm_compute; reflexivity. Qed.



(** Copying [v(time, x)] of the sample source into an empty dataset brings
    the coordinate variable [time] along. *)
Lemma copy_variable_dependency_closure_witness :
  ∃ target_dataset',
    copy_variable library_fillvals 3 sample_source empty_dataset "v" true None
    = Ok target_dataset'
    ∧ dependencies_present sample_source target_dataset' "v"
    ∧ ∃ target_variable,
        variables target_dataset' !! "time" = Some target_variable
        ∧ is_copy_of library_fillvals sample_time None target_variable.
Proof.
  eexists.
  edestruct (copy_variable_dependency_closure library_fillvals 3 sample_source
               empty_dataset "v" true None) as (Hdep & Hcoord & _).
  { vm_compute. reflexivity. }
  split_and!; [reflexivity|done|].
  apply (Hcoord sample_v "time" sample_time).
  - reflexivity.
  - apply list_elem_of_here.
  - discriminate.
  - reflexivity.
  - reflexivity.
Defined.


(** With an engine that writes 99 everywhere, the masked cell (0, 1) of
    slice 1 still holds the fill value; the cell next to it holds 99. *)
Lemma warp_mask_dominance_witness :
  ∃ out_ds' out_var,
    warp_variable library_fillvals reproject_99 (λ _, Ok (VInt 0)) 3
      warp_source warp_output warp_template warp_template_mask (2%nat, 2%nat) "t"
    = Ok out_ds'
    ∧ variables out_ds' !! "t" = Some out_var
    ∧ cell_at [1; 0; 1]%nat (var_data out_var) = Some (VInt (-1))
    ∧ cell_at [1; 0; 0]%nat (var_data out_var) = Some (VInt 99).
Proof.
  eexists.
  edestruct (warp_mask_dominance library_fillvals reproject_99 (λ _, Ok (VInt 0)) 3
               warp_source warp_output warp_template warp_template_mask
               (2%nat, 2%nat) "t")
    as (variable & sample & out_var & Hvar & _ & Hout & _ & Hcells).
  { vm_compute. reflexivity. }
  exists out_var. split_and!; [reflexivity|exact Hout| |].
  - vm_compute in Hvar. injection Hvar as <-.
    specialize (Hcells 0%nat 1%nat [false; true] eq_refl eq_refl). simpl in Hcells.
    apply (Hcells 1%nat _ eq_refl). simpl. lia.
  - vm_compute in Hout. injection Hout as <-. reflexivity.
Defined.

(** The steps 1 and 2 of [v(time, x)], once in blocks of one step
    ([blocksize=3]) and once in a single assignment. *)
Lemma blocksize_invariance_witness :
  extract_subset library_fillvals 4 sample_source empty_dataset "v"
    [Some {| start := Some 1; stop := Some 3 |}; None] None 3 None
  = extract_subset library_fillvals 4 sample_source empty_dataset "v"
      [Some {| start := Some 1; stop := Some 3 |}; None] None 100000000 None.
Proof.
  apply (blocksize_invariance library_fillvals 4 sample_source empty_dataset "v"
           [Some {| start := Some 1; stop := Some 3 |}; None] None 3 100000000 None
           sample_v).
  - reflexivity.
  - intros dimension item Hd Hi. injection Hd as <-. injection Hi as <-.
    eexists. split; [reflexivity|]. split.
    + discriminate.
    + intros s a b [= <-] [= <-] [= <-]. simpl. lia.
  - vm_compute. discriminate.
  - vm_compute. discriminate.
Defined.

(** ** The further properties on the sample data *)


Lemma copy_dimension_errors_witness :
  copy_dimension sample_source target_time2 "time" false false = Err AlreadyExists
  ∧ copy_dimension sample_source empty_dataset "y" true false = Err (KeyError "y").
Proof.
  split.
  - apply (proj1 (copy_dimension_errors sample_source target_time2 "time" false false));
      [eexists; reflexivity|reflexivity].
  - apply (proj2 (copy_dimension_errors sample_source empty_dataset "y" true false));
      [by left|reflexivity].
Defined.

(** [units] and [scale] copied over a target that has [units] and
    [title]. *)
Lemma copy_attributes_overwrite_witness :
  ∃ target',
    copy_attributes source_attrs target_attrs ["units"; "scale"] true = Ok target'
    ∧ target' !! "units" = Some (VStr "K")
    ∧ target' !! "title" = Some (VStr "run 1").
Proof.
  destruct (proj1 (copy_attributes_overwrite source_attrs target_attrs
                     ["units"; "scale"])) as (target' & Hcopy & Hk).
  { repeat constructor; eexists; reflexivity. }
  exists target'. split; [exact Hcopy|]. split.
  - rewrite Hk, bool_decide_true by apply list_elem_of_here. reflexivity.
  - rewrite Hk, bool_decide_false; [reflexivity|].
    intros Hin. apply list_elem_of_In in Hin. simpl in Hin.
    destruct_or!; done.
Defined.

(** [scale], which the target does not have, is copied with
    [overwrite=False]. *)
Lemma copy_attributes_keep_witness :
  ∃ target',
    copy_attributes source_attrs target_attrs ["scale"] false = Ok target'
    ∧ target' !! "scale" = Some (VInt 2).
Proof.
  destruct (proj1 (copy_attributes_keep source_attrs target_attrs ["scale"]))
    as (target' & Hcopy & Hk).
  { split.
    - apply NoDup_singleton.
    - repeat constructor. eexists. reflexivity. }
  exists target'. split; [exact Hcopy|].
  rewrite Hk, bool_decide_true by apply list_elem_of_here. reflexivity.
Defined.



(** In the cyclic source the copy of [a] does not return. *)
Lemma copy_variable_cycle_witness :
  copy_variable library_fillvals 5 cyclic_source empty_dataset "a" true None
  ≠ Ok empty_dataset.
Proof.
  eapply (copy_variable_cycle library_fillvals 5 cyclic_source empty_dataset "a" "b");
    [discriminate|reflexivity..].
Defined.



(** A variable [w] like [v(time, x)]: same type and dimensions, no
    attribute, no data. *)
Lemma create_variable_like_result_witness :
  ∃ target_dataset' like_variable sh,
    create_variable_like library_fillvals 3 empty_dataset "w" sample_source "v"
      true None = Ok target_dataset'
    ∧ variables sample_source !! "v" = Some like_variable
    ∧ variables target_dataset' !! "w"
      = Some {| var_dtype := var_dtype like_variable;
                var_dimensions := var_dimensions like_variable;
                ncattrs := ∅;
                var_data := full sh VNcDefault |}.
Proof.
  destruct (create_variable_like library_fillvals 3 empty_dataset "w"
              sample_source "v" true None) as [t'|e] eqn:H;
    [|vm_compute in H; discriminate].
  destruct (create_variable_like_result _ _ _ _ _ _ _ _ _ H)
    as (lv & sh & Hlv & _ & Hw & _).
  exists t', lv, sh. split_and!; [reflexivity|exact Hlv|exact Hw].
Defined.

(** A variable named [time] like [v(time, x)] cannot be created: the
    coordinate variable [time] comes first. *)
Lemma create_variable_like_refused_witness :
  create_variable_like library_fillvals 3 empty_dataset "time" sample_source "v"
    true None ≠ Ok empty_dataset.
Proof.
  apply (create_variable_like_refused library_fillvals 3 empty_dataset "time"
           sample_source "v" true None sample_v).
  - reflexivity.
  - left. split; [apply list_elem_of_here|eexists; reflexivity].
Defined.

(** The steps 1 and 2 of [v(time, x)]: the target declares [time] with
    length two. *)
Lemma extract_subset_dimension_lengths_witness :
  ∃ target_dataset' dim,
    extract_subset library_fillvals 4 sample_source empty_dataset "v"
      [Some {| start := Some 1; stop := Some 3 |}; None] None 100000000 None
    = Ok target_dataset'
    ∧ dimensions target_dataset' !! "time" = Some dim
    ∧ Z.of_nat (dim_len dim) = 2.
Proof.
  destruct (extract_subset library_fillvals 4 sample_source empty_dataset "v"
              [Some {| start := Some 1; stop := Some 3 |}; None] None 100000000
              None) as [t'|e] eqn:H; [|vm_compute in H; discriminate].
  destruct (extract_subset_dimension_lengths _ _ _ _ _ _ _ _ _ _ sample_v 0 "time"
              (Some {| start := Some 1; stop := Some 3 |}) H)
    as (dim & Hdim & Hlen & _).
  - reflexivity.
  - reflexivity.
  - simpl. intros Hin. apply list_elem_of_singleton in Hin. discriminate.
  - reflexivity.
  - exists t', dim. split_and!; [reflexivity|exact Hdim|].
    apply (Hlen _ 1 3 eq_refl eq_refl eq_refl).
Defined.


(** The subset of [v] has the attribute [units] of [v] and the default
    fill value of its type. *)
Lemma extract_subset_new_variable_witness :
  ∃ target_dataset' target_variable,
    extract_subset library_fillvals 4 sample_source empty_dataset "v"
      [None; None] None 100000000 None = Ok target_dataset'
    ∧ variables target_dataset' !! "v" = Some target_variable
    ∧ ncattrs target_variable !! "units" = Some (VStr "K")
    ∧ ncattrs target_variable !! "_FillValue" = Some (VInt (-32767)).
Proof.
  destruct (extract_subset library_fillvals 4 sample_source empty_dataset "v"
              [None; None] None 100000000 None) as [t'|e] eqn:H;
    [|vm_compute in H; discriminate].
  destruct (extract_subset_new_variable _ _ _ _ _ _ _ _ _ _ H)
    as (sv & tv & fv & Hsv & Htv & _ & _ & Hfv & Hfill & Hattrs).
  assert (sv = sample_v) as -> by (vm_compute in Hsv; by injection Hsv as <-).
  exists t', tv. split_and!; [reflexivity|exact Htv| |].
  - rewrite Hattrs by discriminate. reflexivity.
  - vm_compute in Hfv. injection Hfv as <-. exact Hfill.
Defined.



(** The coordinate variable [time] cannot be extracted on its own into an
    empty dataset. *)
Lemma extract_subset_own_name_witness :
  extract_subset library_fillvals 4 sample_source empty_dataset "time" [None] None
    100000000 None ≠ Ok empty_dataset.
Proof.
  apply (extract_subset_own_name library_fillvals 4 sample_source empty_dataset
           "time" [None] None 100000000 None sample_time [] "time").
  - reflexivity.
  - reflexivity.
  - apply list_elem_of_here.
  - reflexivity.
Defined.


Lemma concat_attributes_witness :
  ∃ target_dataset' target_variable,
    concat_variable_along_dimension library_fillvals 3 yearly_sources
      empty_dataset "v" "time" None = Ok target_dataset'
    ∧ variables target_dataset' !! "v" = Some target_variable
    ∧ ncattrs target_variable !! "units" = Some (VStr "mm").
Proof.
  destruct (concat_variable_along_dimension library_fillvals 3 yearly_sources
              empty_dataset "v" "time" None) as [t'|e] eqn:H;
    [|vm_compute in H; discriminate].
  destruct (concat_attributes _ _ _ _ _ _ _ _ H)
    as (template & sv & tv & fv & Htpl & Hsv & Htv & _ & _ & Hattrs).
  assert (template = yearly [1; 2]) as -> by (by injection Htpl as <-).
  exists t', tv. split_and!; [reflexivity|exact Htv|].
  rewrite Hattrs by discriminate. vm_compute in Hsv. by injection Hsv as <-.
Defined.


(** With an engine that writes 99 everywhere, the cell (0, 0) of slice 1,
    which the template does not mask, holds 99. *)
Lemma warp_unmasked_cells_witness :
  ∃ out_ds' out_var,
    warp_variable library_fillvals reproject_99 (λ _, Ok (VInt 0)) 3
      warp_source warp_output warp_template warp_template_mask (2%nat, 2%nat) "t"
    = Ok out_ds'
    ∧ variables out_ds' !! "t" = Some out_var
    ∧ cell_at [1; 0; 0]%nat (var_data out_var) = Some (VInt 99).
Proof.
  destruct (warp_variable library_fillvals reproject_99 (λ _, Ok (VInt 0)) 3
              warp_source warp_output warp_template warp_template_mask
              (2%nat, 2%nat) "t") as [t'|e] eqn:H;
    [|vm_compute in H; discriminate].
  destruct (warp_unmasked_cells _ _ _ _ _ _ _ _ _ _ _ H)
    as (variable & sample & out_var & Hvar & _ & Hout & Hcells).
  exists t', out_var. split_and!; [reflexivity|exact Hout|].
  vm_compute in Hvar. injection Hvar as <-.
  specialize (Hcells 0%nat 0%nat [false; true] eq_refl eq_refl). simpl in Hcells.
  destruct (Hcells 1%nat _ _ eq_refl eq_refl) as (cells & Hengine & Hcell).
  injection Hengine as <-. exact Hcell.
Defined.

(** The output variable for [t(time, y, x)]: the dimensions [time], [y]
    and [x], and [_FillValue] as its only attribute. *)
Lemma warp_variable_metadata_witness :
  ∃ out_ds' out_var,
    warp_variable library_fillvals reproject_99 (λ _, Ok (VInt 0)) 3
      warp_source warp_output warp_template warp_template_mask (2%nat, 2%nat) "t"
    = Ok out_ds'
    ∧ variables out_ds' !! "t" = Some out_var
    ∧ var_dimensions out_var = ["time"; "y"; "x"]
    ∧ ncattrs out_var = {["_FillValue" := VInt (-1)]}.
Proof.
  destruct (warp_variable library_fillvals reproject_99 (λ _, Ok (VInt 0)) 3
              warp_source warp_output warp_template warp_template_mask
              (2%nat, 2%nat) "t") as [t'|e] eqn:H;
    [|vm_compute in H; discriminate].
  destruct (warp_variable_metadata _ _ _ _ _ _ _ _ _ _ _ H)
    as (variable & sample & out_var & Hvar & _ & Hout & _ & Hdims & Hattrs).
  exists t', out_var. vm_compute in Hvar. injection Hvar as <-.
  split_and!; [reflexivity|exact Hout|exact Hdims|exact Hattrs].
Defined.

(** [warp_like] on the sample data, into an empty output: the cell (0, 1),
    where the template holds its fill value, holds the fill value of [t] in
    slice 1. *)
Lemma warp_like_keeps_template_gaps_witness :
  ∃ out_ds' out_var fill_value,
    warp_like library_fillvals reproject_99 (λ _ _ _, Ok (2%nat, 2%nat))
      (λ _, Ok (VInt 0)) 3 warp_source ["t"] empty_dataset warp_template_ds "tpl"
    = Ok out_ds'
    ∧ variables out_ds' !! "t" = Some out_var
    ∧ ncattrs out_var !! "_FillValue" = Some fill_value
    ∧ cell_at [1; 0; 1]%nat (var_data out_var) = Some fill_value.
Proof.
  destruct (warp_like library_fillvals reproject_99 (λ _ _ _, Ok (2%nat, 2%nat))
              (λ _, Ok (VInt 0)) 3 warp_source ["t"] empty_dataset
              warp_template_ds "tpl") as [t'|e] eqn:H;
    [|vm_compute in H; discriminate].
  destruct (warp_like_keeps_template_gaps _ _ _ _ _ _ _ _ _ _ _ H)
    as (template_variable & Htpl & Hall).
  - intros v w wv Hv Hw Hwv. apply list_elem_of_singleton in Hv as ->.
    apply list_elem_of_singleton in Hw as ->. vm_compute in Hwv.
    injection Hwv as <-. simpl. intros Hin.
    apply list_elem_of_singleton in Hin. discriminate.
  - destruct (Hall "t") as (variable & out_var & fill_value & Hvar & Hout & Hfill
                            & Hcells); [apply list_elem_of_here|].
    exists t', out_var, fill_value. split_and!; [reflexivity|exact Hout|exact Hfill|].
    vm_compute in Htpl. injection Htpl as <-.
    vm_compute in Hvar. injection Hvar as <-.
    specialize (Hcells 0%nat 1%nat (VInt 0) eq_refl eq_refl). simpl in Hcells.
    apply (Hcells 1%nat _ eq_refl). simpl. lia.
Defined.


Lemma fill_value_table_coverage_witness :
  ∃ fv, get_fill_value_for_variable library_fillvals (scalar_variable int8 []) = Ok fv.
Proof.
  apply (proj1 (fill_value_table_coverage library_fillvals (scalar_variable int8 [])
                  eq_refl eq_refl eq_refl)).
  apply list_elem_of_here.
Defined.

(** The string variable [names] has no fill value, and no subset of it can
    be taken without the keyword. *)
Lemma no_fill_value_no_subset_witness :
  extract_subset library_fillvals 4 names_source empty_dataset "names" [None] None
    100000000 None ≠ Ok empty_dataset.
Proof.
  apply (proj1 (no_fill_value_no_subset library_fillvals names_variable
                  eq_refl eq_refl eq_refl eq_refl)).
  reflexivity.
Defined.
